(** * Crypto portfolio optimizer: data layer and optimization engine

    A shallow embedding of [src/data.py] and [src/optimizer.py].

    Conventions of the embedding.
    - Python floats are idealised as rationals ([Q]); equalities between
      computed numbers are stated with [==].
    - The file system holding the cache is a finite map from paths to file
      contents; the wall clock and the HTTP providers are oracles indexed by
      a step counter, so that two requests for the same coin may be answered
      differently.
    - Functions with effects run in a state monad over [World]; every cache
      access and provider request is recorded in the world's trace.
    - pandas data frames are a row index with named columns of optional
      cells ([None] is NaN). *)

From Stdlib Require Import QArith Qround ZArith Lia Lqa Sorted.
From stdpp Require Import gmap strings list pretty.

Local Open Scope Z_scope.
Local Open Scope string_scope.
Local Open Scope list_scope.

(** ** Rational helpers *)

Definition Qltb (x y : Q) : bool := negb (Qle_bool y x).
Definition Qgtb (x y : Q) : bool := Qltb y x.
Definition Qmin (x y : Q) : Q := if Qle_bool x y then x else y.
Definition Qmax (x y : Q) : Q := if Qle_bool x y then y else x.

(** ** Data frames *)

Record DataFrame := mkDataFrame {
  index : list Z;
  columns : list (string * list (option Q))
}.

(** [pd.DataFrame()] *)
Definition empty_frame : DataFrame := mkDataFrame [] [].

Definition column_names (df : DataFrame) : list string := map fst (columns df).

(** [len(df)]: the number of rows. *)
Definition df_len (df : DataFrame) : Z := Z.of_nat (length (index df)).

(** [df.empty]: some axis has length zero. *)
Definition df_is_empty (df : DataFrame) : bool :=
  match index df, columns df with
  | [], _ => true
  | _, [] => true
  | _, _ => false
  end.

(** [Series.ffill()]: a missing cell takes the last present value above it. *)
Fixpoint ffill_from (prev : option Q) (l : list (option Q)) : list (option Q) :=
  match l with
  | [] => []
  | x :: r =>
      let v := match x with Some _ => x | None => prev end in
      v :: ffill_from v r
  end.

Definition ffill_col (l : list (option Q)) : list (option Q) := ffill_from None l.

(** [Series.bfill()]: a missing cell takes the next present value below it. *)
Fixpoint bfill_col (l : list (option Q)) : list (option Q) :=
  match l with
  | [] => []
  | x :: r =>
      let r' := bfill_col r in
      match x with
      | Some _ => x :: r'
      | None => hd None r' :: r'
      end
  end.

Definition map_columns (f : list (option Q) -> list (option Q)) (df : DataFrame)
  : DataFrame :=
  mkDataFrame (index df) (map (fun c => (fst c, f (snd c))) (columns df)).

Definition ffill (df : DataFrame) : DataFrame := map_columns ffill_col df.
Definition bfill (df : DataFrame) : DataFrame := map_columns bfill_col df.

Definition is_missing (c : option Q) : bool :=
  match c with None => true | Some _ => false end.

Definition col_has_missing (l : list (option Q)) : bool := existsb is_missing l.
Definition col_all_missing (l : list (option Q)) : bool := forallb is_missing l.

(** [df.isna().any().any()] *)
Definition has_missing (df : DataFrame) : bool :=
  existsb (fun c => col_has_missing (snd c)) (columns df).

(** ** The data layer, [src/data.py] *)

Module Data.

(** [symbol_to_id]: ticker symbol to provider coin identifier. *)
Definition symbol_table : list (string * string) :=
  [ ("BTC", "bitcoin"); ("ETH", "ethereum"); ("USDT", "tether");
    ("BNB", "binancecoin"); ("SOL", "solana"); ("XRP", "ripple");
    ("ADA", "cardano"); ("DOGE", "dogecoin"); ("AVAX", "avalanche-2");
    ("DOT", "polkadot"); ("MATIC", "matic-network"); ("LTC", "litecoin");
    ("TRX", "tron"); ("BCH", "bitcoin-cash"); ("LINK", "chainlink");
    ("XLM", "stellar"); ("ATOM", "cosmos"); ("FIL", "filecoin");
    ("UNI", "uniswap"); ("ICP", "internet-computer");
    ("ETC", "ethereum-classic") ].

Definition symbol_to_id : gmap string string := list_to_map symbol_table.

(** [s in symbol_to_id] *)
Definition known_symbol (s : string) : bool :=
  match symbol_to_id !! s with Some _ => true | None => false end.

(** A provider series: [[timestampMs, price], ...]. *)
Definition series := list (Z * Q).

(** The dictionary [{'prices': series}] that is fetched and cached. *)
Record hist_data := mkHist { prices : series }.

(** A file of the cache directory: a JSON record written by
    [save_to_cache], or bytes that [json.load] rejects. *)
Inductive file :=
| Corrupt
| CacheRecord (timestamp : Q) (data : hist_data).

Inductive Source := coingecko | coinapi.

Inductive Event :=
| EvCacheRead (path : string)
| EvCacheWrite (path : string)
| EvFetch (src : Source) (coin_id : string) (days : Z).

Record World := mkWorld {
  files : gmap string file;
  tick : nat;
  trace : list Event
}.

(** The environment outside the program: the clock read by [time.time()]
    and the providers behind [api_call_with_retry]; both depend on the
    step at which they are consulted. [history] is the whole of
    [api_call_with_retry] followed by the provider's [extract_history]:
    [None] when the request fails on every retry, answers nothing, or the
    extraction raises. *)
Record Env := mkEnv {
  time_at : nat -> Q;
  history : nat -> Source -> string -> Z -> option series
}.

Definition M (A : Type) : Type := World -> A * World.
Definition ret {A} (a : A) : M A := fun w => (a, w).
Definition bind {A B} (m : M A) (k : A -> M B) : M B :=
  fun w => let '(a, w') := m w in k a w'.

Notation "'let*' x ':=' m 'in' k" := (bind m (fun x => k))
  (at level 10, x pattern, m at level 100, k at level 200).

Section WithEnv.
Variable env : Env.

(** [time.time()] *)
Definition time_time : M Q :=
  fun w => (time_at env (tick w), mkWorld (files w) (S (tick w)) (trace w)).

Definition read_file (path : string) : M (option file) :=
  fun w => (files w !! path,
            mkWorld (files w) (tick w) (trace w ++ [EvCacheRead path])).

Definition write_file (path : string) (f : file) : M unit :=
  fun w => (tt, mkWorld (<[path := f]> (files w)) (tick w)
                        (trace w ++ [EvCacheWrite path])).

(** [get_cache_path]: [f"{coin_id}_{days}days.json"] under the cache
    directory. *)
Definition get_cache_path (coin_id : string) (days : Z) : string :=
  coin_id +:+ "_" +:+ pretty days +:+ "days.json".

(** [save_to_cache] *)
Definition save_to_cache (coin_id : string) (days : Z) (data : hist_data)
  : M unit :=
  let cache_path := get_cache_path coin_id days in
  let* now := time_time in
  write_file cache_path (CacheRecord now data).

(** [load_from_cache]: no file, an unreadable file and a record older than
    [max_age_hours] all give [None]. The age test is
    [cache_age > max_age_hours * 3600]. *)
Definition load_from_cache (coin_id : string) (days : Z) (max_age_hours : Q)
  : M (option hist_data) :=
  let cache_path := get_cache_path coin_id days in
  let* f := read_file cache_path in
  match f with
  | None => ret None
  | Some Corrupt => ret None
  | Some (CacheRecord timestamp data) =>
      let* now := time_time in
      let cache_age := (now - timestamp)%Q in
      if Qgtb cache_age (max_age_hours * 3600)%Q then ret None
      else ret (Some data)
  end.

(** [_get_historical_data]: one request to the provider. *)
Definition _get_historical_data (source_key : Source) (coin_id : string)
    (days : Z) : M (option hist_data) :=
  fun w =>
    (option_map mkHist (history env (tick w) source_key coin_id days),
     mkWorld (files w) (S (tick w))
             (trace w ++ [EvFetch source_key coin_id days])).

(** Day bucket of a millisecond timestamp ([resample('D')], with the
    local time zone taken to be UTC). *)
Definition day_of (ts : Z) : Z := ts / 86400000.

(** [resample('D').last()] for one column: the price of the latest point of
    the series that falls on day [d], if any. *)
Fixpoint last_on_day (d : Z) (best : option (Z * Q)) (s : series) : option Q :=
  match s with
  | [] => option_map snd best
  | (ts, p) :: r =>
      if Z.eqb (day_of ts) d then
        match best with
        | Some (ts', _) =>
            if Z.leb ts' ts then last_on_day d (Some (ts, p)) r
            else last_on_day d best r
        | None => last_on_day d (Some (ts, p)) r
        end
      else last_on_day d best r
  end.

Definition all_days (all_prices : list (string * series)) : list Z :=
  concat (map (fun c => map (fun pt => day_of (fst pt)) (snd c)) all_prices).

Definition Zlist_min (d : Z) (l : list Z) : Z := fold_right Z.min d l.
Definition Zlist_max (d : Z) (l : list Z) : Z := fold_right Z.max d l.

(** The daily axis from the first to the last day that has a point. *)
Definition daily_index (all_prices : list (string * series)) : list Z :=
  match all_days all_prices with
  | [] => []
  | d :: ds =>
      let lo := Zlist_min d ds in
      let hi := Zlist_max d ds in
      map (fun k => lo + Z.of_nat k) (seq 0 (Z.to_nat (hi - lo + 1)))
  end.

(** [pd.concat(all_prices, axis=1)], [sort_index()] and
    [resample('D').last()]: one column per collected frame, in collection
    order, over the common daily axis. The timestamps of a series are taken
    to be distinct, as the outer join of [pd.concat] needs them. *)
Definition concat_daily (all_prices : list (string * series)) : DataFrame :=
  let idx := daily_index all_prices in
  mkDataFrame idx
    (map (fun c => (fst c, map (fun d => last_on_day d None (snd c)) idx))
         all_prices).

(** The body of the loop of [get_historical_prices] for one symbol:
    cache first, then the primary provider, then the alternate one. A
    cached or fetched dictionary is not [None], hence true in the tests
    [if cached_data] and [if data]; series are lists of
    (timestamp, price) pairs, so that building the frame cannot raise. *)
Definition fetch_symbol (days : Z) (use_multiple_sources : bool)
    (symbol : string)
    (acc : list (string * series) * list string)
  : M (list (string * series) * list string) :=
  let '(all_prices, missing_symbols) := acc in
  let coin_id := symbol_to_id !!! symbol in
  let* cached_data := load_from_cache coin_id days 24 in
  match cached_data with
  | Some d => ret (all_prices ++ [(symbol, prices d)], missing_symbols)
  | None =>
      let* data := _get_historical_data coingecko coin_id days in
      let* data :=
        match data with
        | None =>
            if use_multiple_sources
            then _get_historical_data coinapi coin_id days
            else ret data
        | Some _ => ret data
        end in
      match data with
      | Some d =>
          let* _ := save_to_cache coin_id days d in
          ret (all_prices ++ [(symbol, prices d)], missing_symbols)
      | None => ret (all_prices, missing_symbols ++ [symbol])
      end
  end.

Fixpoint fetch_all (days : Z) (use_multiple_sources : bool)
    (symbols : list string)
    (acc : list (string * series) * list string)
  : M (list (string * series) * list string) :=
  match symbols with
  | [] => ret acc
  | s :: rest =>
      let* acc' := fetch_symbol days use_multiple_sources s acc in
      fetch_all days use_multiple_sources rest acc'
  end.

(** [get_historical_prices] *)
Definition get_historical_prices (symbols : list string) (days : Z)
    (use_multiple_sources : bool) : M (DataFrame * list string) :=
  let valid_symbols := List.filter known_symbol symbols in
  match valid_symbols with
  | [] => ret (empty_frame, [])
  | _ =>
      let* r := fetch_all days use_multiple_sources valid_symbols ([], []) in
      let '(all_prices, missing_symbols) := r in
      match all_prices with
      | [] => ret (empty_frame, valid_symbols)
      | _ =>
          let combined_prices := concat_daily all_prices in
          ret (bfill (ffill combined_prices), missing_symbols)
      end
  end.

End WithEnv.

(** *** Small worlds used to run the functions *)

Definition empty_world : World := mkWorld ∅ 0 [].

(** A provider that never answers and a clock that stands still. *)
Definition silent_env : Env := mkEnv (fun _ => 0%Q) (fun _ _ _ _ => None).

End Data.

(** ** The optimization engine, [src/optimizer.py] *)

Module Optimizer.
Import Data.

Definition Qabs' (x : Q) : Q := if Qle_bool 0 x then x else (- x)%Q.
(** Sums keep their fractions in lowest terms. *)
Definition Qsum (l : list Q) : Q :=
  fold_right (fun x acc => Qred (x + acc)) 0%Q l.
Definition Qlen {A} (l : list A) : Q := inject_Z (Z.of_nat (length l)).

(** A mean over no values is NaN in pandas; [None] here. *)
Definition Qmean (l : list Q) : option Q :=
  match l with
  | [] => None
  | _ => Some (Qsum l / Qlen l)%Q
  end.

(** Comparisons with NaN are false. *)
Definition nan_gtb (x : option Q) (y : Q) : bool :=
  match x with Some v => Qgtb v y | None => false end.

Definition count {A} (f : A -> bool) (l : list A) : Z :=
  Z.of_nat (length (List.filter f l)).

(** *** Data Validator *)

Inductive Issue :=
| InsufficientData (available : Z) (required : Q)
| HighMissing (pct : Q)
| ExtremeMoves (days : Z)
| StalePrices (days : Z)
| StatisticalOutliers (days : Z).

(** [hist_prices.isna().mean().mean() * 100] *)
Definition missing_pct (df : DataFrame) : option Q :=
  let col_ratio (c : string * list (option Q)) : option Q :=
    Qmean (map (fun x => if is_missing x then 1%Q else 0%Q) (snd c)) in
  match mapM col_ratio (columns df) with
  | Some ratios => option_map (fun m => (m * 100)%Q) (Qmean ratios)
  | None => None
  end.

(** [Series.pct_change()]: the first row has no value; a row whose current
    or previous price is missing has none either. A previous price of zero,
    for which pandas yields a non-finite number, is treated as missing
    (provider prices are positive). *)
Fixpoint pct_change_from (prev : option Q) (l : list (option Q))
  : list (option Q) :=
  match l with
  | [] => []
  | x :: r =>
      let v := match prev, x with
               | Some a, Some b =>
                   if Qeq_bool a 0 then None else Some (Qred ((b - a) / a))
               | _, _ => None
               end in
      v :: pct_change_from x r
  end.

Definition pct_change_col (l : list (option Q)) : list (option Q) :=
  match l with
  | [] => []
  | x :: r => None :: pct_change_from x r
  end.

(** Row [i] of a list of columns. *)
Definition row_at (cols : list (list (option Q))) (i : nat) : list (option Q) :=
  map (fun c => nth i c None) cols.

Definition rows_of (n : nat) (cols : list (list (option Q)))
  : list (list (option Q)) :=
  map (row_at cols) (seq 0 n).

(** [dropna()]: keep the rows without a missing cell. *)
Definition dropna (rows : list (list (option Q))) : list (list Q) :=
  omap (mapM (fun x : option Q => x)) rows.

(** [cleaned_data.pct_change().dropna()], as rows. *)
Definition daily_returns (df : DataFrame) : list (list Q) :=
  dropna (rows_of (length (index df))
                  (map (fun c => pct_change_col (snd c)) (columns df))).

(** [(daily_returns.abs() > 0.3).any(axis=1).sum()] *)
Definition extreme_days (rets : list (list Q)) : Z :=
  count (existsb (fun r => Qgtb (Qabs' r) 0.3)) rets.

(** [(daily_returns.abs() < 0.0001).all(axis=1).sum()] *)
Definition stale_days (rets : list (list Q)) : Z :=
  count (forallb (fun r => Qltb (Qabs' r) 0.0001)) rets.

(** Column [j] of the return rows. *)
Definition ret_col (rets : list (list Q)) (j : nat) : list Q :=
  map (fun r => nth j r 0%Q) rets.

(** Population variance, as [scipy.stats.zscore] uses it. *)
Definition variance (l : list Q) : Q :=
  match Qmean l with
  | None => 0%Q
  | Some m =>
      match Qmean (map (fun x => Qred ((x - m) * (x - m))) l) with
      | Some v => v
      | None => 0%Q
      end
  end.

(** Mean and population variance of a column of returns, computed once per
    column; a column without rows has none. *)
Definition column_stats (rets : list (list Q)) (j : nat) : option (Q * Q) :=
  let col := ret_col rets j in
  match Qmean col with
  | None => None
  | Some m => Some (m, variance col)
  end.

(** [abs(z) > 3] for a value [x] of a column with mean [m] and variance
    [v]: the same as [(x - m)^2 > 9 * v]; a constant column has no z-score
    above 3. *)
Definition z_above_3 (stats : option (Q * Q)) (x : Q) : bool :=
  match stats with
  | None => false
  | Some (m, v) => Qgtb ((x - m) * (x - m)) (9 * v)
  end.

(** [(np.abs(z_scores) > 3).any(axis=1).sum()] *)
Definition outlier_days (rets : list (list Q)) : Z :=
  let ncols := match rets with [] => O | r :: _ => length r end in
  let stats := map (column_stats rets) (seq 0 ncols) in
  count (fun r =>
           existsb (fun xs => z_above_3 (snd xs) (fst xs)) (zip r stats))
        rets.

(** Minimum number of rows: [min(lookback_days * 0.8, 20)]. *)
Definition min_required (lookback_days : Z) : Q :=
  Qmin (inject_Z lookback_days * 0.8) 20.

(** [validate_price_data]: [(is_valid, issues, cleaned_data)]. *)
Definition validate_price_data (hist_prices : DataFrame) (lookback_days : Z)
  : bool * list Issue * DataFrame :=
  let lookback := inject_Z lookback_days in
  if Qltb (inject_Z (df_len hist_prices)) (min_required lookback_days) then
    (false,
     [InsufficientData (df_len hist_prices) (min_required lookback_days)],
     hist_prices)
  else
    let pct := missing_pct hist_prices in
    let '(is_valid, issues) :=
      if nan_gtb pct 5
      then ((if nan_gtb pct 20 then false else true),
            [HighMissing (default 0%Q pct)])
      else (true, []) in
    let cleaned_data := bfill (ffill hist_prices) in
    let rets := daily_returns cleaned_data in
    let issues :=
      if Z.ltb 0 (extreme_days rets)
      then issues ++ [ExtremeMoves (extreme_days rets)] else issues in
    let stale := inject_Z (stale_days rets) in
    let '(is_valid, issues) :=
      if Qgtb stale (lookback * 0.1)
      then ((if Qgtb stale (lookback * 0.3) then false else is_valid),
            issues ++ [StalePrices (stale_days rets)])
      else (is_valid, issues) in
    let issues :=
      if Qgtb (inject_Z (outlier_days rets)) (lookback * 0.1)
      then issues ++ [StatisticalOutliers (outlier_days rets)] else issues in
    (is_valid, issues, cleaned_data).

(** The early return of the minimum-points check was taken. *)
Definition short_circuited (r : bool * list Issue * DataFrame) : bool :=
  match r with
  | (false, [InsufficientData _ _], _) => true
  | _ => false
  end.

(** *** The portfolio library

    PyPortfolioOpt, numpy and scipy are outside the repository: the
    estimators, the convex solver and the discrete allocation are taken as
    an interface. [None] stands for a raised exception. *)

Inductive Objective := MaxSharpe | MinVolatility | EfficientRisk (target : Q).

(** The problem handed to [EfficientFrontier(mu, S)]: the weights are
    non-negative and sum to one; [upper] is the constraint
    [w <= max_weight], [lower] the constraint [w >= min_weight] when it is
    added, [l2_gamma] the coefficient of the [L2_reg] objective. *)
Record Problem := mkProblem {
  p_mu : list Q;
  p_cov : list (list Q);
  upper : Q;
  lower : option Q;
  l2_gamma : Q;
  objective : Objective
}.

Record FrontierPoint := mkPoint { volatility : Q; return_ : Q }.

(** Values stored in the result dictionary. *)
Inductive Warning := HighReturn | HighSharpe.

Inductive Note :=
| TooFewAssets
| NotEnoughHistory (missing : list string)
| OptimizationFailed
| Diagnostics (warning : option Warning) (issues : list Issue).

Inductive Value :=
| VNone
| VNum (q : Q)
| VInt (z : Z)
| VWeights (w : list (string * Q))
| VPoints (pts : list FrontierPoint)
| VMatrix (m : list (list Q))
| VFrame (d : DataFrame)
| VSymbols (l : list string)
| VNote (n : Note).

Definition ResultDict := list (string * Value).

Fixpoint dict_get (k : string) (d : ResultDict) : option Value :=
  match d with
  | [] => None
  | (k', v) :: r => if String.eqb k k' then Some v else dict_get k r
  end.

Record Library := mkLibrary {
  ema_historical_return : DataFrame -> Z -> option (list Q);
  mean_historical_return : DataFrame -> option (list Q);
  capm_return : DataFrame -> option (list Q);
  annualized_log_return : DataFrame -> option (list Q);
  ledoit_wolf : DataFrame -> option (list (list Q));
  solve : Problem -> option (list Q);
  clean_weights : list (string * Q) -> Q -> list (string * Q);
  portfolio_performance :
    Problem -> list Q -> Q -> option (Q * Q * Q);
  greedy_portfolio :
    list (string * Q) -> list (string * Q) -> Q ->
    option (list (string * Q) * Q);
  frontier_constructs : list Q -> list (list Q) -> bool;
  frontier_min_volatility : list Q -> list (list Q) -> option Q;
  frontier_max_sharpe : list Q -> list (list Q) -> option Q;
  frontier_efficient_risk : list Q -> list (list Q) -> Q -> option (Q * Q);
  correlation : DataFrame -> option (list (list Q));
  historical_returns : DataFrame -> option DataFrame;
  rolling_metrics : DataFrame -> Q -> option DataFrame
}.

(** *** Frontier Generator *)

(** [np.linspace(a, b, n)] *)
Definition linspace (a b : Q) (n : nat) : list Q :=
  map (fun i => (a + inject_Z (Z.of_nat i) * ((b - a) / inject_Z (Z.of_nat (n - 1))))%Q)
      (seq 0 n).

(** The five fallback points: [vol = 0.2 + i * 0.1],
    [ret = 0.05 + vol * 1.2]. *)
Definition fallback_point (i : nat) : FrontierPoint :=
  let vol := (0.2 + inject_Z (Z.of_nat i) * 0.1)%Q in
  mkPoint vol (0.05 + vol * 1.2)%Q.

Definition fallback_points : list FrontierPoint := map fallback_point (seq 0 5).

Section WithLibrary.
Variable lib : Library.

(** [min_risk] and [max_risk] of the target range. *)
Definition min_risk (min_vol : Q) : Q := Qmin (min_vol * 0.9) 0.1.
Definition max_risk (max_sharpe_vol : Q) : Q := Qmax (max_sharpe_vol * 1.5) 0.6.

Definition anchor_min_vol (mu : list Q) (S : list (list Q)) : Q :=
  default 0.15%Q (frontier_min_volatility lib mu S).

Definition anchor_max_sharpe_vol (mu : list Q) (S : list (list Q)) : Q :=
  default 0.4%Q (frontier_max_sharpe lib mu S).

(** [risk_range]: the target volatilities. *)
Definition risk_range (mu : list Q) (S : list (list Q)) : list Q :=
  linspace (min_risk (anchor_min_vol mu S))
           (max_risk (anchor_max_sharpe_vol mu S)) 15.

(** The points of the targets that solve, in target order. *)
Definition solved_points (mu : list Q) (S : list (list Q)) (targets : list Q)
  : list FrontierPoint :=
  omap (fun target_risk =>
          match frontier_efficient_risk lib mu S target_risk with
          | Some (ret, vol) => Some (mkPoint vol ret)
          | None => None
          end) targets.

(** [generate_efficient_frontier_data] *)
Definition generate_efficient_frontier_data (mu : list Q) (S : list (list Q))
  : list FrontierPoint :=
  if frontier_constructs lib mu S then
    let frontier_points := solved_points mu S (risk_range mu S) in
    if Nat.ltb (length frontier_points) 3
    then frontier_points ++ fallback_points
    else frontier_points
  else fallback_points.

(** *** Optimizer *)

(** The [preferences] argument: absent, not a dictionary, or a dictionary.
    A dictionary is given by its numeric entries; [PrefInvalid] is a
    dictionary whose [max_weight] or [min_weight] entry is not a number (a
    JSON null or a string), on which the [min] and [max] of the weight
    bounds raise. *)
Inductive Preferences :=
| PrefNone
| PrefNotDict
| PrefDict (d : gmap string Q)
| PrefInvalid.

(** Whether computing the weight bounds raises. *)
Definition invalid_weight_preference (p : Preferences) : bool :=
  match p with PrefInvalid => true | _ => false end.

Definition pref_dict (p : Preferences) : gmap string Q :=
  match p with PrefDict d => d | _ => ∅ end.

Definition effective_max_weight (p : Preferences) : Q :=
  Qmin (default 0.6%Q (pref_dict p !! "max_weight")) 0.8.

Definition effective_min_weight (p : Preferences) : Q :=
  Qmax (default 0.05%Q (pref_dict p !! "min_weight")) 0.01.

(** Python's [round(v, 4)], half to even. *)
Definition round_half_even (x : Q) : Z :=
  let f := Qfloor x in
  let frac := (x - inject_Z f)%Q in
  if Qltb frac (1 # 2) then f
  else if Qltb (1 # 2) frac then f + 1
  else if Z.even f then f else f + 1.

Definition round4 (v : Q) : Q := (inject_Z (round_half_even (v * 10000)) / 10000)%Q.

(** [{k: round(v, 4) for k, v in weights.items() if v > 0.001}] *)
Definition round_weights (weights : list (string * Q)) : list (string * Q) :=
  map (fun kv => (fst kv, round4 (snd kv)))
      (List.filter (fun kv => Qgtb (snd kv) 0.001) weights).

Definition median4 (a b c d : Q) : Q :=
  let lo := Qmin (Qmin a b) (Qmin c d) in
  let hi := Qmax (Qmax a b) (Qmax c d) in
  ((a + b + c + d - lo - hi) / 2)%Q.

Definition clip (lo hi x : Q) : Q := Qmin (Qmax x lo) hi.

(** Per-asset median of the four estimates, clipped to [-0.5, 0.75]. *)
Fixpoint combine_returns (ema mean capm log : list Q) : list Q :=
  match ema, mean, capm, log with
  | a :: ema', b :: mean', c :: capm', d :: log' =>
      clip (-0.5) 0.75 (median4 a b c d)
      :: combine_returns ema' mean' capm' log'
  | _, _, _, _ => []
  end.

Definition null_result (note : Note) : ResultDict :=
  [ ("optimized_weights", VNone); ("expected_return", VNone);
    ("volatility", VNone); ("sharpe_ratio", VNone); ("note", VNote note) ].

(** [sum(holdings[s] * prices.get(s, 0) for s in holdings)]; multiplying by
    a [None] price raises. *)
Fixpoint total_value (holdings : list (string * Q))
    (prices : gmap string (option Q)) : option Q :=
  match holdings with
  | [] => Some 0%Q
  | (s, amount) :: rest =>
      match prices !! s with
      | Some None => None
      | Some (Some p) => option_map (Qplus (amount * p)) (total_value rest prices)
      | None => option_map (Qplus (amount * 0)) (total_value rest prices)
      end
  end.

(** The prices of the symbols of the cleaned weights that have one. *)
Definition price_series (cleaned_weights : list (string * Q))
    (prices : gmap string (option Q)) : list (string * Q) :=
  omap (fun kv => match prices !! fst kv with
                  | Some (Some p) => Some (fst kv, p)
                  | _ => None
                  end) cleaned_weights.

(** The discrete allocation step: the allocation and the unallocated
    fraction, or [None] when it is skipped or fails. *)
Definition discrete_allocation (holdings : list (string * Q))
    (cleaned_weights : list (string * Q))
    (prices : option (gmap string (option Q)))
  : option (list (string * Q) * Q) :=
  match prices with
  | None => None
  | Some prices =>
      match total_value holdings prices with
      | None => None
      | Some total =>
          let ps := price_series cleaned_weights prices in
          if Nat.eqb (length ps) (length cleaned_weights) then
            match greedy_portfolio lib cleaned_weights ps total with
            | Some (allocation, leftover) =>
                let leftover_pct :=
                  if Qgtb total 0 then (leftover / total)%Q else 0%Q in
                Some (allocation, leftover_pct)
            | None => None
            end
          else None
      end
  end.

Definition make_note (expected_return sharpe : Q) (data_issues : list Issue)
  : option Note :=
  let warning :=
    if Qgtb expected_return 1 then Some HighReturn
    else if Qgtb sharpe 3 then Some HighSharpe
    else None in
  match data_issues, warning with
  | [], None => None
  | _, _ => Some (Diagnostics warning (firstn 2 data_issues))
  end.

(** The body of the [try] block of [optimize_portfolio]; [None] is an
    exception, caught by the caller. *)
Definition optimize_core (holdings : list (string * Q)) (risk_method : string)
    (max_weight min_weight : Q) (target_volatility : option Q)
    (prices : option (gmap string (option Q)))
    (lookback_days : Z) (risk_free_rate : Q)
    (cleaned_hist_prices : DataFrame) (data_issues : list Issue)
    (historical_returns_data : DataFrame) (missing_symbols : list string)
  : option ResultDict :=
  ann_return ← annualized_log_return lib cleaned_hist_prices;
  ema_returns ← ema_historical_return lib cleaned_hist_prices (lookback_days / 3);
  mean_returns ← mean_historical_return lib cleaned_hist_prices;
  capm_returns ← capm_return lib cleaned_hist_prices;
  let mu := combine_returns ema_returns mean_returns capm_returns ann_return in
  S ← ledoit_wolf lib cleaned_hist_prices;
  let many := Nat.ltb 3 (length mu) in
  let min_weight := if many then 0.05%Q else min_weight in
  let objective :=
    if String.eqb risk_method "max_sharpe" then MaxSharpe
    else if String.eqb risk_method "min_volatility" then MinVolatility
    else if String.eqb risk_method "efficient_risk" then
      match target_volatility with
      | Some t => EfficientRisk t
      | None => MaxSharpe
      end
    else MaxSharpe in
  let problem :=
    mkProblem mu S max_weight (if many then Some min_weight else None)
              0.3 objective in
  w ← solve lib problem;
  let weights := zip (column_names cleaned_hist_prices) w in
  let cleaned_weights := clean_weights lib weights min_weight in
  perf ← portfolio_performance lib problem w risk_free_rate;
  let '(expected_return, volatility, sharpe) := perf in
  let allocation := discrete_allocation holdings cleaned_weights prices in
  let frontier_data := generate_efficient_frontier_data mu S in
  let correlation_data := default [] (correlation lib cleaned_hist_prices) in
  let weights := round_weights weights in
  let note := make_note expected_return sharpe data_issues in
  rolling ← rolling_metrics lib cleaned_hist_prices risk_free_rate;
  let result :=
    [ ("optimized_weights", VWeights weights);
      ("expected_return", VNum expected_return);
      ("volatility", VNum volatility);
      ("sharpe_ratio", VNum sharpe);
      ("efficient_frontier", VPoints frontier_data);
      ("correlation_matrix", VMatrix correlation_data);
      ("historical_returns", VFrame historical_returns_data);
      ("lookback_days", VInt lookback_days);
      ("rolling_metrics", VFrame rolling) ] in
  let result :=
    match note with
    | Some n => result ++ [("note", VNote n)]
    | None => result
    end in
  let result :=
    match missing_symbols with
    | [] => result
    | _ => result ++ [("missing_symbols", VSymbols missing_symbols)]
    end in
  Some result.

Inductive Outcome :=
| Returned (result : ResultDict)
| Raised.

Section WithEnv.
Variable env : Env.

(** [optimize_portfolio] *)
Definition optimize_portfolio (holdings : list (string * Q))
    (risk_method : string) (preferences : Preferences)
    (prices : option (gmap string (option Q)))
    (lookback_days : Z) (risk_free_rate : Q) : M Outcome :=
  let symbols := map fst holdings in
  if Nat.ltb (length symbols) 2 then
    Data.ret (Returned (null_result TooFewAssets))
  else if invalid_weight_preference preferences then
    Data.ret Raised
  else
    let max_weight := effective_max_weight preferences in
    let min_weight := effective_min_weight preferences in
    let target_volatility := pref_dict preferences !! "target_volatility" in
    let* r := get_historical_prices env symbols lookback_days true in
    let '(hist_prices, missing_symbols) := r in
    if df_is_empty hist_prices
       || Nat.ltb (length (columns hist_prices)) 2
    then Data.ret (Returned (null_result (NotEnoughHistory missing_symbols)))
    else
      let '(is_valid, data_issues, cleaned_hist_prices) :=
        validate_price_data hist_prices lookback_days in
      match historical_returns lib cleaned_hist_prices with
      | None => Data.ret Raised
      | Some historical_returns_data =>
          match optimize_core holdings risk_method max_weight min_weight
                  target_volatility prices lookback_days risk_free_rate
                  cleaned_hist_prices data_issues historical_returns_data
                  missing_symbols with
          | Some result => Data.ret (Returned result)
          | None => Data.ret (Returned (null_result OptimizationFailed))
          end
      end.

End WithEnv.
End WithLibrary.

End Optimizer.

(** * Sample inputs

    Small environments, frames and libraries on which the functions are
    run. *)

Import Data Optimizer.

(** A clock that advances one second per step and providers that never
    answer. *)
Definition second_clock_env : Env :=
  mkEnv (fun n => inject_Z (Z.of_nat n)) (fun _ _ _ _ => None).

(** A clock that reads 0 at the first step and exactly 24 hours later at
    every other step. *)
Definition day_later_env : Env :=
  mkEnv (fun n => match n with O => 0%Q | _ => 86400%Q end)
        (fun _ _ _ _ => None).

Definition sample_data : hist_data :=
  mkHist [(1700000000000, 35000%Q); (1700086400000, 36000%Q)].

(** Providers that answer every request with the same two-day series. *)
Definition steady_env : Env :=
  mkEnv (fun n => inject_Z (Z.of_nat n))
        (fun _ _ _ _ => Some [(0, 100%Q); (86400000, 110%Q)]).


(** A frame of two rows with a gap in the BTC column. *)
Definition gap_frame : DataFrame :=
  mkDataFrame [0; 1]
    [("BTC", [Some 1%Q; None]); ("ETH", [Some 2%Q; Some 3%Q])].

(** A frame of two rows whose BTC column has no value at all. *)
Definition blank_column_frame : DataFrame :=
  mkDataFrame [0; 1]
    [("BTC", [None; None]); ("ETH", [Some 2%Q; Some 3%Q])].

(** Thirty daily rows for two assets whose prices move up and down by a
    few percent. *)
Definition month_frame : DataFrame :=
  mkDataFrame (map Z.of_nat (seq 0 30))
    [("BTC", map (fun k => Some (if Nat.even k then 100%Q else 104%Q))
                 (seq 0 30));
     ("ETH", map (fun k => Some (if Nat.even k then 50%Q else 49%Q))
                 (seq 0 30))].

(** Floor allocation: each asset gets the whole units its share of the
    budget buys; the rest is left over. *)
Definition floor_allocation (weights prices : list (string * Q)) (total : Q)
  : option (list (string * Q) * Q) :=
  let units :=
    map (fun wp => (fst (fst wp),
                    inject_Z (Qfloor (snd (fst wp) * total / snd (snd wp)))))
        (zip weights prices) in
  let spent :=
    Qsum (map (fun up => (snd (fst up) * snd (snd up))%Q) (zip units prices)) in
  Some (units, Qred (total - spent)).

(** A library with constant estimates, whose solver and efficient-risk
    sub-solver are given. *)
Definition sample_library (solver : Problem -> option (list Q))
    (efficient_risk : Q -> option (Q * Q)) : Library :=
  mkLibrary
    (fun df _ => Some (map (fun _ => 0.2%Q) (columns df)))
    (fun df => Some (map (fun _ => 0.1%Q) (columns df)))
    (fun df => Some (map (fun _ => 0.15%Q) (columns df)))
    (fun df => Some (map (fun _ => 0.3%Q) (columns df)))
    (fun df => Some (map (fun _ => map (fun _ => 0.04%Q) (columns df))
                         (columns df)))
    solver
    (fun ws cutoff =>
       map (fun kv => (fst kv,
                       if Qltb (Qabs' (snd kv)) cutoff then 0%Q else snd kv))
           ws)
    (fun _ _ _ => Some (0.2%Q, 0.4%Q, 0.5%Q))
    floor_allocation
    (fun _ _ => true)
    (fun _ _ => None)
    (fun _ _ => None)
    (fun _ _ => efficient_risk)
    (fun _ => Some [])
    (fun _ => Some empty_frame)
    (fun _ _ => Some empty_frame).

(** A solver that answers the same weights whatever the problem. *)
Definition fixed_solver (w : list Q) : Problem -> option (list Q) :=
  fun _ => Some w.

(** A solver that spreads the budget evenly when the bounds allow it and
    reports the problem infeasible otherwise. *)
Definition equal_weight_solver (p : Problem) : option (list Q) :=
  match length (p_mu p) with
  | O => None
  | S n =>
      let x := (1 # Pos.of_succ_nat n)%Q in
      if Qle_bool x (upper p)
         && match lower p with Some lo => Qle_bool lo x | None => true end
      then Some (repeat x (S n)) else None
  end.



(** Every target solves exactly at the target. *)
Definition every_target : Q -> option (Q * Q) :=
  fun target => Some ((0.05 + target)%Q, target).

(** Thirty daily points, and providers that answer every request with
    them. *)
Definition month_series : series :=
  map (fun k => (Z.of_nat k * 86400000,
                 if Nat.even k then 100%Q else 104%Q)) (seq 0 30).

Definition month_env : Env :=
  mkEnv (fun n => inject_Z (Z.of_nat n)) (fun _ _ _ _ => Some month_series).

Definition live_prices : gmap string (option Q) :=
  <["BTC" := Some 60000%Q]> (<["ETH" := Some 3000%Q]>
    (<["SOL" := Some 150%Q]> ∅)).

(** The solver keeps the constraints it is given: weights between 0 and the
    upper bound that sum to one. *)
Definition solver_sound (lib : Library) : Prop :=
  forall p w, solve lib p = Some w ->
    Forall (fun x => (0 <= x <= upper p)%Q) w /\ (Qsum w == 1)%Q.

Definition three_holdings : list (string * Q) :=
  [("BTC", 1%Q); ("ETH", 2%Q); ("SOL", 10%Q)].

(** * Retrying requests, [api_call_with_retry] of [src/data.py] *)

Module Retry.

(** What one [requests.get] gives: status 429, a response whose status is
    fine and whose body parses, or a request error ([requests.get] or
    [raise_for_status] raising a [RequestException]). *)
Inductive Response (Body : Type) :=
| RateLimited
| Success (body : Body)
| RequestError.

Arguments RateLimited {Body}.
Arguments Success {Body} body.
Arguments RequestError {Body}.

(** What the function does to the outside: a request, numbered by its
    attempt, or a [time.sleep]. *)
Inductive Action :=
| Get (attempt : nat)
| Sleep (seconds : Q).

Section WithNetwork.
Context {Body : Type}.
Variable responses : nat -> Response Body.
Variable max_retries : nat.
Variable backoff_factor : Q.

(** [backoff_factor * (2 ** attempt)] *)
Definition wait_time (attempt : nat) : Q :=
  (backoff_factor * inject_Z (2 ^ Z.of_nat attempt))%Q.

(** The loop [for attempt in range(max_retries)], over the attempts that
    are left. *)
Fixpoint retry_loop (attempts : list nat) : option Body * list Action :=
  match attempts with
  | [] => (None, [])
  | attempt :: rest =>
      match responses attempt with
      | RateLimited =>
          let '(r, log) := retry_loop rest in
          (r, Get attempt :: Sleep (wait_time attempt) :: log)
      | Success body => (Some body, [Get attempt])
      | RequestError =>
          if Nat.eqb attempt (max_retries - 1) then (None, [Get attempt])
          else
            let '(r, log) := retry_loop rest in
            (r, Get attempt :: Sleep (wait_time attempt) :: log)
      end
  end.

(** [api_call_with_retry]: the answer and what was done to get it. *)
Definition api_call_with_retry : option Body * list Action :=
  retry_loop (seq 0 max_retries).

End WithNetwork.

(** The requests made and the pauses taken, in order. *)
Definition requests_of (log : list Action) : list nat :=
  omap (fun a => match a with Get i => Some i | Sleep _ => None end) log.

Definition sleeps_of (log : list Action) : list Q :=
  omap (fun a => match a with Sleep t => Some t | Get _ => None end) log.

(** A request followed by its back-off pause, for each of the attempts. *)
Definition backoff_rounds (backoff_factor : Q) (attempts : list nat)
  : list Action :=
  concat (map (fun i => [Get i; Sleep (wait_time backoff_factor i)]) attempts).

Definition total_sleep (log : list Action) : Q :=
  fold_right Qplus 0%Q (sleeps_of log).

(** A provider that answers 429 to the first [k] requests and then the
    body. *)
Definition busy_then {Body} (k : nat) (body : Body) (attempt : nat)
  : Response Body :=
  if Nat.ltb attempt k then RateLimited else Success body.

End Retry.

(** ** Cache file names *)

(** The character [_] that separates the coin from the window in a cache
    file name, and the strings that do not hold it. *)
Definition underscore : Ascii.ascii :=
  Ascii.Ascii true true true true true false true false.

Definition plain (s : string) : Prop :=
  underscore ∉ String.list_ascii_of_string s.

(** ** Cache contents, as the history loop sees them *)

(** The cache file of a symbol for a window. *)
Definition symbol_cache_path (symbol : string) (days : Z) : string :=
  Data.get_cache_path (Data.symbol_to_id !!! symbol) days.

(** The file holds a record that is at most 24 hours old when the clock
    is read at step [n]. *)
Definition fresh_at (env : Data.Env) (fs : gmap string Data.file)
    (path : string) (n : nat) : Prop :=
  exists t d, fs !! path = Some (Data.CacheRecord t d) /\
              (Data.time_at env n - t <= 24 * 3600)%Q.

(** The file holds a record, of whatever age. *)
Definition has_record (fs : gmap string Data.file) (path : string) : Prop :=
  exists t d, fs !! path = Some (Data.CacheRecord t d).

(** [load_from_cache] reads the clock exactly when the file it opens is a
    readable record: the number of clock readings that looking up these
    symbols makes. *)
Definition is_cache_record (f : option Data.file) : bool :=
  match f with Some (Data.CacheRecord _ _) => true | _ => false end.

Definition clock_reads (fs : gmap string Data.file) (days : Z)
    (symbols : list string) : nat :=
  length (List.filter
            (fun s => Data.known_symbol s
                      && is_cache_record (fs !! symbol_cache_path s days))
            symbols).

(** What the history loop may do for one symbol: read or write the
    symbol's cache file, ask the primary provider, and ask the alternate
    provider when [use_multiple_sources] is set. *)
Definition symbol_event (days : Z) (use_multiple_sources : bool)
    (symbol : string) (e : Data.Event) : Prop :=
  e = Data.EvCacheRead (symbol_cache_path symbol days) \/
  e = Data.EvCacheWrite (symbol_cache_path symbol days) \/
  e = Data.EvFetch Data.coingecko (Data.symbol_to_id !!! symbol) days \/
  (use_multiple_sources = true /\
   e = Data.EvFetch Data.coinapi (Data.symbol_to_id !!! symbol) days).

(** A world whose cache holds a 60-day record for bitcoin, written at
    time 0. *)
Definition cached_btc_world : Data.World :=
  snd (Data.save_to_cache Data.silent_env "bitcoin" 60 sample_data
         Data.empty_world).

(** ** A full run

    Two holdings, thirty days of history for both, live prices. *)
Definition month_run : Optimizer.Outcome :=
  fst (Optimizer.optimize_portfolio
         (sample_library equal_weight_solver every_target) month_env
         [("BTC", 1%Q); ("ETH", 2%Q)] "max_sharpe" Optimizer.PrefNone
         (Some live_prices) 60 0 Data.empty_world).

Definition month_result : Optimizer.ResultDict :=
  match month_run with
  | Optimizer.Returned result => result
  | Optimizer.Raised => []
  end.

(** The same run over two days of history only. *)
Definition two_day_result : Optimizer.ResultDict :=
  match fst (Optimizer.optimize_portfolio
               (sample_library equal_weight_solver every_target) steady_env
               [("BTC", 1%Q); ("ETH", 2%Q)] "max_sharpe" Optimizer.PrefNone
               (Some live_prices) 60 0 Data.empty_world) with
  | Optimizer.Returned result => result
  | Optimizer.Raised => []
  end.

(** * Live prices, [src/data.py] *)

Module Live.
Import Data.

(** A price request: the batch request to the primary provider for a list
    of coin ids, or the request to the alternate provider for one coin. *)
Inductive Request :=
| BatchRequest (ids : list string)
| RateRequest (coin_id : string).

(** What is outside the program: the clock and the history providers, the
    presence of [COINAPI_KEY] in the process environment, and the two price
    endpoints behind [api_call_with_retry], asked at a step.
    [simple_price] is the primary provider's answer: [None] when the call
    gives nothing, otherwise the JSON object, as a map from coin ids to the
    [usd] entry of the coin's object ([None] when that object has no such
    entry); every entry of the answer is taken to be an object.
    [exchange_rate] is the alternate provider's answer for one coin: [None]
    when the call gives nothing or an empty object, otherwise the [rate]
    entry, if any. *)
Record LiveEnv := mkLiveEnv {
  base : Env;
  coinapi_key : bool;
  simple_price : nat -> list string -> option (gmap string (option Q));
  exchange_rate : nat -> string -> option (option Q)
}.

(** The state: the world of the cache and the price requests made so
    far. *)
Record LiveWorld := mkLive {
  world : World;
  requests : list Request
}.

Definition L (A : Type) : Type := LiveWorld -> A * LiveWorld.
Definition lret {A} (a : A) : L A := fun lw => (a, lw).
Definition lbind {A B} (m : L A) (k : A -> L B) : L B :=
  fun lw => let '(a, lw') := m lw in k a lw'.

Notation "'let+' x ':=' m 'in' k" := (lbind m (fun x => k))
  (at level 10, x pattern, m at level 100, k at level 200).

(** A computation on the cache alone, run inside the larger state. *)
Definition lift {A} (m : M A) : L A :=
  fun lw => let '(a, w') := m (world lw) in (a, mkLive w' (requests lw)).

(** [not d] for a dictionary. *)
Definition dict_is_empty {A} (d : gmap string A) : bool := Nat.eqb (size d) 0.

(** Why a price dictionary is rejected. *)
Inductive PriceError :=
| NoPriceData
| MissingPrices (symbols : list string)
| InvalidPrices (symbols : list string).

Section WithLiveEnv.
Variable env : LiveEnv.

Definition request_simple_price (ids : list string)
  : L (option (gmap string (option Q))) :=
  fun lw =>
    let w := world lw in
    (simple_price env (tick w) ids,
     mkLive (mkWorld (files w) (S (tick w)) (trace w))
            (requests lw ++ [BatchRequest ids])).

Definition request_exchange_rate (coin_id : string) : L (option (option Q)) :=
  fun lw =>
    let w := world lw in
    (exchange_rate env (tick w) coin_id,
     mkLive (mkWorld (files w) (S (tick w)) (trace w))
            (requests lw ++ [RateRequest coin_id])).

(** [extract_price] of the primary provider:
    [data.get(coin_id, {}).get('usd')]. *)
Definition extract_price (data : gmap string (option Q)) (coin_id : string)
  : option Q :=
  match data !! coin_id with
  | Some usd => usd
  | None => None
  end.

(** The loop of the [coingecko] branch over the batch answer [data]. *)
Definition collect_prices (data : gmap string (option Q))
    (symbols : list string) : gmap string Q :=
  fold_left
    (fun prices symbol =>
       if known_symbol symbol then
         match extract_price data (symbol_to_id !!! symbol) with
         | Some price => <[symbol := price]> prices
         | None => prices
         end
       else prices)
    symbols ∅.

(** The loop of the [coinapi] branch: one request per recognized symbol. *)
Fixpoint request_each (symbols : list string) (prices : gmap string Q)
  : L (gmap string Q) :=
  match symbols with
  | [] => lret prices
  | symbol :: rest =>
      if known_symbol symbol then
        let coin_id := symbol_to_id !!! symbol in
        let+ data := request_exchange_rate coin_id in
        let prices :=
          match data with
          | Some (Some price) => <[symbol := price]> prices
          | _ => prices
          end in
        request_each rest prices
      else request_each rest prices
  end.

(** [_get_prices_from_source] *)
Definition _get_prices_from_source (source_key : Source)
    (symbols : list string) : L (gmap string Q) :=
  match source_key with
  | coingecko =>
      let ids :=
        map (fun s => symbol_to_id !!! s) (List.filter known_symbol symbols) in
      let+ data := request_simple_price ids in
      match data with
      | Some d =>
          if dict_is_empty d then lret ∅ else lret (collect_prices d symbols)
      | None => lret ∅
      end
  | coinapi => request_each symbols ∅
  end.

(** [cached_data['prices'][-1][1]], when the cached series has a point. *)
Definition latest_price (d : hist_data) : option Q :=
  option_map snd (last (Data.prices d)).

(** The loop of [get_fallback_prices]. *)
Fixpoint fallback_from (days : Z) (symbols : list string)
    (prices : gmap string Q) : M (gmap string Q) :=
  match symbols with
  | [] => ret prices
  | symbol :: rest =>
      if known_symbol symbol then
        let coin_id := symbol_to_id !!! symbol in
        let* cached_data := load_from_cache (base env) coin_id days 24 in
        let prices :=
          match cached_data with
          | Some d =>
              match latest_price d with
              | Some latest => <[symbol := latest]> prices
              | None => prices
              end
          | None => prices
          end in
        fallback_from days rest prices
      else fallback_from days rest prices
  end.

(** [get_fallback_prices] *)
Definition get_fallback_prices (symbols : list string) (days : Z)
  : M (gmap string Q) :=
  fallback_from days symbols ∅.

(** One round of the outlier loop of [validate_price_data]: whether the
    symbol's price is more than 50% away from the last cached price of the
    7-day window. *)
Definition is_outlier (prices : gmap string Q) (symbol : string) : M bool :=
  match prices !! symbol with
  | None => ret false
  | Some current =>
      let* cached_data :=
        load_from_cache (base env) (default "" (symbol_to_id !! symbol)) 7 24 in
      match cached_data with
      | Some d =>
          match latest_price d with
          | Some latest_cached =>
              ret (Qgtb latest_cached 0
                   && Qgtb (Qabs' (current - latest_cached) / latest_cached)
                           0.5)
          | None => ret false
          end
      | None => ret false
      end
  end.

Fixpoint find_outliers (prices : gmap string Q) (symbols : list string)
  : M (list string) :=
  match symbols with
  | [] => ret []
  | symbol :: rest =>
      let* flagged := is_outlier prices symbol in
      let* outliers := find_outliers prices rest in
      ret (if flagged then symbol :: outliers else outliers)
  end.

(** [validate_price_data] of [src/data.py]: the verdict, the reason of a
    rejection, and the outliers, which are only logged. *)
Definition validate_price_data (prices : gmap string Q)
    (symbols : list string) : M (bool * option PriceError * list string) :=
  if dict_is_empty prices then ret (false, Some NoPriceData, [])
  else
    let missing :=
      List.filter (fun s => negb (bool_decide (is_Some (prices !! s))))
                  symbols in
    match missing with
    | _ :: _ => ret (false, Some (MissingPrices missing), [])
    | [] =>
        let invalid :=
          List.filter (fun s => match prices !! s with
                                | Some p => Qle_bool p 0
                                | None => false
                                end) symbols in
        match invalid with
        | _ :: _ => ret (false, Some (InvalidPrices invalid), [])
        | [] =>
            let* outliers := find_outliers prices symbols in
            ret (true, None, outliers)
        end
    end.

(** The merge of the fallback prices: only symbols without a price get
    one. *)
Definition merge_fallback (valid_symbols : list string)
    (prices fallback_prices : gmap string Q) : gmap string Q :=
  fold_left
    (fun prices symbol =>
       match prices !! symbol, fallback_prices !! symbol with
       | None, Some p => <[symbol := p]> prices
       | _, _ => prices
       end)
    valid_symbols prices.

(** [get_live_prices] *)
Definition get_live_prices (symbols : list string)
    (use_multiple_sources : bool) : L (gmap string Q) :=
  let valid_symbols := List.filter known_symbol symbols in
  match valid_symbols with
  | [] => lret ∅
  | _ =>
      let+ prices := _get_prices_from_source coingecko valid_symbols in
      let+ v := lift (validate_price_data prices valid_symbols) in
      let is_valid := fst (fst v) in
      let+ prices :=
        if (negb is_valid || dict_is_empty prices) && use_multiple_sources
        then
          if coinapi_key env then
            let+ alt_prices := _get_prices_from_source coinapi valid_symbols in
            let+ av := lift (validate_price_data alt_prices valid_symbols) in
            let alt_valid := fst (fst av) in
            if alt_valid && negb (dict_is_empty alt_prices)
            then lret alt_prices else lret prices
          else lret prices
        else lret prices in
      let+ prices :=
        if dict_is_empty prices
           || Nat.ltb (size prices) (length valid_symbols)
        then
          let+ fallback_prices := lift (get_fallback_prices valid_symbols 7) in
          lret (merge_fallback valid_symbols prices fallback_prices)
        else lret prices in
      let+ _ := lift (validate_price_data prices valid_symbols) in
      lret prices
  end.

End WithLiveEnv.

(** No request made yet, on an empty cache. *)
Definition empty_live_world : LiveWorld := mkLive empty_world [].

End Live.

(** ** What the live-price functions may do to the cache *)

(** From [w] to [w'] the cache files are the same and the only events are
    cache reads. *)
Definition only_reads (w w' : Data.World) : Prop :=
  Data.files w' = Data.files w /\
  exists evs,
    Data.trace w' = Data.trace w ++ evs /\
    Forall (fun e => exists path, e = Data.EvCacheRead path) evs.

(** The coin ids of the recognized symbols of a list. *)
Definition coin_ids (symbols : list string) : list string :=
  map (fun s => Data.symbol_to_id !!! s)
      (List.filter Data.known_symbol symbols).

(** ** Sample price feeds *)

(** A primary provider that quotes bitcoin and ethereum, no key for the
    alternate provider, silent history providers and a clock that stands
    still. *)
Definition quoted_prices : gmap string (option Q) :=
  <["bitcoin" := Some 60000%Q]> (<["ethereum" := Some 3000%Q]> ∅).

Definition quoting_env : Live.LiveEnv :=
  Live.mkLiveEnv Data.silent_env false
    (fun _ _ => Some quoted_prices) (fun _ _ => None).

(** The same provider quoting a price of zero for bitcoin. *)
Definition zero_quote_env : Live.LiveEnv :=
  Live.mkLiveEnv Data.silent_env false
    (fun _ _ => Some (<["bitcoin" := Some 0%Q]> ∅)) (fun _ _ => None).

(** Providers that answer nothing at all. *)
Definition offline_env : Live.LiveEnv :=
  Live.mkLiveEnv Data.silent_env false (fun _ _ => None) (fun _ _ => None).

(** * The web endpoints, [src/app.py] *)

Module App.
Import Data Optimizer Live.

(** The [lookback_days] entry of a request: absent, a value [int()]
    accepts, or one on which it raises. *)
Inductive Lookback :=
| LookbackAbsent
| LookbackInt (z : Z)
| LookbackBad.

(** The JSON object of a request to [/api/optimize]: its four entries,
    each possibly absent, and whether it has entries beside them. A
    [holdings] entry is an object from symbols to amounts and a [risk]
    entry a string. *)
Record RequestData := mkRequest {
  rq_holdings : option (list (string * Q));
  rq_risk : option string;
  rq_preferences : option Preferences;
  rq_lookback_days : Lookback;
  rq_other_keys : bool
}.

(** [not data] for the object. *)
Definition request_is_empty (data : RequestData) : bool :=
  match rq_holdings data, rq_risk data, rq_preferences data,
        rq_lookback_days data, rq_other_keys data with
  | None, None, None, LookbackAbsent, false => true
  | _, _, _, _, _ => false
  end.

(** The bodies of the error responses. *)
Inductive ErrorKind :=
| NoDataProvided
| TooFewHoldings
| NoCurrentPrices
| UncaughtException.

Inductive Body :=
| ErrorBody (error : ErrorKind)
| ResultBody (result : ResultDict).

Record Response := mkResponse {
  status : Z;
  body : Body
}.

Section WithServices.
Variable lib : Library.
Variable env : LiveEnv.

(** [optimize], the handler of [POST /api/optimize]. [request_json] is
    what [request.json] gives: [None] for a JSON null. *)
Definition optimize (request_json : option RequestData) : L Response :=
  let+ start_time := lift (time_time (base env)) in
  match request_json with
  | None => lret (mkResponse 400 (ErrorBody NoDataProvided))
  | Some data =>
      if request_is_empty data
      then lret (mkResponse 400 (ErrorBody NoDataProvided))
      else
        let holdings := default [] (rq_holdings data) in
        let risk := default "max_sharpe" (rq_risk data) in
        let preferences :=
          match rq_preferences data with
          | Some (PrefDict d) => PrefDict d
          | Some PrefInvalid => PrefInvalid
          | _ => PrefDict ∅
          end in
        match rq_lookback_days data with
        | LookbackBad => lret (mkResponse 500 (ErrorBody UncaughtException))
        | lookback =>
            let lookback_days :=
              match lookback with LookbackInt z => z | _ => 60 end in
            if Nat.ltb (length holdings) 2
            then lret (mkResponse 400 (ErrorBody TooFewHoldings))
            else
              let+ prices := get_live_prices env (map fst holdings) true in
              if dict_is_empty prices
              then lret (mkResponse 500 (ErrorBody NoCurrentPrices))
              else
                let+ outcome :=
                  lift (optimize_portfolio lib (base env) holdings risk
                          preferences (Some (Some <$> prices))
                          lookback_days 0) in
                match outcome with
                | Returned result =>
                    let+ now := lift (time_time (base env)) in
                    lret (mkResponse 200 (ResultBody result))
                | Raised =>
                    lret (mkResponse 500 (ErrorBody UncaughtException))
                end
        end
  end.

End WithServices.

End App.

(** Requests for BTC with one unknown coin, and for two unknown coins. *)
Definition one_known_request : App.RequestData :=
  App.mkRequest (Some [("BTC", 1%Q); ("FOO", 2%Q)]) None None
                App.LookbackAbsent false.

Definition unknown_request : App.RequestData :=
  App.mkRequest (Some [("FOO", 1%Q); ("BAR", 2%Q)]) None None
                App.LookbackAbsent false.

(** * Historical returns for the chart, [src/optimizer.py] *)

Module Returns.
Import Optimizer.

(** The dictionary returned for the chart: the dates and, per asset, the
    cumulative return series. Dates are the day numbers of the index. *)
Record HistoricalReturns := mkHistoricalReturns {
  dates : list Z;
  asset_returns : list (string * list Q)
}.

(** [dropna()] on rows that carry their index label. *)
Definition dropna_indexed (idx : list Z) (rows : list (list (option Q)))
  : list (Z * list Q) :=
  omap (fun ir => option_map (pair (fst ir))
                    (mapM (fun x : option Q => x) (snd ir)))
       (zip idx rows).

(** [cumprod()] of a column. *)
Fixpoint cumprod_from (acc : Q) (l : list Q) : list Q :=
  match l with
  | [] => []
  | x :: r => let v := (acc * x)%Q in v :: cumprod_from v r
  end.

Definition cumprod (l : list Q) : list Q := cumprod_from 1 l.

(** [generate_historical_returns] *)
Definition generate_historical_returns (hist_prices : DataFrame)
  : HistoricalReturns :=
  let returns :=
    dropna_indexed (index hist_prices)
      (rows_of (length (index hist_prices))
               (map (fun c => pct_change_col (snd c)) (columns hist_prices))) in
  let cumulative_returns (j : nat) : list Q :=
    cumprod (map (fun r => (1 + nth j (snd r) 0)%Q) returns) in
  mkHistoricalReturns
    (map fst returns)
    (imap (fun j name => (name, cumulative_returns j))
          (column_names hist_prices)).

End Returns.

(** A frame without gaps, from columns of prices. *)
Definition price_frame (idx : list Z) (cols : list (string * list Q))
  : DataFrame :=
  mkDataFrame idx (map (fun c => (fst c, map Some (snd c))) cols).

(** The day-on-day returns of a run of prices that follows [prev]. *)
Fixpoint simple_returns (prev : Q) (l : list Q) : list Q :=
  match l with
  | [] => []
  | x :: r => Qred ((x - prev) / prev) :: simple_returns x r
  end.

(** The returns of a column of prices. *)
Definition column_returns (ps : list Q) : list Q :=
  match ps with
  | [] => []
  | p0 :: rest => simple_returns p0 rest
  end.

(** Three days of prices for two assets. *)
Definition three_day_frame : DataFrame :=
  price_frame [10; 11; 12]
    [("BTC", [100%Q; 110%Q; 99%Q]); ("ETH", [50%Q; 40%Q; 60%Q])].

(** * Properties *)

(** ** Rational helpers *)

Lemma Qltb_lt x y : Qltb x y = true <-> (x < y)%Q.
Proof.
  unfold Qltb. rewrite negb_true_iff. split.
  - intros H. apply Qnot_le_lt. intros Hle.
    apply Qle_bool_iff in Hle. congruence.
  - intros H. destruct (Qle_bool y x) eqn:E; [|reflexivity].
    apply Qle_bool_iff in E. exfalso. apply (Qlt_not_le _ _ H E).
Qed.

Lemma Qltb_ge x y : Qltb x y = false <-> (y <= x)%Q.
Proof.
  unfold Qltb. rewrite negb_false_iff. apply Qle_bool_iff.
Qed.

(** ** Cache Store *)

Section CacheProperties.
Variable env : Env.

Lemma save_to_cache_files coin_id days data w :
  files (snd (save_to_cache env coin_id days data w))
  = <[get_cache_path coin_id days := CacheRecord (time_at env (tick w)) data]>
      (files w).
Proof. reflexivity. Qed.

Lemma load_from_cache_record coin_id days max_age w fetchedAt data :
  files w !! get_cache_path coin_id days = Some (CacheRecord fetchedAt data) ->
  fst (load_from_cache env coin_id days max_age w)
  = if Qgtb (time_at env (tick w) - fetchedAt) (max_age * 3600)
    then None else Some data.
Proof.
  intros Hf. unfold load_from_cache, bind, read_file, time_time. simpl.
  rewrite Hf. simpl.
  destruct (Qgtb _ _); reflexivity.
Qed.

End CacheProperties.

(** C9, amended: a series written to the Cache Store under a key
    (providerCoinId, windowDays) and not overwritten since is read back
    identically while now - fetchedAt <= 24 hours, and any read with
    now - fetchedAt > 24 hours is a miss. *)
Theorem C9_cache_round_trip_within_ttl
    (env : Env) (coin_id : string) (days : Z) (data : hist_data)
    (w w' : World) :
  files w' !! get_cache_path coin_id days
  = files (snd (save_to_cache env coin_id days data w))
      !! get_cache_path coin_id days ->
  let fetchedAt := time_at env (tick w) in
  let now := time_at env (tick w') in
  ((now - fetchedAt <= 24 * 3600)%Q ->
   fst (load_from_cache env coin_id days 24 w') = Some data) /\
  ((24 * 3600 < now - fetchedAt)%Q ->
   fst (load_from_cache env coin_id days 24 w') = None).
Proof.
  intros Hf fetchedAt now.
  rewrite save_to_cache_files, lookup_insert_eq in Hf.
  rewrite (load_from_cache_record env _ _ _ _ _ _ Hf).
  fold fetchedAt now. unfold Qgtb. split; intros H.
  - apply Qltb_ge in H. rewrite H. reflexivity.
  - apply Qltb_lt in H. rewrite H. reflexivity.
Qed.

Lemma C9_cache_round_trip_witness :
  fst (load_from_cache second_clock_env "bitcoin" 60 24
         (snd (save_to_cache second_clock_env "bitcoin" 60 sample_data
                 empty_world)))
  = Some sample_data.
Proof.
  apply (proj1 (C9_cache_round_trip_within_ttl second_clock_env "bitcoin" 60
                  sample_data empty_world _ eq_refl)).
  vm_compute. discriminate.
Defined.

(** C9 as stated fails at the boundary: a record that is exactly 24 hours
    old (now - fetchedAt is not below 24 hours) is still returned. *)
Lemma C9_read_at_exactly_24h_is_a_hit :
  let w1 := snd (save_to_cache day_later_env "bitcoin" 60 sample_data
                   empty_world) in
  let fetchedAt := time_at day_later_env (tick empty_world) in
  let now := time_at day_later_env (tick w1) in
  ~ (now - fetchedAt < 24 * 3600)%Q /\
  fst (load_from_cache day_later_env "bitcoin" 60 24 w1) = Some sample_data.
Proof.
  split.
  - vm_compute. discriminate.
  - vm_compute. reflexivity.
Qed.

(** ** History Store *)

Section HistoryProperties.
Variable env : Env.

(** Reduce a monadic run whose next step has been destructed. *)
Ltac run_ret := unfold ret; cbv beta iota; cbn [fst snd].

Lemma known_symbol_spec s : known_symbol s = true <-> is_Some (symbol_to_id !! s).
Proof.
  unfold known_symbol. destruct (symbol_to_id !! s) eqn:E; split; intros H.
  - eauto.
  - reflexivity.
  - discriminate.
  - destruct H; discriminate.
Qed.

(** One iteration puts the symbol either among the collected frames or
    among the missing symbols. *)
Lemma fetch_symbol_cases days ums s ap ms w :
  let r := fst (fetch_symbol env days ums s (ap, ms) w) in
  (exists ser, r = (ap ++ [(s, ser)], ms)) \/ r = (ap, ms ++ [s]).
Proof.
  unfold fetch_symbol. generalize (symbol_to_id !!! s). intros cid.
  unfold bind.
  destruct (load_from_cache env cid days 24 w) as [[d|] w1]; run_ret.
  { left; eauto. }
  destruct (_get_historical_data env coingecko cid days w1)
    as [[d|] w2]; run_ret.
  - destruct (save_to_cache env cid days d w2) as [u w3]; run_ret.
    left; eauto.
  - destruct ums; run_ret; [|right; reflexivity].
    destruct (_get_historical_data env coinapi cid days w2)
      as [[d|] w3]; run_ret; [|right; reflexivity].
    destruct (save_to_cache env cid days d w3) as [u w4]; run_ret.
    left; eauto.
Qed.

(** The collected symbols and the missing symbols together are the
    processed symbols, each counted as often as it was processed. *)
Lemma fetch_all_partition days ums symbols : forall ap ms w,
  let r := fst (fetch_all env days ums symbols (ap, ms) w) in
  map fst (fst r) ++ snd r ≡ₚ (map fst ap ++ ms) ++ symbols.
Proof.
  induction symbols as [|s rest IH]; intros ap ms w; cbv zeta.
  - cbn. rewrite app_nil_r. reflexivity.
  - cbn [fetch_all]. unfold bind.
    pose proof (fetch_symbol_cases days ums s ap ms w) as Hc. cbv zeta in Hc.
    destruct (fetch_symbol env days ums s (ap, ms) w) as [[ap1 ms1] w1].
    cbn [fst] in Hc. cbv beta iota.
    specialize (IH ap1 ms1 w1). cbv zeta in IH. rewrite IH.
    destruct Hc as [[ser Hc]|Hc]; inversion Hc; subst; clear Hc.
    + rewrite map_app. cbn [map fst].
      rewrite <- !app_assoc. cbn [app].
      apply Permutation_app_head.
      rewrite (Permutation_middle ms rest s).
      reflexivity.
    + rewrite <- !app_assoc. reflexivity.
Qed.

Lemma column_names_map_columns f df :
  column_names (map_columns f df) = column_names df.
Proof.
  unfold column_names, map_columns. simpl. rewrite map_map. reflexivity.
Qed.

Lemma column_names_concat_daily ap :
  column_names (bfill (ffill (concat_daily ap))) = map fst ap.
Proof.
  unfold bfill, ffill. rewrite !column_names_map_columns.
  unfold column_names, concat_daily. simpl. rewrite map_map. reflexivity.
Qed.

(** The result of [get_historical_prices] in terms of the loop. *)
Lemma get_historical_prices_unfold symbols days ums w :
  fst (get_historical_prices env symbols days ums w)
  = match List.filter known_symbol symbols,
          fst (fst (fetch_all env days ums (List.filter known_symbol symbols)
                      ([], []) w)) with
    | [], _ => (empty_frame, [])
    | _, [] => (empty_frame, List.filter known_symbol symbols)
    | _, _ =>
        (bfill (ffill (concat_daily
           (fst (fst (fetch_all env days ums
                        (List.filter known_symbol symbols) ([], []) w))))),
         snd (fst (fetch_all env days ums (List.filter known_symbol symbols)
                     ([], []) w)))
    end.
Proof.
  unfold get_historical_prices.
  destruct (List.filter known_symbol symbols) as [|v vs]; [reflexivity|].
  unfold bind.
  destruct (fetch_all env days ums (v :: vs) ([], []) w) as [[ap ms] w1].
  cbv beta iota. cbn [fst snd]. destruct ap; reflexivity.
Qed.

Lemma filter_known_sound symbols x :
  x ∈ List.filter known_symbol symbols -> x ∈ symbols /\ known_symbol x = true.
Proof.
  intros Hx. apply list_elem_of_In, filter_In in Hx.
  destruct Hx as [Hx ?]. split; [by apply list_elem_of_In | done].
Qed.

(** Columns and missing symbols are drawn from the recognized input
    symbols. *)
Lemma get_historical_prices_sound symbols days ums w s :
  s ∈ column_names (fst (fst (get_historical_prices env symbols days ums w)))
  \/ s ∈ snd (fst (get_historical_prices env symbols days ums w)) ->
  s ∈ symbols /\ known_symbol s = true.
Proof.
  rewrite get_historical_prices_unfold.
  pose proof (fetch_all_partition days ums (List.filter known_symbol symbols)
                [] [] w) as Hp.
  cbv zeta in Hp. cbn [map app] in Hp.
  pose proof (filter_known_sound symbols) as Hin.
  destruct (List.filter known_symbol symbols) as [|v vs].
  - cbn [fst snd]. intros [H|H]; inversion H.
  - destruct (fetch_all env days ums (v :: vs) ([], []) w) as [[ap ms] w1].
    cbn [fst snd] in *. destruct ap as [|a ap].
    + cbn [fst snd]. intros [H|H]; [inversion H | by apply Hin].
    + cbn [fst snd]. rewrite column_names_concat_daily.
      intros H. apply Hin. rewrite <- Hp.
      apply elem_of_app. exact H.
Qed.

End HistoryProperties.







(** ** Data Validator *)

Ltac destruct_ifs :=
  repeat match goal with
         | |- context [if ?b then _ else _] => destruct b
         end.

(** The early return is taken exactly below [min_required]. *)
Lemma validate_short_circuit_iff (df : DataFrame) (lookback_days : Z) :
  short_circuited (validate_price_data df lookback_days) = true
  <-> (inject_Z (df_len df) < min_required lookback_days)%Q.
Proof.
  rewrite <- Qltb_lt. unfold validate_price_data.
  destruct (Qltb (inject_Z (df_len df)) (min_required lookback_days)).
  - split; reflexivity.
  - cbv zeta. destruct_ifs; cbn; split; intros H; discriminate H.
Qed.

(** The cleaned matrix: the input itself on the early return, the filled
    input otherwise. *)
Lemma validate_cleaned (df : DataFrame) (lookback_days : Z) :
  snd (validate_price_data df lookback_days)
  = if Qltb (inject_Z (df_len df)) (min_required lookback_days)
    then df else bfill (ffill df).
Proof.
  unfold validate_price_data.
  destruct (Qltb (inject_Z (df_len df)) (min_required lookback_days)).
  - reflexivity.
  - cbv zeta. destruct_ifs; reflexivity.
Qed.

Lemma ffill_from_some v l : col_has_missing (ffill_from (Some v) l) = false.
Proof.
  revert v. induction l as [|x r IH]; intros v; [reflexivity|].
  destruct x as [y|]; cbn; apply IH.
Qed.

Lemma bfill_col_present l :
  col_has_missing l = false -> col_has_missing (bfill_col l) = false.
Proof.
  induction l as [|x r IH]; [reflexivity|].
  destruct x as [y|]; cbn; [exact IH | discriminate].
Qed.

Lemma bfill_col_length l : length (bfill_col l) = length l.
Proof.
  induction l as [|x r IH]; [reflexivity|].
  destruct x; cbn; rewrite IH; reflexivity.
Qed.

Lemma ffill_from_length p l : length (ffill_from p l) = length l.
Proof.
  revert p. induction l as [|x r IH]; intros p; [reflexivity|].
  cbn. rewrite IH. reflexivity.
Qed.

(** Filling forward then backward leaves no gap in a column that has at
    least one value. *)
Lemma fill_col_complete l :
  col_all_missing l = false ->
  col_has_missing (bfill_col (ffill_col l)) = false.
Proof.
  unfold ffill_col. induction l as [|x r IH]; [discriminate|].
  destruct x as [y|]; cbn [col_all_missing forallb is_missing andb].
  - intros _. cbn [ffill_from]. apply bfill_col_present.
    cbn. apply ffill_from_some.
  - intros Hr. specialize (IH Hr). cbn [ffill_from bfill_col].
    assert (Hne : bfill_col (ffill_from None r) <> []).
    { intros E. apply (f_equal (@length _)) in E.
      rewrite bfill_col_length, ffill_from_length in E.
      destruct r; [discriminate Hr | discriminate E]. }
    destruct (bfill_col (ffill_from None r)) as [|h t] eqn:E;
      [congruence|].
    cbn in IH |- *. destruct h; [exact IH | discriminate IH].
Qed.

(** C1: the code rejects on the minimum-points check exactly below
    min(0.8 x lookback, 20), not below max(0.8 x lookback, 20). With a
    lookback of 60 days a matrix of 30 rows is below max(48, 20) = 48, yet
    the check passes, the verdict is valid and the checks continue. *)
Theorem C1_min_points_threshold_is_min_not_max :
  df_len month_frame = 30 /\
  (inject_Z (df_len month_frame) < Qmax (0.8 * inject_Z 60) 20)%Q /\
  (min_required 60 == 20)%Q /\
  validate_price_data month_frame 60 = (true, [], month_frame) /\
  short_circuited (validate_price_data month_frame 60) = false.
Proof.
  assert (Hv : validate_price_data month_frame 60 = (true, [], month_frame))
    by (vm_compute; reflexivity).
  split; [reflexivity|].
  split; [vm_compute; reflexivity|].
  split; [vm_compute; reflexivity|].
  split; [exact Hv|].
  rewrite Hv. reflexivity.
Qed.

(** C4, amended: for every input matrix and lookback that pass the
    minimum-points check, the cleaned matrix returned by the Data Validator
    is the input forward-filled then back-filled, and every column that has
    at least one value has no missing cell left. *)
Theorem C4_cleaned_is_filled_when_enough_rows
    (df : DataFrame) (lookback_days : Z) :
  (min_required lookback_days <= inject_Z (df_len df))%Q ->
  snd (validate_price_data df lookback_days) = bfill (ffill df) /\
  Forall2 (fun c c' =>
             fst c' = fst c /\
             (col_all_missing (snd c) = false ->
              col_has_missing (snd c') = false))
          (columns df)
          (columns (snd (validate_price_data df lookback_days))).
Proof.
  intros Hrows. apply Qltb_ge in Hrows.
  rewrite validate_cleaned, Hrows. split; [reflexivity|].
  unfold bfill, ffill, map_columns. cbn [columns].
  rewrite map_map. cbn [fst snd].
  induction (columns df) as [|c cs IH]; constructor; [|exact IH].
  split; [reflexivity | apply fill_col_complete].
Qed.

Lemma C4_cleaned_is_filled_witness :
  snd (validate_price_data gap_frame 2) = bfill (ffill gap_frame).
Proof.
  apply (proj1 (C4_cleaned_is_filled_when_enough_rows gap_frame 2
                  ltac:(vm_compute; discriminate))).
Defined.

(** C4 as stated fails twice. On the fatal minimum-points path the matrix
    comes back as it went in, gaps included; and past that check a column
    without any value stays empty after both fills. *)
Lemma C4_cleaned_matrix_keeps_missing_cells :
  (short_circuited (validate_price_data gap_frame 60) = true /\
   snd (validate_price_data gap_frame 60) = gap_frame /\
   snd (validate_price_data gap_frame 60) <> bfill (ffill gap_frame) /\
   has_missing (snd (validate_price_data gap_frame 60)) = true) /\
  (short_circuited (validate_price_data blank_column_frame 2) = false /\
   has_missing (snd (validate_price_data blank_column_frame 2)) = true).
Proof.
  split.
  - split; [vm_compute; reflexivity|].
    split; [vm_compute; reflexivity|].
    split; [vm_compute; discriminate|].
    vm_compute; reflexivity.
  - split; vm_compute; reflexivity.
Qed.

(** ** Frontier Generator *)

Lemma linspace_length a b n : length (linspace a b n) = n.
Proof. unfold linspace. rewrite length_map, length_seq. reflexivity. Qed.

Lemma linspace_15_ends a b :
  (nth 0 (linspace a b 15) 0 == a)%Q /\ (nth 14 (linspace a b 15) 0 == b)%Q.
Proof.
  unfold linspace. cbn [seq map nth Nat.sub Z.of_nat inject_Z].
  split; cbn; field.
Qed.

(** The target range of the code: 15 values from
    [min(0.9 * minVol, 0.1)] to [max(1.5 * maxSharpeVol, 0.6)]. *)
Lemma risk_range_spec (lib : Library) (mu : list Q) (S : list (list Q)) :
  length (risk_range lib mu S) = 15%nat /\
  (nth 0 (risk_range lib mu S) 0
   == Qmin (anchor_min_vol lib mu S * 0.9) 0.1)%Q /\
  (nth 14 (risk_range lib mu S) 0
   == Qmax (anchor_max_sharpe_vol lib mu S * 1.5) 0.6)%Q.
Proof.
  unfold risk_range. split; [apply linspace_length|].
  apply linspace_15_ends.
Qed.

(** C6: with the minimum-volatility anchor failing (fallback 0.15) and the
    max-Sharpe anchor failing (fallback 0.4), the 15 targets run from 0.1 to
    0.6: the lower end is min(0.9 x 0.15, 0.1) = 0.1, not
    max(0.9 x 0.15, 0.1) = 0.135. *)
Theorem C6_lower_end_is_min_not_max :
  let lib := sample_library equal_weight_solver every_target in
  let targets := risk_range lib [0.1%Q; 0.2%Q] [] in
  (anchor_min_vol lib [0.1%Q; 0.2%Q] [] == 0.15)%Q /\
  (anchor_max_sharpe_vol lib [0.1%Q; 0.2%Q] [] == 0.4)%Q /\
  length targets = 15%nat /\
  (nth 0 targets 0 == 0.1)%Q /\
  (Qmax (0.9 * 0.15) 0.1 == 0.135)%Q /\
  ~ (nth 0 targets 0 == Qmax (0.9 * 0.15) 0.1)%Q /\
  (nth 14 targets 0 == Qmax (1.5 * 0.4) 0.6)%Q.
Proof.
  cbv zeta.
  split; [reflexivity|]. split; [reflexivity|].
  split; [apply risk_range_spec|].
  split; [vm_compute; reflexivity|].
  split; [vm_compute; reflexivity|].
  split; [vm_compute; discriminate|].
  vm_compute; reflexivity.
Qed.

Lemma fallback_points_length : length fallback_points = 5%nat.
Proof. unfold fallback_points. rewrite length_map. reflexivity. Qed.





(** ** Optimizer *)

(** C8: a holdings mapping with fewer than 2 symbols gives a result with
    null weights, null expected return, volatility and Sharpe ratio and an
    explanatory note, and the world is left as it was: no cache access and
    no provider request is made. *)
Theorem C8_too_few_holdings_short_circuit
    (lib : Library) (env : Env) (holdings : list (string * Q))
    (risk_method : string) (preferences : Preferences)
    (prices : option (gmap string (option Q)))
    (lookback_days : Z) (risk_free_rate : Q) (w : World) :
  (length holdings < 2)%nat ->
  exists result,
    optimize_portfolio lib env holdings risk_method preferences prices
      lookback_days risk_free_rate w = (Returned result, w) /\
    dict_get "optimized_weights" result = Some VNone /\
    dict_get "expected_return" result = Some VNone /\
    dict_get "volatility" result = Some VNone /\
    dict_get "sharpe_ratio" result = Some VNone /\
    dict_get "note" result = Some (VNote TooFewAssets).
Proof.
  intros Hlen. exists (null_result TooFewAssets).
  unfold optimize_portfolio. rewrite length_map.
  destruct (Nat.ltb_spec (length holdings) 2) as [_|Hge]; [|lia].
  repeat split; reflexivity.
Qed.

Lemma C8_too_few_holdings_witness :
  exists result,
    optimize_portfolio (sample_library equal_weight_solver every_target)
      steady_env [("BTC", 1%Q)] "max_sharpe" PrefNone None 60 0 empty_world
    = (Returned result, empty_world) /\
    dict_get "optimized_weights" result = Some VNone /\
    dict_get "expected_return" result = Some VNone /\
    dict_get "volatility" result = Some VNone /\
    dict_get "sharpe_ratio" result = Some VNone /\
    dict_get "note" result = Some (VNote TooFewAssets).
Proof.
  apply (C8_too_few_holdings_short_circuit
           (sample_library equal_weight_solver every_target)
           steady_env [("BTC", 1%Q)] "max_sharpe" PrefNone None 60 0
           empty_world).
  cbn. lia.
Defined.

(** The entries of a successful result up to the optional ones hold no
    allocation. *)
Lemma dict_get_allocation_result v1 v2 v3 v4 v5 v6 v7 v8 v9 tail :
  dict_get "allocation"
    ([ ("optimized_weights", v1); ("expected_return", v2);
       ("volatility", v3); ("sharpe_ratio", v4);
       ("efficient_frontier", v5); ("correlation_matrix", v6);
       ("historical_returns", v7); ("lookback_days", v8);
       ("rolling_metrics", v9) ] ++ tail)
  = dict_get "allocation" tail.
Proof. reflexivity. Qed.

(** What a successful run of the [try] block returns: the weights of the
    solver, filtered and rounded, first; no allocation anywhere. *)
Lemma optimize_core_inv lib holdings risk_method max_weight min_weight
    target_volatility prices lookback_days risk_free_rate df issues hr
    missing result :
  optimize_core lib holdings risk_method max_weight min_weight
    target_volatility prices lookback_days risk_free_rate df issues hr missing
  = Some result ->
  exists p w,
    solve lib p = Some w /\ upper p = max_weight /\
    dict_get "optimized_weights" result
    = Some (VWeights (round_weights (zip (column_names df) w))) /\
    dict_get "allocation" result = None.
Proof.
  unfold optimize_core. intros H.
  destruct (annualized_log_return lib df) as [ann|]; [|discriminate H].
  cbn [mbind option_bind] in H.
  destruct (ema_historical_return lib df (lookback_days / 3)) as [ema|];
    [|discriminate H].
  cbn [mbind option_bind] in H.
  destruct (mean_historical_return lib df) as [mean|]; [|discriminate H].
  cbn [mbind option_bind] in H.
  destruct (capm_return lib df) as [capm|]; [|discriminate H].
  cbn [mbind option_bind] in H.
  destruct (ledoit_wolf lib df) as [S|]; [|discriminate H].
  cbn [mbind option_bind] in H. cbv zeta in H.
  match type of H with
  | context [solve lib ?p] => set (problem := p) in *
  end.
  destruct (solve lib problem) as [w|] eqn:Hsolve; [|discriminate H].
  cbn [mbind option_bind] in H.
  destruct (portfolio_performance lib problem w risk_free_rate)
    as [[[er vol] sh]|]; [|discriminate H].
  cbn [mbind option_bind] in H.
  destruct (rolling_metrics lib df risk_free_rate) as [rolling|];
    [|discriminate H].
  cbn [mbind option_bind] in H.
  exists problem, w. split; [exact Hsolve|]. split; [reflexivity|].
  injection H as <-.
  destruct (make_note er sh issues) as [n|]; destruct missing as [|m ms];
    split; reflexivity.
Qed.

(** The results of [optimize_portfolio]: a null result, or the result of
    the [try] block. *)
Lemma optimize_portfolio_inv lib env holdings risk_method preferences prices
    lookback_days risk_free_rate w result :
  fst (optimize_portfolio lib env holdings risk_method preferences prices
         lookback_days risk_free_rate w) = Returned result ->
  (exists note, result = null_result note) \/
  (exists p ws df,
      solve lib p = Some ws /\ upper p = effective_max_weight preferences /\
      dict_get "optimized_weights" result
      = Some (VWeights (round_weights (zip (column_names df) ws))) /\
      dict_get "allocation" result = None).
Proof.
  unfold optimize_portfolio.
  destruct (Nat.ltb (length (map fst holdings)) 2).
  { intros H. injection H as <-. left. eauto. }
  destruct (invalid_weight_preference preferences);
    [intros H; discriminate H|].
  unfold Data.bind.
  destruct (get_historical_prices env (map fst holdings) lookback_days true w)
    as [[hist missing] w1].
  destruct (df_is_empty hist || Nat.ltb (length (columns hist)) 2).
  { intros H. injection H as <-. left. eauto. }
  destruct (validate_price_data hist lookback_days) as [[valid issues] cleaned].
  destruct (historical_returns lib cleaned) as [hr|]; [|discriminate].
  destruct (optimize_core lib holdings risk_method
              (effective_max_weight preferences)
              (effective_min_weight preferences)
              (pref_dict preferences !! "target_volatility") prices
              lookback_days risk_free_rate cleaned issues hr missing)
    as [r|] eqn:Hcore.
  - intros H. injection H as <-. right.
    destruct (optimize_core_inv _ _ _ _ _ _ _ _ _ _ _ _ _ _ Hcore)
      as (p & ws & Hs & Hu & Hw & Ha).
    exists p, ws, cleaned. auto.
  - intros H. injection H as <-. left. eauto.
Qed.

(** No result of [optimize_portfolio] has an allocation entry. *)
Lemma allocation_never_returned lib env holdings risk_method preferences
    prices lookback_days risk_free_rate w result :
  fst (optimize_portfolio lib env holdings risk_method preferences prices
         lookback_days risk_free_rate w) = Returned result ->
  dict_get "allocation" result = None.
Proof.
  intros H. apply optimize_portfolio_inv in H.
  destruct H as [[note ->]|(p & ws & df & _ & _ & _ & Ha)];
    [reflexivity | exact Ha].
Qed.

(** C7: a run with live prices for every symbol of the weight map, all
    positive. The optimization succeeds and the discrete allocation is
    computed, but the returned result has no allocation entry: the value
    is dropped when the result is assembled. *)
Theorem C7_allocation_computed_but_not_returned :
  let lib := sample_library equal_weight_solver every_target in
  let holdings := [("BTC", 1%Q); ("ETH", 2%Q)] in
  let cleaned_weights :=
    clean_weights lib [("BTC", (1 # 2)%Q); ("ETH", (1 # 2)%Q)] 0.05 in
  exists result ws allocation leftover_pct,
    fst (optimize_portfolio lib month_env holdings "max_sharpe" PrefNone
           (Some live_prices) 60 0 empty_world) = Returned result /\
    dict_get "optimized_weights" result = Some (VWeights ws) /\
    map fst ws = ["BTC"; "ETH"] /\
    price_series cleaned_weights live_prices
    = [("BTC", 60000%Q); ("ETH", 3000%Q)] /\
    discrete_allocation lib holdings cleaned_weights (Some live_prices)
    = Some (allocation, leftover_pct) /\
    dict_get "allocation" result = None.
Proof.
  cbv zeta.
  let r := eval vm_compute in
      (fst (optimize_portfolio
              (sample_library equal_weight_solver every_target) month_env
              [("BTC", 1%Q); ("ETH", 2%Q)] "max_sharpe" PrefNone
              (Some live_prices) 60 0 empty_world)) in
  match r with
  | Returned ?d => exists d
  end.
  let a := eval vm_compute in
      (discrete_allocation
         (sample_library equal_weight_solver every_target)
         [("BTC", 1%Q); ("ETH", 2%Q)]
         (clean_weights (sample_library equal_weight_solver every_target)
            [("BTC", (1 # 2)%Q); ("ETH", (1 # 2)%Q)] 0.05)
         (Some live_prices)) in
  match a with
  | Some (?al, ?lo) =>
      exists [("BTC", 0.5000%Q); ("ETH", 0.5000%Q)], al, lo
  end.
  split; [vm_compute; reflexivity|].
  split; [vm_compute; reflexivity|].
  split; [reflexivity|].
  split; [vm_compute; reflexivity|].
  split; [vm_compute; reflexivity|].
  vm_compute; reflexivity.
Qed.

(** *** Rounding and sums *)

Lemma round_half_even_close x :
  (inject_Z (round_half_even x) - x <= 1 # 2)%Q /\
  (x - inject_Z (round_half_even x) <= 1 # 2)%Q.
Proof.
  unfold round_half_even.
  pose proof (Qfloor_le x) as Hlo. pose proof (Qlt_floor x) as Hhi.
  rewrite inject_Z_plus in Hhi. change (inject_Z 1) with 1%Q in Hhi.
  set (f := Qfloor x) in *.
  destruct (Qltb (x - inject_Z f) (1 # 2)) eqn:E1.
  { apply Qltb_lt in E1. split; lra. }
  apply Qltb_ge in E1.
  destruct (Qltb (1 # 2) (x - inject_Z f)) eqn:E2.
  { rewrite inject_Z_plus. change (inject_Z 1) with 1%Q. split; lra. }
  apply Qltb_ge in E2.
  destruct (Z.even f).
  - split; lra.
  - rewrite inject_Z_plus. change (inject_Z 1) with 1%Q. split; lra.
Qed.

Lemma round_half_even_ge_floor x : Qfloor x <= round_half_even x.
Proof. unfold round_half_even. destruct_ifs; lia. Qed.

Lemma round4_close v :
  (round4 v <= v + (1 # 20000))%Q /\ (v - (1 # 20000) <= round4 v)%Q.
Proof.
  unfold round4.
  destruct (round_half_even_close (v * 10000)) as [H1 H2].
  set (n := inject_Z (round_half_even (v * 10000))) in *.
  split; apply Qmult_le_r with (z := 10000%Q); try reflexivity;
    field_simplify; lra.
Qed.

Lemma round4_lower v : (0.001 < v)%Q -> (0.001 <= round4 v)%Q.
Proof.
  intros Hv. unfold round4.
  assert (Hx : (inject_Z 10 <= v * 10000)%Q).
  { change (inject_Z 10) with 10%Q. lra. }
  apply Qfloor_resp_le in Hx. rewrite Qfloor_Z in Hx.
  pose proof (round_half_even_ge_floor (v * 10000)) as Hf.
  assert (Hn : (inject_Z 10 <= inject_Z (round_half_even (v * 10000)))%Q).
  { rewrite <- Zle_Qle. lia. }
  change (inject_Z 10) with 10%Q in Hn.
  set (n := inject_Z (round_half_even (v * 10000))) in *.
  apply Qmult_le_r with (z := 10000%Q); [reflexivity|].
  field_simplify. lra.
Qed.

Lemma Qsum_cons x l : (Qsum (x :: l) == x + Qsum l)%Q.
Proof. cbn [Qsum fold_right]. apply Qred_correct. Qed.

Lemma Qlen_cons {A} (x : A) l : (Qlen (x :: l) == Qlen l + 1)%Q.
Proof.
  unfold Qlen. cbn [length]. rewrite Nat2Z.inj_succ, <- Z.add_1_r.
  rewrite inject_Z_plus. reflexivity.
Qed.

Lemma Qlen_nonneg {A} (l : list A) : (0 <= Qlen l)%Q.
Proof.
  unfold Qlen. change 0%Q with (inject_Z 0). rewrite <- Zle_Qle. lia.
Qed.

(** The solver weights paired with the asset names sum to at most the sum
    of the solver weights. *)
Lemma zip_sum (names : list string) (w : list Q) :
  Forall (fun x => (0 <= x)%Q) w ->
  (Qsum (map snd (zip names w)) <= Qsum w)%Q /\
  (0 <= Qsum w)%Q.
Proof.
  intros Hw. revert names.
  induction Hw as [|x w Hx Hw IH]; intros names.
  - destruct names; cbn; split; lra.
  - destruct names as [|n names].
    + destruct (IH []) as [_ H0]. rewrite Qsum_cons. cbn. split; lra.
    + destruct (IH names) as [H1 H0].
      cbn [zip zip_with map snd]. rewrite !Qsum_cons. split; lra.
Qed.

Lemma zip_Forall_snd (P : Q -> Prop) (names : list string) (w : list Q) :
  Forall P w -> Forall (fun kv => P (snd kv)) (zip names w).
Proof.
  intros Hw. revert names.
  induction Hw as [|x w Hx Hw IH]; intros [|n names]; cbn; constructor;
    [exact Hx | apply IH].
Qed.

(** The returned weights are above the 0.001 filter and within half a
    unit of the fourth decimal of the solver weights. *)
Lemma round_weights_bounds (u : Q) (ws : list (string * Q)) :
  Forall (fun kv => (0 <= snd kv <= u)%Q) ws ->
  Forall (fun kv => (0.001 <= snd kv <= u + 0.00005)%Q) (round_weights ws) /\
  (Qsum (map snd (round_weights ws))
   <= Qsum (map snd ws) + 0.00005 * Qlen (round_weights ws))%Q /\
  (0 <= Qsum (map snd ws))%Q.
Proof.
  unfold round_weights.
  induction 1 as [|kv ws [Hlo Hhi] Hws (IHb & IHs & IH0)].
  - cbn [List.filter map]. split; [apply List.Forall_nil|].
    pose proof (Qlen_nonneg (@nil (string * Q))) as Hn.
    change (Qsum (@nil Q)) with 0%Q. split; lra.
  - cbn [List.filter map]. rewrite Qsum_cons.
    destruct (Qgtb (snd kv) 0.001) eqn:E.
    + apply Qltb_lt in E. cbn [map fst snd].
      destruct (round4_close (snd kv)) as [Hc _].
      pose proof (round4_lower (snd kv) E) as Hl.
      split; [|split].
      * constructor; [cbn [snd]; split; lra | exact IHb].
      * rewrite Qsum_cons, Qlen_cons. lra.
      * lra.
    + split; [exact IHb|]. split; lra.
Qed.

(** *** Returned weights *)

Lemma Forall_repeat_elem {A} (P : A -> Prop) (x : A) (k : nat) :
  P x -> Forall P (repeat x k).
Proof. intros Hx. induction k; cbn; constructor; assumption. Qed.

Lemma Qsum_repeat (x : Q) (k : nat) :
  (Qsum (repeat x k) == inject_Z (Z.of_nat k) * x)%Q.
Proof.
  induction k as [|k IH].
  - cbn [repeat Z.of_nat]. change (Qsum (@nil Q)) with 0%Q.
    change (inject_Z 0) with 0%Q. ring.
  - cbn [repeat]. rewrite Qsum_cons, IH.
    rewrite Nat2Z.inj_succ, <- Z.add_1_r, inject_Z_plus.
    change (inject_Z 1) with 1%Q. lra.
Qed.

Lemma equal_weight_solver_sound efficient_risk :
  solver_sound (sample_library equal_weight_solver efficient_risk).
Proof.
  intros p w. cbn [solve sample_library]. unfold equal_weight_solver.
  destruct (length (p_mu p)) as [|n]; [discriminate|].
  destruct (Qle_bool (1 # Pos.of_succ_nat n) (upper p)) eqn:Hu;
    [|discriminate].
  cbn [andb].
  destruct (match lower p with
            | Some lo => Qle_bool lo (1 # Pos.of_succ_nat n)
            | None => true
            end); [|discriminate].
  intros H. injection H as <-. apply Qle_bool_iff in Hu.
  change ((1 # Pos.of_succ_nat n)%Q :: repeat (1 # Pos.of_succ_nat n)%Q n)
    with (repeat (1 # Pos.of_succ_nat n)%Q (S n)).
  split.
  - apply Forall_repeat_elem. split; [|exact Hu].
    unfold Qle. cbn. lia.
  - rewrite Qsum_repeat. unfold Qeq. cbn [Qnum Qden Qmult inject_Z].
    rewrite Pos.mul_1_l, Zpos_P_of_succ_nat. lia.
Qed.

(** Whatever the library, the returned weight map of a successful run is
    made of the solver weights alone: those above 0.001, rounded to 4
    decimals. The map cleaned with the [min_weight] cutoff has no part in
    it. *)
Lemma returned_weights_are_rounded_solver_weights
    (lib : Library) (env : Env) (holdings : list (string * Q))
    (risk_method : string) (preferences : Preferences)
    (prices : option (gmap string (option Q)))
    (lookback_days : Z) (risk_free_rate : Q) (w : World)
    (result : ResultDict) (ws : list (string * Q)) :
  fst (optimize_portfolio lib env holdings risk_method preferences prices
         lookback_days risk_free_rate w) = Returned result ->
  dict_get "optimized_weights" result = Some (VWeights ws) ->
  exists p sw df,
    solve lib p = Some sw /\
    upper p = effective_max_weight preferences /\
    ws = round_weights (zip (column_names df) sw).
Proof.
  intros Hrun Hws.
  apply optimize_portfolio_inv in Hrun.
  destruct Hrun as [[note ->]|(p & sw & df & Hsolve & Hu & Hw & _)].
  { cbn in Hws. discriminate Hws. }
  rewrite Hw in Hws. injection Hws as <-.
  exists p, sw, df. auto.
Qed.

(** When the solver keeps its constraints, every returned weight lies in
    [0.001, effective max_weight + 0.00005] and the returned weights sum
    to at most 1 + 0.00005 per returned weight. *)
Lemma returned_weights_bounds
    (lib : Library) (env : Env) (holdings : list (string * Q))
    (risk_method : string) (preferences : Preferences)
    (prices : option (gmap string (option Q)))
    (lookback_days : Z) (risk_free_rate : Q) (w : World)
    (result : ResultDict) (ws : list (string * Q)) :
  solver_sound lib ->
  fst (optimize_portfolio lib env holdings risk_method preferences prices
         lookback_days risk_free_rate w) = Returned result ->
  dict_get "optimized_weights" result = Some (VWeights ws) ->
  Forall (fun kv =>
            (0.001 <= snd kv <= effective_max_weight preferences + 0.00005)%Q)
         ws /\
  (Qsum (map snd ws) <= 1 + 0.00005 * Qlen ws)%Q.
Proof.
  intros Hsound Hrun Hws.
  destruct (returned_weights_are_rounded_solver_weights _ _ _ _ _ _ _ _ _ _ _
              Hrun Hws) as (p & sw & df & Hsolve & Hu & ->).
  destruct (Hsound p sw Hsolve) as [Hb Hsum]. rewrite Hu in Hb.
  assert (Hnn : Forall (fun x => (0 <= x)%Q) sw).
  { eapply Forall_impl; [exact Hb|]. cbn. intros x [H0 _]. exact H0. }
  destruct (zip_sum (column_names df) sw Hnn) as [Hz _].
  pose proof (zip_Forall_snd
                (fun x => (0 <= x <= effective_max_weight preferences)%Q)
                (column_names df) sw Hb) as Hzb.
  destruct (round_weights_bounds _ _ Hzb) as (Hrb & Hrs & _).
  split; [exact Hrb|]. rewrite Hsum in Hz. lra.
Qed.

(** C2: a weight below the effective min_weight is returned. A run on
    three assets with the default preferences (effective max_weight 0.6,
    effective min_weight 0.05) whose solver answers the weights 0.6, 0.38
    and 0.02, which keep the constraints of the problem. The code computes
    the map cleaned with the cutoff [min_weight], in which SOL has weight
    0, but the result holds the solver weights filtered by [v > 0.001] and
    rounded: SOL is returned with weight 0.02, below the effective
    min_weight. *)
Theorem C2_weight_below_min_weight_is_returned :
  let lib :=
    sample_library (fixed_solver [0.6%Q; 0.38%Q; 0.02%Q]) every_target in
  let solver_weights :=
    [("BTC", 0.6%Q); ("ETH", 0.38%Q); ("SOL", 0.02%Q)] in
  Forall (fun x => (0 <= x <= effective_max_weight PrefNone)%Q)
         [0.6%Q; 0.38%Q; 0.02%Q] /\
  (Qsum [0.6%Q; 0.38%Q; 0.02%Q] == 1)%Q /\
  (effective_min_weight PrefNone == 0.05)%Q /\
  clean_weights lib solver_weights (effective_min_weight PrefNone)
  = [("BTC", 0.6%Q); ("ETH", 0.38%Q); ("SOL", 0%Q)] /\
  exists result ws,
    fst (optimize_portfolio lib month_env three_holdings "max_sharpe"
           PrefNone (Some live_prices) 60 0 empty_world) = Returned result /\
    dict_get "optimized_weights" result = Some (VWeights ws) /\
    ws = round_weights solver_weights /\
    map fst ws = ["BTC"; "ETH"; "SOL"] /\
    Forall2 Qeq (map snd ws) [0.6%Q; 0.38%Q; 0.02%Q] /\
    Exists (fun kv => fst kv = "SOL" /\
                      (0 < snd kv < effective_min_weight PrefNone)%Q) ws.
Proof.
  cbv zeta.
  split.
  { repeat apply List.Forall_cons; try apply List.Forall_nil;
      split; vm_compute; discriminate. }
  split; [vm_compute; reflexivity|].
  split; [vm_compute; reflexivity|].
  split; [vm_compute; reflexivity|].
  let r := eval vm_compute in
      (fst (optimize_portfolio
              (sample_library (fixed_solver [0.6%Q; 0.38%Q; 0.02%Q])
                 every_target)
              month_env three_holdings "max_sharpe" PrefNone
              (Some live_prices) 60 0 empty_world)) in
  match r with
  | Returned ?d => exists d;
      match d with
      | (_, VWeights ?x) :: _ => exists x
      end
  end.
  split; [vm_compute; reflexivity|].
  split; [reflexivity|].
  split; [vm_compute; reflexivity|].
  split; [reflexivity|].
  split.
  { repeat apply List.Forall2_cons; try apply List.Forall2_nil;
      vm_compute; reflexivity. }
  apply List.Exists_cons_tl, List.Exists_cons_tl, List.Exists_cons_hd.
  split; [reflexivity|]. split; vm_compute; reflexivity.
Qed.

(** Rounding to 4 decimals can lift a returned weight above the cap and
    the sum above 1: with max_weight = 0.33336 the solver weights 0.33336,
    0.33336, 0.33328, which keep the constraints, are returned as 0.3334,
    0.3334, 0.3333. *)
Lemma rounding_can_exceed_cap_and_unit_sum :
  let preferences := PrefDict {[ "max_weight" := 0.33336%Q ]} in
  Forall (fun x => (0 <= x <= effective_max_weight preferences)%Q)
         [0.33336%Q; 0.33336%Q; 0.33328%Q] /\
  (Qsum [0.33336%Q; 0.33336%Q; 0.33328%Q] == 1)%Q /\
  exists result ws,
    fst (optimize_portfolio
           (sample_library (fixed_solver [0.33336%Q; 0.33336%Q; 0.33328%Q])
              every_target)
           month_env three_holdings "max_sharpe" preferences
           (Some live_prices) 60 0 empty_world) = Returned result /\
    dict_get "optimized_weights" result = Some (VWeights ws) /\
    (effective_max_weight preferences < snd (nth 0 ws ("", 0%Q)))%Q /\
    (1 < Qsum (map snd ws))%Q.
Proof.
  cbv zeta. split.
  { repeat apply List.Forall_cons; try apply List.Forall_nil;
      split; vm_compute; discriminate. }
  split; [vm_compute; reflexivity|].
  let r := eval vm_compute in
      (fst (optimize_portfolio
              (sample_library
                 (fixed_solver [0.33336%Q; 0.33336%Q; 0.33328%Q])
                 every_target)
              month_env three_holdings "max_sharpe"
              (PrefDict {[ "max_weight" := 0.33336%Q ]})
              (Some live_prices) 60 0 empty_world)) in
  match r with
  | Returned ?d => exists d;
      match d with
      | (_, VWeights ?x) :: _ => exists x
      end
  end.
  split; [vm_compute; reflexivity|].
  split; [reflexivity|].
  split; vm_compute; reflexivity.
Qed.

(** ** Retrying requests *)

Section RetryProperties.
Import Retry.
Context {Body : Type}.
Variable responses : nat -> Response Body.
Variable max_retries : nat.
Variable backoff_factor : Q.

Lemma requests_of_backoff_rounds attempts :
  requests_of (backoff_rounds backoff_factor attempts) = attempts.
Proof.
  induction attempts as [|a rest IH]; [reflexivity|].
  change (backoff_rounds backoff_factor (a :: rest))
    with (Get a :: Sleep (wait_time backoff_factor a)
          :: backoff_rounds backoff_factor rest).
  unfold requests_of in *. cbn [omap list_omap]. rewrite IH. reflexivity.
Qed.

Lemma sleeps_of_backoff_rounds attempts :
  sleeps_of (backoff_rounds backoff_factor attempts)
  = map (wait_time backoff_factor) attempts.
Proof.
  induction attempts as [|a rest IH]; [reflexivity|].
  change (backoff_rounds backoff_factor (a :: rest))
    with (Get a :: Sleep (wait_time backoff_factor a)
          :: backoff_rounds backoff_factor rest).
  unfold sleeps_of in *. cbn [omap list_omap map]. rewrite IH. reflexivity.
Qed.

Lemma requests_of_app l1 l2 :
  requests_of (l1 ++ l2) = requests_of l1 ++ requests_of l2.
Proof. unfold requests_of. apply omap_app. Qed.

Lemma sleeps_of_app l1 l2 :
  sleeps_of (l1 ++ l2) = sleeps_of l1 ++ sleeps_of l2.
Proof. unfold sleeps_of. apply omap_app. Qed.

(** Attempts that end in a pause, followed by the rest of the loop. *)
Lemma retry_loop_app pre post :
  (forall i, i ∈ pre ->
     responses i = RateLimited \/
     (responses i = RequestError /\ i <> (max_retries - 1)%nat)) ->
  retry_loop responses max_retries backoff_factor (pre ++ post)
  = (fst (retry_loop responses max_retries backoff_factor post),
     backoff_rounds backoff_factor pre
     ++ snd (retry_loop responses max_retries backoff_factor post)).
Proof.
  induction pre as [|a rest IH]; intros Hall.
  - cbn [app backoff_rounds map concat].
    destruct (retry_loop _ _ _ post); reflexivity.
  - cbn [app retry_loop].
    rewrite IH by (intros i Hi; apply Hall; right; exact Hi).
    destruct (Hall a) as [-> | [-> Hne]]; [left | reflexivity | ].
    apply Nat.eqb_neq in Hne. rewrite Hne. reflexivity.
Qed.

(** What the loop does from attempt [k] on, [m] attempts being left. *)
Lemma retry_loop_seq m : forall k,
  (k + m = max_retries)%nat ->
  (fst (retry_loop responses max_retries backoff_factor (seq k m)) = None /\
   requests_of (snd (retry_loop responses max_retries backoff_factor (seq k m)))
   = seq k m) \/
  (exists j body,
     (k <= j < max_retries)%nat /\ responses j = Success body /\
     fst (retry_loop responses max_retries backoff_factor (seq k m))
     = Some body /\
     requests_of (snd (retry_loop responses max_retries backoff_factor (seq k m)))
     = seq k (S j - k)).
Proof.
  induction m as [|m IH]; intros k Hk.
  - left. split; reflexivity.
  - cbn [seq retry_loop].
    destruct (responses k) as [|body|] eqn:Hr.
    + destruct (IH (S k) ltac:(lia)) as [[H1 H2]|(j & body & Hj & Hs & H1 & H2)];
        destruct (retry_loop responses max_retries backoff_factor (seq (S k) m))
          as [r log]; cbn [fst snd] in *.
      * left. split; [exact H1|].
        unfold requests_of in *. cbn [omap list_omap]. rewrite H2. reflexivity.
      * right. exists j, body. split; [lia|]. split; [exact Hs|].
        split; [exact H1|].
        unfold requests_of in *. cbn [omap list_omap]. rewrite H2.
        replace (S j - k)%nat with (S (S j - S k)) by lia. reflexivity.
    + right. exists k, body. split; [lia|]. split; [exact Hr|].
      split; [reflexivity|].
      replace (S k - k)%nat with 1%nat by lia. reflexivity.
    + destruct (Nat.eqb_spec k (max_retries - 1)) as [He|Hne].
      * left. assert (m = 0%nat) by lia. subst m. split; reflexivity.
      * destruct (IH (S k) ltac:(lia)) as [[H1 H2]|(j & body & Hj & Hs & H1 & H2)];
          destruct (retry_loop responses max_retries backoff_factor (seq (S k) m))
            as [r log]; cbn [fst snd] in *.
        -- left. split; [exact H1|].
           unfold requests_of in *. cbn [omap list_omap]. rewrite H2.
           reflexivity.
        -- right. exists j, body. split; [lia|]. split; [exact Hs|].
           split; [exact H1|].
           unfold requests_of in *. cbn [omap list_omap]. rewrite H2.
           replace (S j - k)%nat with (S (S j - S k)) by lia. reflexivity.
Qed.

Lemma total_sleep_backoff_rounds n :
  (total_sleep (backoff_rounds backoff_factor (seq 0 n))
   == backoff_factor * (inject_Z (2 ^ Z.of_nat n) - 1))%Q.
Proof.
  unfold total_sleep. rewrite sleeps_of_backoff_rounds.
  induction n as [|n IH].
  - cbn [seq map fold_right].
    change (inject_Z (2 ^ Z.of_nat 0)) with 1%Q. ring.
  - rewrite seq_S, map_app, fold_right_app. cbn [map fold_right Nat.add].
    assert (Hgen : forall l a,
      (fold_right Qplus a (map (wait_time backoff_factor) l)
       == fold_right Qplus 0 (map (wait_time backoff_factor) l) + a)%Q).
    { induction l as [|x l IHl]; intros a; cbn [map fold_right]; [ring|].
      rewrite IHl. ring. }
    rewrite Hgen, IH. unfold wait_time.
    rewrite Nat2Z.inj_succ, Z.pow_succ_r by lia.
    rewrite inject_Z_mult. change (inject_Z 2) with 2%Q. ring.
Qed.

End RetryProperties.

(** X1. Rate limited on every attempt, [api_call_with_retry] makes exactly
    [max_retries] requests, pauses [backoff_factor * 2 ^ attempt] after
    each of them, the last one included, and returns no data; the pauses add
    up to [backoff_factor * (2 ^ max_retries - 1)]. *)
Theorem api_call_rate_limited_gives_up {Body : Type}
    (responses : nat -> Retry.Response Body) (max_retries : nat)
    (backoff_factor : Q) :
  (forall i, (i < max_retries)%nat -> responses i = Retry.RateLimited) ->
  Retry.api_call_with_retry responses max_retries backoff_factor
  = (None, Retry.backoff_rounds backoff_factor (seq 0 max_retries)) /\
  (Retry.total_sleep
     (snd (Retry.api_call_with_retry responses max_retries backoff_factor))
   == backoff_factor * (inject_Z (2 ^ Z.of_nat max_retries) - 1))%Q.
Proof.
  intros Hall.
  assert (E : Retry.api_call_with_retry responses max_retries backoff_factor
              = (None, Retry.backoff_rounds backoff_factor (seq 0 max_retries))).
  { unfold Retry.api_call_with_retry.
    rewrite <- (app_nil_r (seq 0 max_retries)) at 1.
    rewrite retry_loop_app.
    - cbn [Retry.retry_loop fst snd]. rewrite app_nil_r. reflexivity.
    - intros i Hi. left. apply Hall.
      apply list_elem_of_In, in_seq in Hi. lia. }
  split; [exact E|]. rewrite E. cbn [snd].
  apply total_sleep_backoff_rounds.
Qed.

Lemma api_call_rate_limited_witness :
  Retry.api_call_with_retry (fun _ => @Retry.RateLimited Z) 3 0.5
  = (None, Retry.backoff_rounds 0.5 (seq 0 3)) /\
  (Retry.total_sleep
     (snd (Retry.api_call_with_retry (fun _ => @Retry.RateLimited Z) 3 0.5))
   == 0.5 * (inject_Z (2 ^ Z.of_nat 3) - 1))%Q.
Proof.
  apply (api_call_rate_limited_gives_up (fun _ => @Retry.RateLimited Z) 3 0.5).
  intros i _. reflexivity.
Defined.

(** X2. When attempt [k] is the first one to be answered with data and the
    earlier attempts were rate limited or failed, [api_call_with_retry]
    returns that data after [k + 1] requests, having paused
    [backoff_factor * 2 ^ i] after each failed attempt [i] and not after
    the successful one. *)
Theorem api_call_first_success {Body : Type}
    (responses : nat -> Retry.Response Body) (max_retries : nat)
    (backoff_factor : Q) (k : nat) (body : Body) :
  (k < max_retries)%nat ->
  responses k = Retry.Success body ->
  (forall i, (i < k)%nat ->
     responses i = Retry.RateLimited \/ responses i = Retry.RequestError) ->
  Retry.api_call_with_retry responses max_retries backoff_factor
  = (Some body,
     Retry.backoff_rounds backoff_factor (seq 0 k) ++ [Retry.Get k]).
Proof.
  intros Hk Hs Hbefore. unfold Retry.api_call_with_retry.
  replace max_retries with (k + (max_retries - k))%nat at 2 by lia.
  rewrite seq_app, retry_loop_app.
  - destruct (max_retries - k)%nat as [|m] eqn:E; [lia|].
    cbn [seq Retry.retry_loop Nat.add]. rewrite Hs. reflexivity.
  - intros i Hi. apply list_elem_of_In, in_seq in Hi.
    destruct (Hbefore i ltac:(lia)) as [H|H]; [left; exact H|].
    right. split; [exact H | lia].
Qed.

Lemma api_call_first_success_witness :
  Retry.api_call_with_retry (Retry.busy_then 2 42) 3 0.5
  = (Some 42, Retry.backoff_rounds 0.5 (seq 0 2) ++ [Retry.Get 2]).
Proof.
  apply (api_call_first_success (Retry.busy_then 2 42) 3 0.5 2 42).
  - lia.
  - reflexivity.
  - intros i Hi. left. unfold Retry.busy_then.
    destruct (Nat.ltb_spec i 2) as [_|H]; [reflexivity | lia].
Defined.

(** X3. When every attempt fails with a request error,
    [api_call_with_retry] makes [max_retries] requests and returns no data
    right after the last failure: unlike under rate limiting, there is no
    pause after the last attempt. *)
Theorem api_call_all_errors {Body : Type}
    (responses : nat -> Retry.Response Body) (max_retries : nat)
    (backoff_factor : Q) :
  (0 < max_retries)%nat ->
  (forall i, (i < max_retries)%nat -> responses i = Retry.RequestError) ->
  Retry.api_call_with_retry responses max_retries backoff_factor
  = (None,
     Retry.backoff_rounds backoff_factor (seq 0 (max_retries - 1))
     ++ [Retry.Get (max_retries - 1)]).
Proof.
  intros Hpos Hall. unfold Retry.api_call_with_retry.
  replace max_retries with ((max_retries - 1) + 1)%nat at 2 by lia.
  rewrite seq_app, retry_loop_app.
  - cbn [seq Retry.retry_loop Nat.add]. rewrite Hall by lia.
    rewrite Nat.eqb_refl. reflexivity.
  - intros i Hi. apply list_elem_of_In, in_seq in Hi.
    right. split; [apply Hall; lia | lia].
Qed.

Lemma api_call_all_errors_witness :
  Retry.api_call_with_retry (fun _ => @Retry.RequestError Z) 3 0.5
  = (None, Retry.backoff_rounds 0.5 (seq 0 2) ++ [Retry.Get 2]).
Proof.
  apply (api_call_all_errors (fun _ => @Retry.RequestError Z) 3 0.5).
  - lia.
  - intros i _. reflexivity.
Defined.

(** X4. Whatever the provider answers, [api_call_with_retry] makes the
    attempts 0, 1, ... in order and never more than [max_retries] of them;
    it returns no data only after all [max_retries] attempts, and it
    returns data only if that data is the answer to the last request it
    made. *)
Theorem api_call_requests_bounded {Body : Type}
    (responses : nat -> Retry.Response Body) (max_retries : nat)
    (backoff_factor : Q) :
  let r := Retry.api_call_with_retry responses max_retries backoff_factor in
  (fst r = None /\ Retry.requests_of (snd r) = seq 0 max_retries) \/
  (exists j body,
     (j < max_retries)%nat /\ responses j = Retry.Success body /\
     fst r = Some body /\ Retry.requests_of (snd r) = seq 0 (S j)).
Proof.
  cbv zeta. unfold Retry.api_call_with_retry.
  destruct (retry_loop_seq responses max_retries backoff_factor max_retries 0
              ltac:(lia)) as [H|(j & body & Hj & Hs & H1 & H2)].
  - left. exact H.
  - right. exists j, body. rewrite Nat.sub_0_r in H2.
    split; [lia|]. auto.
Qed.

(** ** Cache keys *)

Lemma list_ascii_app s1 s2 :
  String.list_ascii_of_string (s1 +:+ s2)
  = String.list_ascii_of_string s1 ++ String.list_ascii_of_string s2.
Proof.
  induction s1 as [|a s1 IH]; [reflexivity|].
  change (String a s1 +:+ s2) with (String a (s1 +:+ s2)).
  cbn [String.list_ascii_of_string app]. rewrite IH. reflexivity.
Qed.

Lemma list_ascii_inj s1 s2 :
  String.list_ascii_of_string s1 = String.list_ascii_of_string s2 -> s1 = s2.
Proof.
  intros H. rewrite <- (String.string_of_list_ascii_of_string s1), H.
  apply String.string_of_list_ascii_of_string.
Qed.

(** Two lists cut at the last occurrence of [x] agree piecewise. *)
Lemma split_at_last {A} (x : A) (l1 : list A) : forall r1 l2 r2,
  x ∉ r1 -> x ∉ r2 -> l1 ++ x :: r1 = l2 ++ x :: r2 -> l1 = l2 /\ r1 = r2.
Proof.
  induction l1 as [|a l1 IH]; intros r1 l2 r2 H1 H2 E.
  - destruct l2 as [|b l2]; cbn in E.
    + injection E as ->. auto.
    + injection E as -> ->. exfalso. apply H1.
      apply elem_of_app. right. left.
  - destruct l2 as [|b l2]; cbn in E.
    + injection E as -> <-. exfalso. apply H2.
      apply elem_of_app. right. left.
    + injection E as -> E. destruct (IH _ _ _ H1 H2 E) as [-> ->]. auto.
Qed.

Lemma pretty_N_go_plain (x : N) : forall s, plain s -> plain (pretty_N_go x s).
Proof.
  induction (N.lt_wf_0 x) as [x _ IH]; intros s Hs.
  assert (x = 0 \/ 0 < x)%N as [->|Hpos] by lia.
  - rewrite pretty_N_go_0. exact Hs.
  - rewrite pretty_N_go_step by exact Hpos.
    apply IH; [apply N.div_lt; lia|].
    unfold plain in *. cbn [String.list_ascii_of_string].
    intros Hin. apply elem_of_cons in Hin. destruct Hin as [Hc|Hin];
      [|exact (Hs Hin)].
    revert Hc. unfold pretty_N_char, underscore.
    repeat case_match; discriminate.
Qed.

Lemma plain_one_digit : plain "0".
Proof.
  unfold plain. cbn. intros Hin. apply elem_of_cons in Hin.
  destruct Hin as [Hin|Hin]; [discriminate Hin | inversion Hin].
Qed.

Lemma pretty_N_plain (x : N) : plain (pretty x).
Proof.
  unfold pretty, pretty_N. case_decide.
  - apply plain_one_digit.
  - apply pretty_N_go_plain. unfold plain. cbn. intros Hin. inversion Hin.
Qed.

Lemma pretty_Z_plain (z : Z) : plain (pretty z).
Proof.
  destruct z as [|p|p].
  - apply plain_one_digit.
  - apply (pretty_N_plain (Npos p)).
  - change (pretty (Zneg p)) with ("-" +:+ pretty (Npos p)).
    unfold plain. rewrite list_ascii_app. cbn.
    intros H. apply elem_of_cons in H.
    destruct H as [H|H]; [discriminate H|].
    exact (pretty_N_plain (Npos p) H).
Qed.

(** Distinct keys have distinct cache files. *)
Lemma get_cache_path_inj c d c' d' :
  get_cache_path c d = get_cache_path c' d' -> c = c' /\ d = d'.
Proof.
  unfold get_cache_path. intros E.
  apply (f_equal String.list_ascii_of_string) in E.
  rewrite !list_ascii_app in E.
  change (String.list_ascii_of_string "_") with [underscore] in E.
  cbn [app] in E.
  apply split_at_last in E.
  - destruct E as [Ec Ed]. split; [apply list_ascii_inj, Ec|].
    apply app_inv_tail in Ed. apply list_ascii_inj in Ed.
    apply (inj pretty) in Ed. exact Ed.
  - intros H. apply elem_of_app in H. destruct H as [H|H].
    + exact (pretty_Z_plain d H).
    + revert H. cbn. rewrite !elem_of_cons.
      intros H. repeat (destruct H as [H|H]; [discriminate H|]).
      inversion H.
  - intros H. apply elem_of_app in H. destruct H as [H|H].
    + exact (pretty_Z_plain d' H).
    + revert H. cbn. rewrite !elem_of_cons.
      intros H. repeat (destruct H as [H|H]; [discriminate H|]).
      inversion H.
Qed.

(** X5. Cache keys do not collide: two different (coin, window) keys have
    different cache files, so saving a series under one key leaves the
    entry of every other key as it was. *)
Theorem save_to_cache_keeps_other_keys
    (env : Env) (coin_id : string) (days : Z) (data : hist_data)
    (coin_id' : string) (days' : Z) (w : World) :
  (coin_id, days) <> (coin_id', days') ->
  get_cache_path coin_id days <> get_cache_path coin_id' days' /\
  files (snd (save_to_cache env coin_id days data w))
    !! get_cache_path coin_id' days'
  = files w !! get_cache_path coin_id' days'.
Proof.
  intros Hne.
  assert (Hp : get_cache_path coin_id days <> get_cache_path coin_id' days').
  { intros E. apply get_cache_path_inj in E. destruct E as [-> ->].
    apply Hne. reflexivity. }
  split; [exact Hp|].
  rewrite save_to_cache_files. apply lookup_insert_ne. exact Hp.
Qed.

Lemma save_to_cache_keeps_other_keys_witness :
  get_cache_path "bitcoin" 60 <> get_cache_path "bitcoin" 7 /\
  files (snd (save_to_cache second_clock_env "bitcoin" 60 sample_data
                empty_world))
    !! get_cache_path "bitcoin" 7
  = files empty_world !! get_cache_path "bitcoin" 7.
Proof.
  apply (save_to_cache_keeps_other_keys second_clock_env "bitcoin" 60
           sample_data "bitcoin" 7 empty_world).
  intros H. discriminate H.
Defined.

(** ** Price History Service and its cache *)

Ltac step_ret := unfold ret; cbv beta iota; cbn [fst snd].

Section HistoryCache.
Variable env : Env.
Variable days : Z.
Variable ums : bool.

Lemma load_from_cache_fresh cid w :
  fresh_at env (files w) (get_cache_path cid days) (tick w) ->
  exists d,
    load_from_cache env cid days 24 w
    = (Some d, mkWorld (files w) (S (tick w))
                       (trace w ++ [EvCacheRead (get_cache_path cid days)])).
Proof.
  intros (t & d & Hf & Hage). exists d.
  unfold load_from_cache, bind, read_file. cbv beta iota. rewrite Hf.
  unfold time_time. cbv beta iota. cbn [files tick trace].
  assert (E : Qgtb (time_at env (tick w) - t) (24 * 3600) = false).
  { unfold Qgtb. apply Qltb_ge. exact Hage. }
  rewrite E. reflexivity.
Qed.

(** A symbol whose record is fresh when it is read is served from the
    cache. *)
Lemma fetch_symbol_hit s ap ms w :
  fresh_at env (files w) (symbol_cache_path s days) (tick w) ->
  exists ser,
    fetch_symbol env days ums s (ap, ms) w
    = ((ap ++ [(s, ser)], ms),
       mkWorld (files w) (S (tick w))
               (trace w ++ [EvCacheRead (symbol_cache_path s days)])).
Proof.
  unfold symbol_cache_path, fetch_symbol.
  generalize (symbol_to_id !!! s). intros cid Hf.
  destruct (load_from_cache_fresh cid w Hf) as [d Hl].
  exists (prices d). unfold bind. rewrite Hl. reflexivity.
Qed.

(** The symbol at position [i] is read at step [tick w + i] when all the
    symbols before it were served from the cache. *)
Lemma fetch_all_hits symbols : forall ap ms w,
  (forall i s, symbols !! i = Some s ->
     fresh_at env (files w) (symbol_cache_path s days) (tick w + i)) ->
  exists ap',
    fetch_all env days ums symbols (ap, ms) w
    = ((ap', ms),
       mkWorld (files w) (length symbols + tick w)
         (trace w ++ map (fun s => EvCacheRead (symbol_cache_path s days))
                         symbols)) /\
    map fst ap' = map fst ap ++ symbols.
Proof.
  induction symbols as [|s rest IH]; intros ap ms w Hall.
  - exists ap. cbn [fetch_all map length Nat.add]. rewrite !app_nil_r.
    destruct w; split; reflexivity.
  - pose proof (Hall 0%nat s eq_refl) as H0. rewrite Nat.add_0_r in H0.
    destruct (fetch_symbol_hit s ap ms w H0) as [ser Hs].
    cbn [fetch_all]. unfold bind. rewrite Hs.
    destruct (IH (ap ++ [(s, ser)]) ms
                (mkWorld (files w) (S (tick w))
                   (trace w ++ [EvCacheRead (symbol_cache_path s days)])))
      as (ap' & Hr & Hn).
    { intros i s' Hs'. cbn [files tick].
      replace (S (tick w) + i)%nat with (tick w + S i)%nat by lia.
      apply Hall. exact Hs'. }
    exists ap'. rewrite Hr. cbn [files tick trace].
    split.
    + f_equal. f_equal; [cbn [length]; lia|].
      rewrite <- app_assoc. reflexivity.
    + rewrite Hn, map_app, <- app_assoc. reflexivity.
Qed.

End HistoryCache.

(** A run in which every recognized symbol has a record that is fresh when
    it is read. *)
Lemma get_historical_prices_fresh
    (env : Env) (symbols : list string) (days : Z) (ums : bool) (w : World) :
  (forall i s, List.filter known_symbol symbols !! i = Some s ->
     fresh_at env (files w) (symbol_cache_path s days) (tick w + i)) ->
  let r := get_historical_prices env symbols days ums w in
  trace (snd r)
  = trace w ++ map (fun s => EvCacheRead (symbol_cache_path s days))
                   (List.filter known_symbol symbols) /\
  files (snd r) = files w /\
  column_names (fst (fst r)) = List.filter known_symbol symbols /\
  snd (fst r) = [].
Proof.
  intros Hall. cbv zeta. unfold get_historical_prices.
  destruct (List.filter known_symbol symbols) as [|v vs] eqn:Ef.
  - step_ret. cbn [map]. rewrite app_nil_r. auto.
  - destruct (fetch_all_hits env days ums (v :: vs) [] [] w Hall)
      as (ap' & Hr & Hn).
    unfold bind. rewrite Hr. cbv beta iota.
    destruct ap' as [|a ap']; [discriminate Hn|].
    step_ret. cbn [files trace].
    rewrite column_names_concat_daily. auto.
Qed.

(** X6. Cache first: when every recognized requested symbol has a cache
    record that is at most 24 hours old at the moment it is read - the
    i-th recognized symbol is read at the i-th clock step of the call -
    [get_historical_prices] reads exactly those cache files, in request
    order, and does nothing else: no provider request, no cache write;
    the matrix has one column per recognized symbol and no symbol is
    reported missing. *)
Theorem history_served_from_fresh_cache
    (env : Env) (symbols : list string) (days : Z) (ums : bool) (w : World) :
  (forall i s, List.filter known_symbol symbols !! i = Some s ->
     fresh_at env (files w) (symbol_cache_path s days) (tick w + i)) ->
  let r := get_historical_prices env symbols days ums w in
  trace (snd r)
  = trace w ++ map (fun s => EvCacheRead (symbol_cache_path s days))
                   (List.filter known_symbol symbols) /\
  files (snd r) = files w /\
  column_names (fst (fst r)) = List.filter known_symbol symbols /\
  snd (fst r) = [].
Proof. apply get_historical_prices_fresh. Qed.

Lemma history_served_from_fresh_cache_witness :
  let r := get_historical_prices second_clock_env ["BTC"; "FOO"] 60 true
             cached_btc_world in
  trace (snd r)
  = trace cached_btc_world
    ++ map (fun s => EvCacheRead (symbol_cache_path s 60))
           (List.filter known_symbol ["BTC"; "FOO"]) /\
  files (snd r) = files cached_btc_world /\
  column_names (fst (fst r)) = List.filter known_symbol ["BTC"; "FOO"] /\
  snd (fst r) = [].
Proof.
  apply (history_served_from_fresh_cache second_clock_env ["BTC"; "FOO"] 60
           true cached_btc_world).
  intros i s Hi.
  assert (E : List.filter known_symbol ["BTC"; "FOO"] = ["BTC"])
    by (vm_compute; reflexivity).
  rewrite E in Hi. destruct i as [|i]; [|discriminate Hi].
  injection Hi as <-.
  exists 0%Q, sample_data. split; vm_compute; [reflexivity | discriminate].
Defined.

Section HistoryLoop.
Variable env : Env.
Variable days : Z.
Variable ums : bool.

Lemma load_from_cache_world cid max_age w :
  exists k,
    snd (load_from_cache env cid days max_age w)
    = mkWorld (files w) (tick w + k)
              (trace w ++ [EvCacheRead (get_cache_path cid days)]).
Proof.
  unfold load_from_cache, bind, read_file. cbv beta iota.
  destruct (files w !! get_cache_path cid days) as [[|t d]|].
  - exists 0%nat. step_ret. rewrite Nat.add_0_r. reflexivity.
  - exists 1%nat. unfold time_time. cbv beta iota. cbn [files tick trace].
    rewrite Nat.add_1_r.
    destruct (Qgtb _ _); reflexivity.
  - exists 0%nat. step_ret. rewrite Nat.add_0_r. reflexivity.
Qed.

Lemma load_from_cache_some cid max_age w d :
  fst (load_from_cache env cid days max_age w) = Some d ->
  exists t, files w !! get_cache_path cid days = Some (CacheRecord t d).
Proof.
  unfold load_from_cache, bind, read_file. cbv beta iota.
  destruct (files w !! get_cache_path cid days) as [[|t d']|].
  - step_ret. discriminate.
  - unfold time_time. cbv beta iota. cbn [files tick trace].
    destruct (Qgtb _ _); step_ret; [discriminate|].
    intros H. injection H as ->. eauto.
  - step_ret. discriminate.
Qed.

(** One iteration of the loop, in full: served from the cache, fetched
    from the primary provider, fetched from the alternate provider, or
    missing. *)
Lemma fetch_symbol_spec s ap ms w :
  let p := symbol_cache_path s days in
  let cid := symbol_to_id !!! s in
  exists k,
    (exists t d,
        files w !! p = Some (CacheRecord t d) /\
        fetch_symbol env days ums s (ap, ms) w
        = ((ap ++ [(s, prices d)], ms),
           mkWorld (files w) (tick w + k) (trace w ++ [EvCacheRead p]))) \/
    (exists ser,
        history env (tick w + k) coingecko cid days = Some ser /\
        fetch_symbol env days ums s (ap, ms) w
        = ((ap ++ [(s, ser)], ms),
           mkWorld (<[p := CacheRecord (time_at env (S (tick w + k)))
                             (mkHist ser)]> (files w))
                   (S (S (tick w + k)))
                   (trace w ++ [EvCacheRead p; EvFetch coingecko cid days;
                                EvCacheWrite p]))) \/
    (exists ser,
        ums = true /\
        history env (S (tick w + k)) coinapi cid days = Some ser /\
        fetch_symbol env days ums s (ap, ms) w
        = ((ap ++ [(s, ser)], ms),
           mkWorld (<[p := CacheRecord (time_at env (S (S (tick w + k))))
                             (mkHist ser)]> (files w))
                   (S (S (S (tick w + k))))
                   (trace w ++ [EvCacheRead p; EvFetch coingecko cid days;
                                EvFetch coinapi cid days; EvCacheWrite p]))) \/
    (exists k',
        fetch_symbol env days ums s (ap, ms) w
        = ((ap, ms ++ [s]),
           mkWorld (files w) k'
                   (trace w ++ EvCacheRead p :: EvFetch coingecko cid days
                            :: (if ums then [EvFetch coinapi cid days]
                                else [])))).
Proof.
  cbv zeta. unfold symbol_cache_path, fetch_symbol.
  generalize (symbol_to_id !!! s). intros cid.
  destruct (load_from_cache_world cid 24 w) as [k Hw]. exists k.
  pose proof (load_from_cache_some cid 24 w) as Hsome.
  unfold bind.
  destruct (load_from_cache env cid days 24 w) as [[d|] w1].
  { left. destruct (Hsome d eq_refl) as [t Ht]. exists t, d.
    cbn [snd] in Hw. subst w1. split; [exact Ht | reflexivity]. }
  clear Hsome. cbn [snd] in Hw. subst w1. right.
  unfold _get_historical_data. cbv beta iota. cbn [files tick trace].
  destruct (history env (tick w + k) coingecko cid days) as [ser|] eqn:Hg;
    cbn [option_map]; step_ret.
  - left. exists ser. split; [reflexivity|].
    unfold save_to_cache, bind, time_time, write_file. cbv beta iota.
    cbn [files tick trace]. step_ret.
    rewrite <- !app_assoc. reflexivity.
  - right. destruct ums; step_ret; cbn [files tick trace].
    + destruct (history env (S (tick w + k)) coinapi cid days) as [ser|]
        eqn:Ha; cbn [option_map]; step_ret.
      * left. exists ser. split; [reflexivity|]. split; [reflexivity|].
        unfold save_to_cache, bind, time_time, write_file. cbv beta iota.
        cbn [files tick trace]. step_ret.
        rewrite <- !app_assoc. reflexivity.
      * right. eexists. rewrite <- !app_assoc. reflexivity.
    + right. eexists. rewrite <- !app_assoc. reflexivity.
Qed.

(** Induction over the loop: what every iteration keeps, the loop keeps. *)
Lemma fetch_all_invariant
    (P : list (string * series) * list string -> World -> Prop)
    (symbols : list string) :
  (forall s acc w, s ∈ symbols -> P acc w ->
     P (fst (fetch_symbol env days ums s acc w))
       (snd (fetch_symbol env days ums s acc w))) ->
  forall acc w, P acc w ->
    P (fst (fetch_all env days ums symbols acc w))
      (snd (fetch_all env days ums symbols acc w)).
Proof.
  induction symbols as [|s rest IH]; intros Hstep acc w HP.
  - exact HP.
  - cbn [fetch_all]. unfold bind.
    pose proof (Hstep s acc w ltac:(left) HP) as H1.
    destruct (fetch_symbol env days ums s acc w) as [acc1 w1].
    cbn [fst snd] in H1. apply IH; [|exact H1].
    intros s' acc' w' Hs'. apply Hstep. right. exact Hs'.
Qed.

End HistoryLoop.

Section HistoryRuns.
Variable env : Env.
Variable days : Z.
Variable ums : bool.

(** The world after [get_historical_prices] is the world after its loop. *)
Lemma get_historical_prices_world symbols w :
  snd (get_historical_prices env symbols days ums w)
  = snd (fetch_all env days ums (List.filter known_symbol symbols) ([], []) w).
Proof.
  unfold get_historical_prices.
  destruct (List.filter known_symbol symbols) as [|v vs]; [reflexivity|].
  unfold bind.
  destruct (fetch_all env days ums (v :: vs) ([], []) w) as [[ap ms] w1].
  cbv beta iota. destruct ap; reflexivity.
Qed.

(** The columns are the symbols the loop collected. *)
Lemma get_historical_prices_columns symbols w :
  column_names (fst (fst (get_historical_prices env symbols days ums w)))
  = map fst (fst (fst (fetch_all env days ums
                         (List.filter known_symbol symbols) ([], []) w))).
Proof.
  rewrite get_historical_prices_unfold.
  destruct (List.filter known_symbol symbols) as [|v vs]; [reflexivity|].
  destruct (fetch_all env days ums (v :: vs) ([], []) w) as [[ap ms] w1].
  cbn [fst snd]. destruct ap as [|a ap]; [reflexivity|].
  cbn [fst]. apply column_names_concat_daily.
Qed.

Lemma fetch_symbol_trace s acc w evs :
  trace w = evs ->
  exists evs',
    trace (snd (fetch_symbol env days ums s acc w)) = evs ++ evs' /\
    Forall (symbol_event days ums s) evs'.
Proof.
  intros <-. destruct acc as [ap ms].
  destruct (fetch_symbol_spec env days ums s ap ms w) as [k Hc].
  cbv zeta in Hc. unfold symbol_event.
  destruct Hc as [(t & d & _ & ->)|[(ser & _ & ->)|[(ser & Hu & _ & ->)|[k' ->]]]];
    cbn [snd trace]; eexists; (split; [reflexivity|]).
  - repeat (apply List.Forall_cons || apply List.Forall_nil).
    left; reflexivity.
  - repeat (apply List.Forall_cons || apply List.Forall_nil).
    + left; reflexivity.
    + right; right; left; reflexivity.
    + right; left; reflexivity.
  - repeat (apply List.Forall_cons || apply List.Forall_nil).
    + left; reflexivity.
    + right; right; left; reflexivity.
    + right; right; right; split; [exact Hu | reflexivity].
    + right; left; reflexivity.
  - apply List.Forall_cons; [left; reflexivity|].
    apply List.Forall_cons; [right; right; left; reflexivity|].
    destruct ums; repeat (apply List.Forall_cons || apply List.Forall_nil).
    right; right; right; split; reflexivity.
Qed.

Lemma fetch_symbol_files s ap ms w q :
  files (snd (fetch_symbol env days ums s (ap, ms) w)) !! q = files w !! q \/
  (q = symbol_cache_path s days /\
   exists n ser src m,
     files (snd (fetch_symbol env days ums s (ap, ms) w)) !! q
     = Some (CacheRecord (time_at env n) (mkHist ser)) /\
     history env m src (symbol_to_id !!! s) days = Some ser).
Proof.
  destruct (fetch_symbol_spec env days ums s ap ms w) as [k Hc].
  cbv zeta in Hc.
  destruct Hc as [(t & d & _ & ->)|[(ser & Hh & ->)|[(ser & Hu & Hh & ->)|[k' ->]]]];
    cbn [snd files]; [left; reflexivity | | | left; reflexivity].
  - destruct (decide (q = symbol_cache_path s days)) as [->|Hne].
    + right. split; [reflexivity|]. rewrite lookup_insert_eq. eauto 8.
    + left. apply lookup_insert_ne. congruence.
  - destruct (decide (q = symbol_cache_path s days)) as [->|Hne].
    + right. split; [reflexivity|]. rewrite lookup_insert_eq. eauto 8.
    + left. apply lookup_insert_ne. congruence.
Qed.

(** What one iteration adds to the collected series: the series of a
    record the cache held, or a series a provider answered; either way the
    symbol's cache file holds a record afterwards. *)
Lemma fetch_symbol_collected s ap ms w :
  fst (fst (fetch_symbol env days ums s (ap, ms) w)) = ap \/
  (exists ser,
      fst (fst (fetch_symbol env days ums s (ap, ms) w)) = ap ++ [(s, ser)] /\
      has_record (files (snd (fetch_symbol env days ums s (ap, ms) w)))
                 (symbol_cache_path s days) /\
      ((exists t d, files w !! symbol_cache_path s days
                    = Some (CacheRecord t d) /\ ser = prices d) \/
       (exists m src, history env m src (symbol_to_id !!! s) days = Some ser))).
Proof.
  destruct (fetch_symbol_spec env days ums s ap ms w) as [k Hc].
  cbv zeta in Hc. unfold has_record.
  destruct Hc as [(t & d & Hf & ->)|[(ser & Hh & ->)|[(ser & Hu & Hh & ->)|[k' ->]]]];
    cbn [fst snd files]; [right | right | right | left; reflexivity].
  - exists (prices d). split; [reflexivity|]. split; [eauto|]. left. eauto.
  - exists ser. split; [reflexivity|]. rewrite lookup_insert_eq.
    split; [eauto|]. right. eauto.
  - exists ser. split; [reflexivity|]. rewrite lookup_insert_eq.
    split; [eauto|]. right. eauto.
Qed.

End HistoryRuns.

(** X7. [get_historical_prices] only touches what was asked for: every
    cache read, cache write and provider request it makes is for a
    recognized input symbol and the requested window, and the alternate
    provider is asked only when [use_multiple_sources] is set. *)
Theorem history_touches_only_requested
    (env : Env) (symbols : list string) (days : Z) (ums : bool) (w : World) :
  exists evs,
    trace (snd (get_historical_prices env symbols days ums w))
    = trace w ++ evs /\
    Forall (fun e => exists s, s ∈ symbols /\ known_symbol s = true /\
                               symbol_event days ums s e) evs.
Proof.
  rewrite get_historical_prices_world.
  apply (fetch_all_invariant env days ums
           (fun _ w' => exists evs,
              trace w' = trace w ++ evs /\
              Forall (fun e => exists s, s ∈ symbols /\ known_symbol s = true /\
                                         symbol_event days ums s e) evs)).
  - intros s acc w0 Hs (evs & Ht & Hall).
    apply filter_known_sound in Hs. destruct Hs as [Hs Hk].
    destruct (fetch_symbol_trace env days ums s acc w0 _ Ht)
      as (evs' & Ht' & Hall').
    exists (evs ++ evs'). rewrite Ht', app_assoc. split; [reflexivity|].
    apply Forall_app. split; [exact Hall|].
    eapply Forall_impl; [exact Hall'|]. intros e He. cbv beta. eauto.
  - exists []. rewrite app_nil_r. split; [reflexivity | constructor].
Qed.

Lemma filter_all_true {A} (f : A -> bool) (l : list A) :
  (forall x, x ∈ l -> f x = true) -> List.filter f l = l.
Proof.
  induction l as [|a l IH]; intros H; [reflexivity|].
  cbn [List.filter]. rewrite (H a) by left.
  rewrite IH; [reflexivity|]. intros x Hx. apply H. right. exact Hx.
Qed.

(** After a run every collected symbol has a cache record. *)
Lemma fetch_all_leaves_records
    (env : Env) (days : Z) (ums : bool) (symbols : list string) (w : World) :
  let r := fetch_all env days ums symbols ([], []) w in
  forall s, s ∈ map fst (fst (fst r)) ->
    has_record (files (snd r)) (symbol_cache_path s days).
Proof.
  cbv zeta.
  apply (fetch_all_invariant env days ums
           (fun acc w' => forall s, s ∈ map fst (fst acc) ->
              has_record (files w') (symbol_cache_path s days))).
  - intros s [ap ms] w0 _ Hrec s' Hs'.
    assert (Hkeep : has_record (files w0) (symbol_cache_path s' days) ->
              has_record
                (files (snd (fetch_symbol env days ums s (ap, ms) w0)))
                (symbol_cache_path s' days)).
    { intros Hr.
      destruct (fetch_symbol_files env days ums s ap ms w0
                  (symbol_cache_path s' days))
        as [E'|(_ & n & ser & src & m & E' & _)];
        unfold has_record; rewrite E'; [exact Hr | eauto]. }
    destruct (fetch_symbol_collected env days ums s ap ms w0)
      as [E|(ser & E & Hr & _)]; rewrite E in Hs'.
    + apply Hkeep, Hrec, Hs'.
    + rewrite map_app in Hs'. apply elem_of_app in Hs'.
      destruct Hs' as [Hs'|Hs'].
      * apply Hkeep, Hrec, Hs'.
      * cbn in Hs'. apply list_elem_of_singleton in Hs'. subst s'.
        exact Hr.
  - intros s Hs. inversion Hs.
Qed.

(** X8. A repeated call is served from the cache until the records
    expire: after [get_historical_prices] every column it returned has a
    cache record for the window; and when each of these records is at
    most 24 hours old at the moment the second call reads it (the i-th
    column is read at the i-th clock step of the second call), asking
    again for the returned columns makes no provider request and no cache
    write, reads one cache file per column and returns the same columns
    with nothing missing. *)
Theorem repeated_history_call_served_from_cache
    (env : Env) (symbols : list string) (days : Z) (ums ums' : bool)
    (w : World) :
  let r1 := get_historical_prices env symbols days ums w in
  let cols := column_names (fst (fst r1)) in
  let r2 := get_historical_prices env cols days ums' (snd r1) in
  (forall s, s ∈ cols ->
     has_record (files (snd r1)) (symbol_cache_path s days)) /\
  ((forall i s t d,
      cols !! i = Some s ->
      files (snd r1) !! symbol_cache_path s days = Some (CacheRecord t d) ->
      (time_at env (tick (snd r1) + i) - t <= 24 * 3600)%Q) ->
   trace (snd r2)
   = trace (snd r1)
     ++ map (fun s => EvCacheRead (symbol_cache_path s days)) cols /\
   files (snd r2) = files (snd r1) /\
   column_names (fst (fst r2)) = cols /\
   snd (fst r2) = []).
Proof.
  cbv zeta.
  set (cols := column_names
                 (fst (fst (get_historical_prices env symbols days ums w)))).
  assert (Hknown : forall s, s ∈ cols -> known_symbol s = true).
  { intros s Hs.
    apply (get_historical_prices_sound env symbols days ums w s).
    left. exact Hs. }
  assert (Hrec : forall s, s ∈ cols ->
            has_record
              (files (snd (get_historical_prices env symbols days ums w)))
              (symbol_cache_path s days)).
  { intros s Hs. rewrite get_historical_prices_world.
    apply (fetch_all_leaves_records env days ums
             (List.filter known_symbol symbols) w).
    unfold cols in Hs. rewrite get_historical_prices_columns in Hs.
    exact Hs. }
  split; [exact Hrec|]. intros Hage.
  pose proof (get_historical_prices_fresh env cols days ums'
                (snd (get_historical_prices env symbols days ums w))) as H.
  cbv zeta in H. rewrite (filter_all_true known_symbol cols Hknown) in H.
  apply H. intros i s Hi.
  destruct (Hrec s (list_elem_of_lookup_2 _ _ _ Hi)) as (t & d & Hf).
  exists t, d. split; [exact Hf|]. exact (Hage i s t d Hi Hf).
Qed.

Lemma repeated_history_call_witness :
  let r1 := get_historical_prices steady_env ["BTC"; "ETH"] 60 true
              empty_world in
  let cols := column_names (fst (fst r1)) in
  let r2 := get_historical_prices steady_env cols 60 false (snd r1) in
  trace (snd r2)
  = trace (snd r1)
    ++ map (fun s => EvCacheRead (symbol_cache_path s 60)) cols /\
  files (snd r2) = files (snd r1) /\
  column_names (fst (fst r2)) = cols /\
  snd (fst r2) = [].
Proof.
  apply (proj2 (repeated_history_call_served_from_cache steady_env
                  ["BTC"; "ETH"] 60 true false empty_world)).
  intros i s t d Hi Hf.
  destruct i as [|[|i]].
  - vm_compute in Hi. injection Hi as <-.
    vm_compute in Hf. injection Hf as <- _.
    vm_compute. discriminate.
  - vm_compute in Hi. injection Hi as <-.
    vm_compute in Hf. injection Hf as <- _.
    vm_compute. discriminate.
  - vm_compute in Hi. discriminate Hi.
Defined.

(** ** The shape of the price matrix *)

Lemma Zlist_min_le d0 ds x : x ∈ d0 :: ds -> Zlist_min d0 ds <= x.
Proof.
  unfold Zlist_min. induction ds as [|a ds IH]; intros Hx.
  - apply list_elem_of_singleton in Hx. subst. cbn. lia.
  - cbn [fold_right]. apply elem_of_cons in Hx. destruct Hx as [->|Hx].
    + specialize (IH ltac:(left)). lia.
    + apply elem_of_cons in Hx. destruct Hx as [->|Hx]; [lia|].
      specialize (IH ltac:(right; exact Hx)). lia.
Qed.

Lemma Zlist_max_ge d0 ds x : x ∈ d0 :: ds -> x <= Zlist_max d0 ds.
Proof.
  unfold Zlist_max. induction ds as [|a ds IH]; intros Hx.
  - apply list_elem_of_singleton in Hx. subst. cbn. lia.
  - cbn [fold_right]. apply elem_of_cons in Hx. destruct Hx as [->|Hx].
    + specialize (IH ltac:(left)). lia.
    + apply elem_of_cons in Hx. destruct Hx as [->|Hx]; [lia|].
      specialize (IH ltac:(right; exact Hx)). lia.
Qed.

(** Every day on which some series has a point is a row of the matrix. *)
Lemma day_in_daily_index ap d : d ∈ all_days ap -> d ∈ daily_index ap.
Proof.
  unfold daily_index. intros Hd.
  destruct (all_days ap) as [|d0 ds]; [inversion Hd|].
  pose proof (Zlist_min_le d0 ds d Hd) as Hlo.
  pose proof (Zlist_max_ge d0 ds d Hd) as Hhi.
  apply list_elem_of_In, in_map_iff.
  exists (Z.to_nat (d - Zlist_min d0 ds)). split; [lia|].
  apply in_seq. lia.
Qed.

Lemma last_on_day_some d s : forall best,
  is_Some best \/ (exists pt, pt ∈ s /\ day_of (fst pt) = d) ->
  is_Some (last_on_day d best s).
Proof.
  induction s as [|[ts p] r IH]; intros best H.
  - cbn. destruct H as [[b ->]|(pt & Hin & _)]; [eauto | inversion Hin].
  - cbn [last_on_day]. destruct (Z.eqb_spec (day_of ts) d) as [E|E].
    + destruct best as [[ts' p']|].
      * destruct (Z.leb ts' ts); apply IH; left; eauto.
      * apply IH. left. eauto.
    + apply IH. destruct H as [H|(pt & Hin & Hd)]; [left; exact H|].
      right. exists pt. split; [|exact Hd].
      apply elem_of_cons in Hin. destruct Hin as [->|Hin]; [|exact Hin].
      cbn in Hd. contradiction.
Qed.

(** The column of a series that has a point has a value. *)
Lemma concat_daily_column_has_value ap s ser :
  (s, ser) ∈ ap -> ser <> [] ->
  col_all_missing (map (fun d => last_on_day d None ser) (daily_index ap))
  = false.
Proof.
  intros Hin Hne. destruct ser as [|[ts p] rest]; [congruence|].
  destruct (col_all_missing _) eqn:E; [|reflexivity]. exfalso.
  unfold col_all_missing in E. rewrite forallb_forall in E.
  assert (Hd : day_of ts ∈ daily_index ap).
  { apply day_in_daily_index. unfold all_days.
    apply list_elem_of_In, in_concat.
    exists (map (fun pt => day_of (fst pt)) ((ts, p) :: rest)). split.
    - apply in_map_iff. exists (s, (ts, p) :: rest).
      split; [reflexivity | apply list_elem_of_In, Hin].
    - left. reflexivity. }
  specialize (E (last_on_day (day_of ts) None ((ts, p) :: rest))).
  destruct (last_on_day_some (day_of ts) ((ts, p) :: rest) None) as [v Hv].
  { right. exists (ts, p). split; [left | reflexivity]. }
  rewrite Hv in E. discriminate E.
  apply in_map_iff. exists (day_of ts). split; [exact Hv|].
  apply list_elem_of_In, Hd.
Qed.

Lemma filled_concat_daily_complete ap :
  Forall (fun c => snd c <> []) ap ->
  has_missing (bfill (ffill (concat_daily ap))) = false.
Proof.
  intros Hall. unfold has_missing.
  destruct (existsb _ _) eqn:E; [|reflexivity]. exfalso.
  apply existsb_exists in E. destruct E as (c & Hc & Hm).
  unfold bfill, ffill, map_columns, concat_daily in Hc. cbn [columns] in Hc.
  rewrite !map_map in Hc. cbn [fst snd] in Hc.
  apply in_map_iff in Hc. destruct Hc as ([s ser] & <- & Hin).
  cbn [fst snd] in Hm.
  rewrite fill_col_complete in Hm; [discriminate Hm|].
  apply (concat_daily_column_has_value ap s ser).
  - apply list_elem_of_In, Hin.
  - rewrite Forall_forall in Hall. apply (Hall (s, ser)).
    apply list_elem_of_In, Hin.
Qed.

(** X10. When neither the providers nor the cache ever hold an empty
    series, the matrix [get_historical_prices] returns has no missing
    cell. *)
Theorem history_matrix_has_no_missing_cell
    (env : Env) (symbols : list string) (days : Z) (ums : bool) (w : World) :
  (forall n src cid d, history env n src cid d <> Some []) ->
  (forall p t d, files w !! p = Some (CacheRecord t d) -> prices d <> []) ->
  has_missing (fst (fst (get_historical_prices env symbols days ums w)))
  = false.
Proof.
  intros Henv Hw.
  pose (P := fun (acc : list (string * series) * list string) (w' : World) =>
    (forall p t d, files w' !! p = Some (CacheRecord t d) -> prices d <> []) /\
    Forall (fun c : string * series => snd c <> []) (fst acc)).
  assert (HP : P (fst (fetch_all env days ums
                         (List.filter known_symbol symbols) ([], []) w))
                 (snd (fetch_all env days ums
                         (List.filter known_symbol symbols) ([], []) w))).
  { apply fetch_all_invariant.
    - intros s [ap ms] w0 _ [Hfiles Hser]. split.
      + intros p t d Hp.
        destruct (fetch_symbol_files env days ums s ap ms w0 p)
          as [E|(_ & n & ser & src & m & E & Hh)]; rewrite E in Hp.
        * exact (Hfiles p t d Hp).
        * injection Hp as <- <-. cbn [prices]. intros ->.
          exact (Henv _ _ _ _ Hh).
      + destruct (fetch_symbol_collected env days ums s ap ms w0)
          as [E|(ser & E & _ & [(t & d & Hf & ->)|(m & src & Hh)])];
          rewrite E; [exact Hser | | ].
        * apply Forall_app. split; [exact Hser|].
          apply List.Forall_cons; [|apply List.Forall_nil].
          cbn [snd]. exact (Hfiles _ t d Hf).
        * apply Forall_app. split; [exact Hser|].
          apply List.Forall_cons; [|apply List.Forall_nil].
          cbn [snd]. intros ->. exact (Henv _ _ _ _ Hh).
    - split; [exact Hw | apply List.Forall_nil]. }
  destruct HP as [_ Hser].
  rewrite get_historical_prices_unfold.
  destruct (List.filter known_symbol symbols) as [|v vs]; [reflexivity|].
  destruct (fetch_all env days ums (v :: vs) ([], []) w) as [[ap ms] w1].
  cbn [fst snd] in *. destruct ap as [|a ap]; [reflexivity|].
  cbn [fst]. apply filled_concat_daily_complete. exact Hser.
Qed.

Lemma history_matrix_has_no_missing_cell_witness :
  has_missing (fst (fst (get_historical_prices steady_env ["BTC"; "ETH"] 60
                           true empty_world)))
  = false.
Proof.
  apply (history_matrix_has_no_missing_cell steady_env ["BTC"; "ETH"] 60 true
           empty_world).
  - intros n src cid d H. vm_compute in H. discriminate H.
  - intros p t d H. vm_compute in H. discriminate H.
Defined.

(** ** Data Validator: cleaning *)

Lemma ffill_from_complete p l :
  col_has_missing l = false -> ffill_from p l = l.
Proof.
  revert p. induction l as [|x r IH]; intros p H; [reflexivity|].
  destruct x as [v|]; [|discriminate H].
  cbn in H |- *. rewrite IH by exact H. reflexivity.
Qed.

Lemma bfill_col_complete l : col_has_missing l = false -> bfill_col l = l.
Proof.
  induction l as [|x r IH]; intros H; [reflexivity|].
  destruct x as [v|]; [|discriminate H].
  cbn in H |- *. rewrite IH by exact H. reflexivity.
Qed.

Lemma ffill_col_blank l : col_all_missing l = true -> ffill_col l = l.
Proof.
  unfold ffill_col. induction l as [|x r IH]; intros H; [reflexivity|].
  destruct x as [v|]; [discriminate H|].
  cbn in H |- *. rewrite IH by exact H. reflexivity.
Qed.

Lemma bfill_col_blank l : col_all_missing l = true -> bfill_col l = l.
Proof.
  induction l as [|x r IH]; intros H; [reflexivity|].
  destruct x as [v|]; [discriminate H|].
  cbn in H |- *. rewrite IH by exact H.
  destruct r as [|y r']; [reflexivity|].
  destruct y; [discriminate H | reflexivity].
Qed.

(** Filling a filled column changes nothing. *)
Lemma fill_col_idempotent l :
  bfill_col (ffill_col (bfill_col (ffill_col l))) = bfill_col (ffill_col l).
Proof.
  destruct (col_all_missing l) eqn:E.
  - rewrite (ffill_col_blank l E), (bfill_col_blank l E).
    rewrite (ffill_col_blank l E), (bfill_col_blank l E). reflexivity.
  - pose proof (fill_col_complete l E) as Hc.
    unfold ffill_col at 1.
    rewrite (ffill_from_complete None _ Hc), (bfill_col_complete _ Hc).
    reflexivity.
Qed.

Lemma fill_idempotent df :
  bfill (ffill (bfill (ffill df))) = bfill (ffill df).
Proof.
  unfold bfill, ffill, map_columns. cbn [index columns]. f_equal.
  rewrite !map_map. apply map_ext. intros [name col]. cbn [fst snd].
  rewrite fill_col_idempotent. reflexivity.
Qed.

Lemma df_len_fill df : df_len (bfill (ffill df)) = df_len df.
Proof. reflexivity. Qed.

(** X11. Cleaning is idempotent: validating the cleaned matrix again, for
    the same lookback, hands back the same cleaned matrix. *)
Theorem validator_cleaning_is_idempotent (df : DataFrame) (lookback_days : Z) :
  snd (validate_price_data (snd (validate_price_data df lookback_days))
                           lookback_days)
  = snd (validate_price_data df lookback_days).
Proof.
  rewrite !validate_cleaned.
  destruct (Qltb (inject_Z (df_len df)) (min_required lookback_days)) eqn:E.
  - rewrite E. reflexivity.
  - rewrite df_len_fill, E. apply fill_idempotent.
Qed.

(** X12. The validator never changes the matrix the Price History Service
    hands to it: whatever the providers and the cache answer, the cleaned
    matrix is the history matrix itself, since [get_historical_prices] has
    already filled it forward and backward. *)
Theorem validator_keeps_history_matrix
    (env : Env) (symbols : list string) (days : Z) (ums : bool) (w : World)
    (lookback_days : Z) :
  snd (validate_price_data
         (fst (fst (get_historical_prices env symbols days ums w)))
         lookback_days)
  = fst (fst (get_historical_prices env symbols days ums w)).
Proof.
  rewrite validate_cleaned.
  destruct (Qltb _ _); [reflexivity|].
  rewrite get_historical_prices_unfold.
  destruct (List.filter known_symbol symbols) as [|v vs]; [reflexivity|].
  destruct (fetch_all env days ums (v :: vs) ([], []) w) as [[ap ms] w1].
  cbn [fst snd]. destruct ap as [|a ap]; [reflexivity|].
  cbn [fst]. apply fill_idempotent.
Qed.

Lemma ffill_from_keeps p l i v :
  l !! i = Some (Some v) -> ffill_from p l !! i = Some (Some v).
Proof.
  revert p i. induction l as [|x r IH]; intros p i H; [inversion H|].
  destruct i as [|i]; cbn in H |- *.
  - injection H as ->. reflexivity.
  - apply IH. exact H.
Qed.

Lemma bfill_col_keeps l i v :
  l !! i = Some (Some v) -> bfill_col l !! i = Some (Some v).
Proof.
  revert i. induction l as [|x r IH]; intros i H; [inversion H|].
  destruct i as [|i]; cbn in H.
  - injection H as ->. reflexivity.
  - cbn [bfill_col]. destruct x; cbn; apply IH; exact H.
Qed.

Lemma validate_cleaned_names (df : DataFrame) (lookback_days : Z) :
  column_names (snd (validate_price_data df lookback_days)) = column_names df.
Proof.
  rewrite validate_cleaned. destruct (Qltb _ _); [reflexivity|].
  unfold bfill, ffill. rewrite !column_names_map_columns. reflexivity.
Qed.

(** X13. The validator only fills gaps: the cleaned matrix has the rows
    and the columns of the input, in the same order, and every cell that
    held a price in the input holds the same price in the cleaned
    matrix. *)
Theorem validator_keeps_present_cells
    (df : DataFrame) (lookback_days : Z) :
  let cleaned := snd (validate_price_data df lookback_days) in
  index cleaned = index df /\
  column_names cleaned = column_names df /\
  forall j name col i v,
    columns df !! j = Some (name, col) ->
    col !! i = Some (Some v) ->
    exists col',
      columns cleaned !! j = Some (name, col') /\
      length col' = length col /\
      col' !! i = Some (Some v).
Proof.
  cbv zeta. rewrite validate_cleaned.
  destruct (Qltb _ _).
  { split; [reflexivity|]. split; [reflexivity|].
    intros j name col i v Hj Hi. exists col. auto. }
  split; [reflexivity|].
  split; [unfold bfill, ffill; rewrite !column_names_map_columns; reflexivity|].
  intros j name col i v Hj Hi.
  exists (bfill_col (ffill_col col)).
  unfold bfill, ffill, map_columns. cbn [columns]. rewrite map_map.
  cbn [fst snd]. rewrite list_lookup_fmap, Hj. cbn [fmap option_fmap option_map].
  split; [reflexivity|].
  split.
  - rewrite bfill_col_length. apply ffill_from_length.
  - apply bfill_col_keeps, ffill_from_keeps. exact Hi.
Qed.

Lemma validator_keeps_present_cells_witness :
  exists col',
    columns (snd (validate_price_data gap_frame 2)) !! 0%nat
    = Some ("BTC", col') /\
    length col' = length [Some 1%Q; None] /\
    col' !! 0%nat = Some (Some 1%Q).
Proof.
  apply (proj2 (proj2 (validator_keeps_present_cells gap_frame 2))
           0%nat "BTC" [Some 1%Q; None] 0%nat 1%Q); reflexivity.
Defined.

(** ** Data Validator: verdict *)

(** The causes of an invalid verdict. *)
Lemma validate_invalid_cause (df : DataFrame) (lookback_days : Z) :
  let r := validate_price_data df lookback_days in
  fst (fst r) = false ->
  (snd (fst r) = [InsufficientData (df_len df) (min_required lookback_days)]
   /\ (inject_Z (df_len df) < min_required lookback_days)%Q) \/
  (exists pct, HighMissing pct ∈ snd (fst r) /\ (20 < pct)%Q) \/
  (exists n, StalePrices n ∈ snd (fst r) /\
             (inject_Z lookback_days * 0.3 < inject_Z n)%Q).
Proof.
  cbv zeta. unfold validate_price_data.
  destruct (Qltb (inject_Z (df_len df)) (min_required lookback_days)) eqn:Eshort.
  { intros _. left. split; [reflexivity | apply Qltb_lt, Eshort]. }
  cbv zeta.
  set (rets := daily_returns (bfill (ffill df))).
  destruct (nan_gtb (missing_pct df) 5) eqn:E5;
    destruct (nan_gtb (missing_pct df) 20) eqn:E20;
    destruct (Z.ltb 0 (extreme_days rets));
    destruct (Qgtb (inject_Z (stale_days rets)) (inject_Z lookback_days * 0.1));
    destruct (Qgtb (inject_Z (stale_days rets)) (inject_Z lookback_days * 0.3))
      eqn:E30;
    destruct (Qgtb (inject_Z (outlier_days rets))
                   (inject_Z lookback_days * 0.1));
    cbn [fst snd]; intros Hv; try discriminate Hv; right;
    try (right; exists (stale_days rets);
         split; [ rewrite ?elem_of_app, ?elem_of_cons; tauto
                | apply Qltb_lt, E30 ]);
    try (left; destruct (missing_pct df) as [pct|]; [|discriminate E20];
         exists pct; cbn [default];
         split; [ rewrite ?elem_of_app, ?elem_of_cons; tauto
                | apply Qltb_lt, E20 ]).
Qed.

(** X14. An invalid verdict always has a fatal issue behind it: too few
    rows (then it is the only issue), more than 20% missing values, or
    stale prices on more than 30% of the lookback days. Extreme moves and
    statistical outliers are reported but never invalidate the data. *)
Theorem invalid_verdict_has_fatal_issue (df : DataFrame) (lookback_days : Z) :
  let r := validate_price_data df lookback_days in
  fst (fst r) = false ->
  (snd (fst r) = [InsufficientData (df_len df) (min_required lookback_days)]
   /\ (inject_Z (df_len df) < min_required lookback_days)%Q) \/
  (exists pct, HighMissing pct ∈ snd (fst r) /\ (20 < pct)%Q) \/
  (exists n, StalePrices n ∈ snd (fst r) /\
             (inject_Z lookback_days * 0.3 < inject_Z n)%Q).
Proof. apply validate_invalid_cause. Qed.

Lemma invalid_verdict_has_fatal_issue_witness :
  (snd (fst (validate_price_data gap_frame 60))
   = [InsufficientData (df_len gap_frame) (min_required 60)]
   /\ (inject_Z (df_len gap_frame) < min_required 60)%Q) \/
  (exists pct, HighMissing pct ∈ snd (fst (validate_price_data gap_frame 60))
               /\ (20 < pct)%Q) \/
  (exists n, StalePrices n ∈ snd (fst (validate_price_data gap_frame 60)) /\
             (inject_Z 60 * 0.3 < inject_Z n)%Q).
Proof.
  apply (invalid_verdict_has_fatal_issue gap_frame 60).
  vm_compute. reflexivity.
Defined.

(** ** Frontier Generator: targets and size *)

Lemma linspace_lookup a b n i :
  (i < n)%nat ->
  linspace a b n !! i
  = Some (a + inject_Z (Z.of_nat i)
              * ((b - a) / inject_Z (Z.of_nat (n - 1))))%Q.
Proof.
  intros Hi. unfold linspace. rewrite list_lookup_fmap.
  rewrite lookup_seq_lt by exact Hi. reflexivity.
Qed.

Lemma linspace_increasing a b n i j x y :
  (a < b)%Q -> (i < j)%nat ->
  linspace a b n !! i = Some x -> linspace a b n !! j = Some y -> (x < y)%Q.
Proof.
  intros Hab Hij Hx Hy.
  assert (Hj : (j < n)%nat).
  { apply lookup_lt_Some in Hy. rewrite linspace_length in Hy. exact Hy. }
  rewrite linspace_lookup in Hx by lia. rewrite linspace_lookup in Hy by lia.
  injection Hx as <-. injection Hy as <-.
  assert (Hn : (0 < inject_Z (Z.of_nat (n - 1)))%Q).
  { change 0%Q with (inject_Z 0). rewrite <- Zlt_Qlt. lia. }
  assert (Hstep : (0 < (b - a) / inject_Z (Z.of_nat (n - 1)))%Q).
  { apply Qlt_shift_div_l; [exact Hn|]. rewrite Qmult_0_l.
    apply (Qplus_lt_l _ _ a). ring_simplify. exact Hab. }
  assert (Hij' : (inject_Z (Z.of_nat i) < inject_Z (Z.of_nat j))%Q).
  { rewrite <- Zlt_Qlt. lia. }
  set (step := ((b - a) / inject_Z (Z.of_nat (n - 1)))%Q) in *.
  apply Qplus_lt_r. apply Qmult_lt_compat_r; assumption.
Qed.

Lemma Qmin_le_r x y : (Qmin x y <= y)%Q.
Proof.
  unfold Qmin. destruct (Qle_bool x y) eqn:E.
  - apply Qle_bool_iff, E.
  - apply Qle_refl.
Qed.

Lemma Qmax_ge_r x y : (y <= Qmax x y)%Q.
Proof.
  unfold Qmax. destruct (Qle_bool x y) eqn:E.
  - apply Qle_refl.
  - apply Qlt_le_weak, Qltb_lt. unfold Qltb. rewrite E. reflexivity.
Qed.

(** X15. Whatever the two anchor solves give - values of any size, or a
    failure - the 15 target volatilities are strictly increasing, the
    first is at most 0.1 and the last at least 0.6. *)
Theorem frontier_targets_increase_and_cover
    (lib : Library) (mu : list Q) (S : list (list Q)) :
  (forall i j x y, (i < j)%nat ->
     risk_range lib mu S !! i = Some x ->
     risk_range lib mu S !! j = Some y -> (x < y)%Q) /\
  (exists first last,
     risk_range lib mu S !! 0%nat = Some first /\
     risk_range lib mu S !! 14%nat = Some last /\
     (first <= 0.1)%Q /\ (0.6 <= last)%Q).
Proof.
  unfold risk_range.
  pose proof (Qmin_le_r (anchor_min_vol lib mu S * 0.9) 0.1) as Hlo.
  pose proof (Qmax_ge_r (anchor_max_sharpe_vol lib mu S * 1.5) 0.6) as Hhi.
  fold (min_risk (anchor_min_vol lib mu S)) in Hlo.
  fold (max_risk (anchor_max_sharpe_vol lib mu S)) in Hhi.
  set (a := min_risk (anchor_min_vol lib mu S)) in *.
  set (b := max_risk (anchor_max_sharpe_vol lib mu S)) in *.
  split.
  - intros i j x y. apply linspace_increasing. lra.
  - eexists _, _.
    split; [apply linspace_lookup; lia|].
    split; [apply linspace_lookup; lia|].
    cbn [Nat.sub Z.of_nat Pos.of_succ_nat Pos.succ]. split.
    + change (inject_Z 0) with 0%Q. rewrite Qmult_0_l, Qplus_0_r.
      exact Hlo.
    + assert (E : (a + inject_Z 14 * ((b - a) / inject_Z 14) == b)%Q)
        by (change (inject_Z 14) with 14%Q; field).
      rewrite E. exact Hhi.
Qed.

Lemma solved_points_length lib mu S targets :
  (length (solved_points lib mu S targets) <= length targets)%nat.
Proof.
  unfold solved_points. induction targets as [|t r IH]; [cbn; lia|].
  cbn [omap list_omap].
  destruct (frontier_efficient_risk lib mu S t) as [[ret vol]|];
    cbn [length]; lia.
Qed.

Lemma solved_points_origin lib mu S targets pt :
  pt ∈ solved_points lib mu S targets ->
  exists target,
    target ∈ targets /\
    frontier_efficient_risk lib mu S target
    = Some (return_ pt, volatility pt).
Proof.
  unfold solved_points. intros H. apply list_elem_of_omap in H.
  destruct H as (target & Hin & Hs).
  exists target. split; [exact Hin|].
  destruct (frontier_efficient_risk lib mu S target) as [[ret vol]|];
    [|discriminate Hs].
  injection Hs as <-. reflexivity.
Qed.

(** X16. The frontier generator returns at most 15 points, and every
    point is either what the solver answered for one of the 15 target
    volatilities or one of the five deterministic fallback points: it
    never invents any other point. *)
Theorem frontier_points_bounded_and_accounted_for
    (lib : Library) (mu : list Q) (S : list (list Q)) :
  (length (generate_efficient_frontier_data lib mu S) <= 15)%nat /\
  forall pt, pt ∈ generate_efficient_frontier_data lib mu S ->
    (exists target,
        target ∈ risk_range lib mu S /\
        frontier_efficient_risk lib mu S target
        = Some (return_ pt, volatility pt)) \/
    pt ∈ fallback_points.
Proof.
  unfold generate_efficient_frontier_data.
  pose proof (solved_points_length lib mu S (risk_range lib mu S)) as Hlen.
  assert (H15 : length (risk_range lib mu S) = 15%nat)
    by apply risk_range_spec.
  rewrite H15 in Hlen.
  destruct (frontier_constructs lib mu S).
  - destruct (Nat.ltb_spec
                (length (solved_points lib mu S (risk_range lib mu S))) 3)
      as [Hlt|Hge].
    + split; [rewrite length_app, fallback_points_length; lia|].
      intros pt Hpt. apply elem_of_app in Hpt. destruct Hpt as [Hpt|Hpt].
      * left. apply solved_points_origin. exact Hpt.
      * right. exact Hpt.
    + split; [exact Hlen|].
      intros pt Hpt. left. apply solved_points_origin. exact Hpt.
  - split; [rewrite fallback_points_length; lia|].
    intros pt Hpt. right. exact Hpt.
Qed.

(** ** Optimizer: outcomes *)

(** [optimize_portfolio] in terms of its three stages: the history, the
    validator and the [try] block. The validator's verdict is not among
    what the outcome depends on. *)
Lemma optimize_portfolio_stages lib env holdings risk_method preferences
    prices lookback_days risk_free_rate w :
  let r := get_historical_prices env (map fst holdings) lookback_days true w in
  let hist := fst (fst r) in
  let v := validate_price_data hist lookback_days in
  optimize_portfolio lib env holdings risk_method preferences prices
    lookback_days risk_free_rate w
  = if Nat.ltb (length holdings) 2
    then (Returned (null_result TooFewAssets), w)
    else if invalid_weight_preference preferences then (Raised, w)
    else if df_is_empty hist || Nat.ltb (length (columns hist)) 2
    then (Returned (null_result (NotEnoughHistory (snd (fst r)))), snd r)
    else
      (match historical_returns lib (snd v) with
       | None => Raised
       | Some hr =>
           match optimize_core lib holdings risk_method
                   (effective_max_weight preferences)
                   (effective_min_weight preferences)
                   (pref_dict preferences !! "target_volatility") prices
                   lookback_days risk_free_rate (snd v) (snd (fst v)) hr
                   (snd (fst r)) with
           | Some result => Returned result
           | None => Returned (null_result OptimizationFailed)
           end
       end, snd r).
Proof.
  cbv zeta. unfold optimize_portfolio. rewrite length_map.
  destruct (Nat.ltb (length holdings) 2); [reflexivity|].
  destruct (invalid_weight_preference preferences); [reflexivity|].
  unfold Data.bind.
  destruct (get_historical_prices env (map fst holdings) lookback_days true w)
    as [[hist missing] w1].
  cbn [fst snd].
  destruct (df_is_empty hist || Nat.ltb (length (columns hist)) 2);
    [reflexivity|].
  destruct (validate_price_data hist lookback_days) as [[valid issues] cleaned].
  cbn [fst snd].
  destruct (historical_returns lib cleaned) as [hr|]; [|reflexivity].
  destruct (optimize_core _ _ _ _ _ _ _ _ _ _ _ _ _); reflexivity.
Qed.

Lemma clip_bounds lo hi x : (lo <= hi)%Q -> (lo <= clip lo hi x <= hi)%Q.
Proof.
  intros Hlh. unfold clip. split; [|apply Qmin_le_r].
  unfold Qmin. destruct (Qle_bool (Qmax x lo) hi); [apply Qmax_ge_r | exact Hlh].
Qed.

Lemma combine_returns_bounds ema : forall mean capm log,
  Forall (fun x => (-0.5 <= x <= 0.75)%Q) (combine_returns ema mean capm log).
Proof.
  induction ema as [|a ema IH]; intros mean capm log; [constructor|].
  destruct mean as [|b mean]; [constructor|].
  destruct capm as [|c capm]; [constructor|].
  destruct log as [|d log]; [constructor|].
  cbn [combine_returns]. constructor; [|apply IH].
  apply clip_bounds. vm_compute. discriminate.
Qed.

(** What a successful run of the [try] block solved and returned. *)
Lemma optimize_core_success lib holdings risk_method max_weight min_weight
    target_volatility prices lookback_days risk_free_rate df issues hr
    missing result :
  optimize_core lib holdings risk_method max_weight min_weight
    target_volatility prices lookback_days risk_free_rate df issues hr missing
  = Some result ->
  exists p w er vol sh,
    solve lib p = Some w /\
    portfolio_performance lib p w risk_free_rate = Some (er, vol, sh) /\
    upper p = max_weight /\
    lower p = (if Nat.ltb 3 (length (p_mu p)) then Some 0.05%Q else None) /\
    l2_gamma p = 0.3%Q /\
    Forall (fun x => (-0.5 <= x <= 0.75)%Q) (p_mu p) /\
    dict_get "optimized_weights" result
    = Some (VWeights (round_weights (zip (column_names df) w))) /\
    dict_get "expected_return" result = Some (VNum er) /\
    dict_get "volatility" result = Some (VNum vol) /\
    dict_get "sharpe_ratio" result = Some (VNum sh) /\
    dict_get "efficient_frontier" result
    = Some (VPoints (generate_efficient_frontier_data lib (p_mu p) (p_cov p)))
    /\
    dict_get "lookback_days" result = Some (VInt lookback_days) /\
    dict_get "note" result = option_map VNote (make_note er sh issues) /\
    dict_get "missing_symbols" result
    = match missing with [] => None | _ => Some (VSymbols missing) end.
Proof.
  unfold optimize_core. intros H.
  destruct (annualized_log_return lib df) as [ann|]; [|discriminate H].
  cbn [mbind option_bind] in H.
  destruct (ema_historical_return lib df (lookback_days / 3)) as [ema|];
    [|discriminate H].
  cbn [mbind option_bind] in H.
  destruct (mean_historical_return lib df) as [mean|]; [|discriminate H].
  cbn [mbind option_bind] in H.
  destruct (capm_return lib df) as [capm|]; [|discriminate H].
  cbn [mbind option_bind] in H.
  destruct (ledoit_wolf lib df) as [S|]; [|discriminate H].
  cbn [mbind option_bind] in H. cbv zeta in H.
  pose proof (combine_returns_bounds ema mean capm ann) as Hmu.
  set (mu := combine_returns ema mean capm ann) in *.
  match type of H with
  | context [solve lib ?p] => set (problem := p) in *
  end.
  destruct (solve lib problem) as [w|] eqn:Hsolve; [|discriminate H].
  cbn [mbind option_bind] in H.
  destruct (portfolio_performance lib problem w risk_free_rate)
    as [[[er vol] sh]|] eqn:Hperf; [|discriminate H].
  cbn [mbind option_bind] in H.
  destruct (rolling_metrics lib df risk_free_rate) as [rolling|];
    [|discriminate H].
  cbn [mbind option_bind] in H.
  exists problem, w, er, vol, sh.
  split; [exact Hsolve|]. split; [exact Hperf|]. split; [reflexivity|].
  split; [unfold problem; cbn [lower p_mu]; destruct (Nat.ltb 3 (length mu));
          reflexivity|].
  split; [reflexivity|]. split; [exact Hmu|].
  injection H as <-.
  destruct (make_note er sh issues) as [n|]; destruct missing as [|m ms];
    repeat split; reflexivity.
Qed.

Lemma round_weights_keys names w s :
  s ∈ map fst (round_weights (zip names w)) -> s ∈ names.
Proof.
  unfold round_weights. rewrite map_map. cbn [fst].
  intros H. apply list_elem_of_In, in_map_iff in H.
  destruct H as ([k v] & <- & Hin). apply filter_In in Hin.
  destruct Hin as [Hin _]. cbn [fst].
  apply list_elem_of_In. eapply in_combine_l. exact Hin.
Qed.

Lemma history_columns_bounded env symbols days ums w :
  (length (columns (fst (fst (get_historical_prices env symbols days ums w))))
   <= length (List.filter known_symbol symbols))%nat.
Proof.
  pose proof (get_historical_prices_columns env days ums symbols w) as Hc.
  unfold column_names in Hc. apply (f_equal (@length _)) in Hc.
  rewrite !length_map in Hc. rewrite Hc.
  pose proof (fetch_all_partition env days ums
                (List.filter known_symbol symbols) [] [] w) as Hp.
  cbv zeta in Hp. apply Permutation_length in Hp.
  rewrite length_app, length_map in Hp. cbn [map app length] in Hp. lia.
Qed.

(** X17. With two or more holdings of which fewer than two are symbols of
    the provider table, [optimize_portfolio] never calls the estimators or
    the solver, whatever the providers answer: when the [max_weight] and
    [min_weight] preferences are numbers (or absent) it returns the null
    result with the not-enough-history note; when one of them is not a
    number it raises while computing the weight bounds, before any
    history is fetched. *)
Theorem too_few_recognized_symbols_give_null_result
    (lib : Library) (env : Env) (holdings : list (string * Q))
    (risk_method : string) (preferences : Preferences)
    (prices : option (gmap string (option Q)))
    (lookback_days : Z) (risk_free_rate : Q) (w : World) :
  (2 <= length holdings)%nat ->
  (length (List.filter known_symbol (map fst holdings)) < 2)%nat ->
  optimize_portfolio lib env holdings risk_method preferences prices
    lookback_days risk_free_rate w
  = if invalid_weight_preference preferences
    then (Raised, w)
    else
      (Returned
         (null_result
            (NotEnoughHistory
               (snd (fst (get_historical_prices env (map fst holdings)
                            lookback_days true w))))),
       snd (get_historical_prices env (map fst holdings) lookback_days true
              w)).
Proof.
  intros Hlen Hfew. rewrite optimize_portfolio_stages. cbv zeta.
  destruct (Nat.ltb_spec (length holdings) 2) as [Hlt|_]; [lia|].
  destruct (invalid_weight_preference preferences); [reflexivity|].
  pose proof (history_columns_bounded env (map fst holdings) lookback_days
                true w) as Hb.
  destruct (Nat.ltb_spec
              (length (columns (fst (fst (get_historical_prices env
                 (map fst holdings) lookback_days true w))))) 2)
    as [_|Hge]; [|lia].
  rewrite orb_true_r. reflexivity.
Qed.

Lemma too_few_recognized_symbols_witness :
  optimize_portfolio (sample_library equal_weight_solver every_target)
    steady_env [("BTC", 1%Q); ("FOO", 2%Q); ("BAR", 3%Q)] "max_sharpe"
    PrefInvalid None 60 0 empty_world
  = if invalid_weight_preference PrefInvalid
    then (Raised, empty_world)
    else
      (Returned
         (null_result
            (NotEnoughHistory
               (snd (fst (get_historical_prices steady_env
                            (map fst [("BTC", 1%Q); ("FOO", 2%Q);
                                      ("BAR", 3%Q)])
                            60 true empty_world))))),
       snd (get_historical_prices steady_env
              (map fst [("BTC", 1%Q); ("FOO", 2%Q); ("BAR", 3%Q)]) 60 true
              empty_world)).
Proof.
  apply (too_few_recognized_symbols_give_null_result
           (sample_library equal_weight_solver every_target) steady_env
           [("BTC", 1%Q); ("FOO", 2%Q); ("BAR", 3%Q)] "max_sharpe" PrefInvalid
           None 60 0 empty_world).
  - cbn. lia.
  - vm_compute. lia.
Defined.

(** X18. A result is null or complete, never in between: either the
    weights and the three metrics are all null and the note names one of
    the three failures, or the weights and the three metrics are all set,
    the frontier has at least 3 points and the lookback is echoed. *)
Theorem result_is_null_or_complete
    (lib : Library) (env : Env) (holdings : list (string * Q))
    (risk_method : string) (preferences : Preferences)
    (prices : option (gmap string (option Q)))
    (lookback_days : Z) (risk_free_rate : Q) (w : World)
    (result : ResultDict) :
  fst (optimize_portfolio lib env holdings risk_method preferences prices
         lookback_days risk_free_rate w) = Returned result ->
  (exists note,
      result = null_result note /\
      (note = TooFewAssets \/ (exists ms, note = NotEnoughHistory ms)
       \/ note = OptimizationFailed)) \/
  (exists ws er vol sh pts,
      dict_get "optimized_weights" result = Some (VWeights ws) /\
      dict_get "expected_return" result = Some (VNum er) /\
      dict_get "volatility" result = Some (VNum vol) /\
      dict_get "sharpe_ratio" result = Some (VNum sh) /\
      dict_get "efficient_frontier" result = Some (VPoints pts) /\
      (3 <= length pts)%nat /\
      dict_get "lookback_days" result = Some (VInt lookback_days)).
Proof.
  rewrite optimize_portfolio_stages. cbv zeta.
  destruct (Nat.ltb (length holdings) 2).
  { intros H. injection H as <-. left. eauto. }
  destruct (invalid_weight_preference preferences);
    [intros H; discriminate H|].
  destruct (df_is_empty _ || Nat.ltb _ 2).
  { intros H. injection H as <-. left. eauto 6. }
  cbn [fst].
  destruct (historical_returns lib _) as [hr|]; [|discriminate].
  destruct (optimize_core _ _ _ _ _ _ _ _ _ _ _ _ _) as [res|] eqn:Hcore.
  - intros H. injection H as <-. right.
    apply optimize_core_success in Hcore.
    destruct Hcore as (p & ws & er & vol & sh & _ & _ & _ & _ & _ & _ & Hw & He
                       & Hv & Hs & Hf & Hl & _).
    exists (round_weights (zip (column_names
              (snd (validate_price_data
                      (fst (fst (get_historical_prices env (map fst holdings)
                                   lookback_days true w))) lookback_days)))
              ws)), er, vol, sh,
           (generate_efficient_frontier_data lib (p_mu p) (p_cov p)).
    repeat (split; [assumption|]). split; [|exact Hl].
    unfold generate_efficient_frontier_data.
    destruct (frontier_constructs lib (p_mu p) (p_cov p));
      [|rewrite fallback_points_length; lia].
    destruct (Nat.ltb_spec
                (length (solved_points lib (p_mu p) (p_cov p)
                           (risk_range lib (p_mu p) (p_cov p)))) 3).
    + rewrite length_app, fallback_points_length. lia.
    + assumption.
  - intros H. injection H as <-. left. eauto 6.
Qed.

Lemma result_is_null_or_complete_witness :
  (exists note,
      month_result = null_result note /\
      (note = TooFewAssets \/ (exists ms, note = NotEnoughHistory ms)
       \/ note = OptimizationFailed)) \/
  (exists ws er vol sh pts,
      dict_get "optimized_weights" month_result = Some (VWeights ws) /\
      dict_get "expected_return" month_result = Some (VNum er) /\
      dict_get "volatility" month_result = Some (VNum vol) /\
      dict_get "sharpe_ratio" month_result = Some (VNum sh) /\
      dict_get "efficient_frontier" month_result = Some (VPoints pts) /\
      (3 <= length pts)%nat /\
      dict_get "lookback_days" month_result = Some (VInt 60)).
Proof.
  apply (result_is_null_or_complete
           (sample_library equal_weight_solver every_target) month_env
           [("BTC", 1%Q); ("ETH", 2%Q)] "max_sharpe" PrefNone
           (Some live_prices) 60 0 empty_world month_result).
  vm_compute. reflexivity.
Defined.

(** X19. The returned weights only name assets the user holds and the
    provider table knows: every symbol of [optimized_weights] is a symbol
    of the holdings, is in the symbol table, and is a column of the
    history matrix. *)
Theorem weights_only_for_recognized_holdings
    (lib : Library) (env : Env) (holdings : list (string * Q))
    (risk_method : string) (preferences : Preferences)
    (prices : option (gmap string (option Q)))
    (lookback_days : Z) (risk_free_rate : Q) (w : World)
    (result : ResultDict) (ws : list (string * Q)) :
  fst (optimize_portfolio lib env holdings risk_method preferences prices
         lookback_days risk_free_rate w) = Returned result ->
  dict_get "optimized_weights" result = Some (VWeights ws) ->
  forall s, s ∈ map fst ws ->
    s ∈ map fst holdings /\ known_symbol s = true /\
    s ∈ column_names
          (fst (fst (get_historical_prices env (map fst holdings)
                       lookback_days true w))).
Proof.
  rewrite optimize_portfolio_stages. cbv zeta.
  destruct (Nat.ltb (length holdings) 2).
  { intros H. injection H as <-. discriminate. }
  destruct (invalid_weight_preference preferences);
    [intros H; discriminate H|].
  destruct (df_is_empty _ || Nat.ltb _ 2).
  { intros H. injection H as <-. discriminate. }
  cbn [fst].
  destruct (historical_returns lib _) as [hr|]; [|discriminate].
  destruct (optimize_core _ _ _ _ _ _ _ _ _ _ _ _ _) as [res|] eqn:Hcore.
  - intros H. injection H as <-.
    apply optimize_core_success in Hcore.
    destruct Hcore as (p & w0 & er & vol & sh & _ & _ & _ & _ & _ & _ & Hw & _).
    intros Hws. rewrite Hw in Hws. injection Hws as <-.
    intros s Hs. apply round_weights_keys in Hs.
    assert (Hc : s ∈ column_names
                       (fst (fst (get_historical_prices env (map fst holdings)
                                    lookback_days true w)))).
    { rewrite validate_cleaned_names in Hs. exact Hs. }
    destruct (get_historical_prices_sound env (map fst holdings) lookback_days
                true w s (or_introl Hc)) as [Hin Hk].
    auto.
  - intros H. injection H as <-. discriminate.
Qed.

Lemma weights_only_for_recognized_holdings_witness :
  "BTC" ∈ map fst [("BTC", 0.5000%Q); ("ETH", 0.5000%Q)] /\
  ("BTC" ∈ map fst [("BTC", 1%Q); ("ETH", 2%Q)] /\
   known_symbol "BTC" = true /\
   "BTC" ∈ column_names
             (fst (fst (get_historical_prices month_env
                          (map fst [("BTC", 1%Q); ("ETH", 2%Q)]) 60 true
                          empty_world)))).
Proof.
  assert (Hin : "BTC" ∈ map fst [("BTC", 0.5000%Q); ("ETH", 0.5000%Q)])
    by apply list_elem_of_here.
  split; [exact Hin|].
  apply (weights_only_for_recognized_holdings
           (sample_library equal_weight_solver every_target) month_env
           [("BTC", 1%Q); ("ETH", 2%Q)] "max_sharpe" PrefNone
           (Some live_prices) 60 0 empty_world month_result
           [("BTC", 0.5000%Q); ("ETH", 0.5000%Q)]);
    [vm_compute; reflexivity | vm_compute; reflexivity | exact Hin].
Defined.

Lemma invalid_verdict_issues_nonempty (df : DataFrame) (lookback_days : Z) :
  fst (fst (validate_price_data df lookback_days)) = false ->
  snd (fst (validate_price_data df lookback_days)) <> [].
Proof.
  intros Hv E.
  destruct (validate_invalid_cause df lookback_days Hv)
    as [[H _]|[(pct & H & _)|(n & H & _)]]; rewrite E in H.
  - discriminate H.
  - inversion H.
  - inversion H.
Qed.

Lemma make_note_with_issues er sh issues :
  issues <> [] ->
  exists warning,
    make_note er sh issues = Some (Diagnostics warning (firstn 2 issues)).
Proof.
  intros Hne. unfold make_note.
  destruct issues as [|i rest]; [congruence|].
  destruct (Qgtb er 1); [eauto|]. destruct (Qgtb sh 3); eauto.
Qed.

(** X20. An invalid verdict does not stop the optimization: when the
    validator declares the history invalid, [optimize_portfolio] goes on
    all the same, and every result it returns other than the
    optimization-failed one carries weights; the verdict only shows as a
    note that lists the first two issues. *)
Theorem invalid_verdict_does_not_stop_optimization
    (lib : Library) (env : Env) (holdings : list (string * Q))
    (risk_method : string) (preferences : Preferences)
    (prices : option (gmap string (option Q)))
    (lookback_days : Z) (risk_free_rate : Q) (w : World)
    (result : ResultDict) :
  let hist := fst (fst (get_historical_prices env (map fst holdings)
                          lookback_days true w)) in
  let v := validate_price_data hist lookback_days in
  fst (fst v) = false ->
  df_is_empty hist = false ->
  (2 <= length (columns hist))%nat ->
  fst (optimize_portfolio lib env holdings risk_method preferences prices
         lookback_days risk_free_rate w) = Returned result ->
  result <> null_result OptimizationFailed ->
  exists ws warning,
    dict_get "optimized_weights" result = Some (VWeights ws) /\
    dict_get "note" result
    = Some (VNote (Diagnostics warning (firstn 2 (snd (fst v))))).
Proof.
  cbv zeta. intros Hv Hne Hcols.
  rewrite optimize_portfolio_stages. cbv zeta.
  destruct (Nat.ltb_spec (length holdings) 2) as [Hlt|_].
  { exfalso.
    pose proof (history_columns_bounded env (map fst holdings) lookback_days
                  true w) as Hb.
    pose proof (List.filter_length_le known_symbol (map fst holdings)) as Hf.
    rewrite length_map in Hf. lia. }
  destruct (invalid_weight_preference preferences);
    [intros H; discriminate H|].
  rewrite Hne.
  destruct (Nat.ltb_spec
              (length (columns (fst (fst (get_historical_prices env
                 (map fst holdings) lookback_days true w))))) 2)
    as [Hlt|_]; [lia|].
  cbn [orb fst].
  destruct (historical_returns lib _) as [hr|]; [|discriminate].
  destruct (optimize_core _ _ _ _ _ _ _ _ _ _ _ _ _) as [res|] eqn:Hcore.
  - intros H _. injection H as <-.
    apply optimize_core_success in Hcore.
    destruct Hcore as (p & w0 & er & vol & sh & _ & _ & _ & _ & _ & _ & Hw & _
                       & _ & _ & _ & _ & Hnote & _).
    destruct (make_note_with_issues er sh _
                (invalid_verdict_issues_nonempty _ _ Hv)) as [warning Hm].
    rewrite Hm in Hnote. eauto.
  - intros H Hn. injection H as <-. congruence.
Qed.

Lemma invalid_verdict_does_not_stop_witness :
  exists ws warning,
    dict_get "optimized_weights" two_day_result = Some (VWeights ws) /\
    dict_get "note" two_day_result
    = Some (VNote (Diagnostics warning
         (firstn 2 (snd (fst (validate_price_data
            (fst (fst (get_historical_prices steady_env
                         (map fst [("BTC", 1%Q); ("ETH", 2%Q)]) 60 true
                         empty_world))) 60)))))).
Proof.
  apply (invalid_verdict_does_not_stop_optimization
           (sample_library equal_weight_solver every_target) steady_env
           [("BTC", 1%Q); ("ETH", 2%Q)] "max_sharpe" PrefNone
           (Some live_prices) 60 0 empty_world two_day_result).
  - vm_compute. reflexivity.
  - vm_compute. reflexivity.
  - vm_compute. lia.
  - vm_compute. reflexivity.
  - vm_compute. discriminate.
Defined.

Lemma effective_max_weight_capped preferences :
  (effective_max_weight preferences <= 0.8)%Q.
Proof. apply Qmin_le_r. Qed.

(** X21. What the solver is asked: in every run that returns weights, the
    weights are the solution of a problem whose expected returns all lie
    in [-0.5, 0.75], whose per-asset cap is the [max_weight] preference
    cut at 0.8, whose diversification coefficient is 0.3, and whose floor
    is 0.05 with more than three assets and absent otherwise - the
    [min_weight] preference never constrains the solver. *)
Theorem solver_problem_respects_caps
    (lib : Library) (env : Env) (holdings : list (string * Q))
    (risk_method : string) (preferences : Preferences)
    (prices : option (gmap string (option Q)))
    (lookback_days : Z) (risk_free_rate : Q) (w : World)
    (result : ResultDict) (ws : list (string * Q)) :
  fst (optimize_portfolio lib env holdings risk_method preferences prices
         lookback_days risk_free_rate w) = Returned result ->
  dict_get "optimized_weights" result = Some (VWeights ws) ->
  exists p sol,
    solve lib p = Some sol /\
    ws = round_weights
           (zip (column_names
                   (fst (fst (get_historical_prices env (map fst holdings)
                                lookback_days true w)))) sol) /\
    Forall (fun x => (-0.5 <= x <= 0.75)%Q) (p_mu p) /\
    upper p = effective_max_weight preferences /\
    (upper p <= 0.8)%Q /\
    l2_gamma p = 0.3%Q /\
    lower p = (if Nat.ltb 3 (length (p_mu p)) then Some 0.05%Q else None).
Proof.
  rewrite optimize_portfolio_stages. cbv zeta.
  destruct (Nat.ltb (length holdings) 2).
  { intros H. injection H as <-. discriminate. }
  destruct (invalid_weight_preference preferences);
    [intros H; discriminate H|].
  destruct (df_is_empty _ || Nat.ltb _ 2).
  { intros H. injection H as <-. discriminate. }
  cbn [fst].
  destruct (historical_returns lib _) as [hr|]; [|discriminate].
  destruct (optimize_core _ _ _ _ _ _ _ _ _ _ _ _ _) as [res|] eqn:Hcore.
  - intros H. injection H as <-.
    apply optimize_core_success in Hcore.
    destruct Hcore as (p & sol & er & vol & sh & Hs & _ & Hu & Hl & Hg & Hmu
                       & Hw & _).
    intros Hws. rewrite Hw in Hws. injection Hws as <-.
    exists p, sol. rewrite validate_cleaned_names.
    split; [exact Hs|]. split; [reflexivity|]. split; [exact Hmu|].
    split; [exact Hu|].
    split; [rewrite Hu; apply effective_max_weight_capped|].
    split; [exact Hg | exact Hl].
  - intros H. injection H as <-. discriminate.
Qed.

Lemma solver_problem_respects_caps_witness :
  exists p sol,
    solve (sample_library equal_weight_solver every_target) p = Some sol /\
    [("BTC", 0.5000%Q); ("ETH", 0.5000%Q)]
    = round_weights
        (zip (column_names
                (fst (fst (get_historical_prices month_env
                             (map fst [("BTC", 1%Q); ("ETH", 2%Q)]) 60 true
                             empty_world)))) sol) /\
    Forall (fun x => (-0.5 <= x <= 0.75)%Q) (p_mu p) /\
    upper p = effective_max_weight PrefNone /\
    (upper p <= 0.8)%Q /\
    l2_gamma p = 0.3%Q /\
    lower p = (if Nat.ltb 3 (length (p_mu p)) then Some 0.05%Q else None).
Proof.
  apply (solver_problem_respects_caps
           (sample_library equal_weight_solver every_target) month_env
           [("BTC", 1%Q); ("ETH", 2%Q)] "max_sharpe" PrefNone
           (Some live_prices) 60 0 empty_world month_result
           [("BTC", 0.5000%Q); ("ETH", 0.5000%Q)]);
    vm_compute; reflexivity.
Defined.

(** ** Live prices *)

Lemma only_reads_refl w : only_reads w w.
Proof.
  split; [reflexivity|]. exists []. rewrite app_nil_r.
  split; [reflexivity | constructor].
Qed.

Lemma only_reads_trans w1 w2 w3 :
  only_reads w1 w2 -> only_reads w2 w3 -> only_reads w1 w3.
Proof.
  intros [Hf1 (e1 & Ht1 & Ha1)] [Hf2 (e2 & Ht2 & Ha2)].
  split; [congruence|]. exists (e1 ++ e2).
  rewrite Ht2, Ht1, app_assoc. split; [reflexivity|].
  apply Forall_app. auto.
Qed.

Lemma load_from_cache_only_reads env cid days max_age w :
  only_reads w (snd (load_from_cache env cid days max_age w)).
Proof.
  destruct (load_from_cache_world env days cid max_age w) as [k ->].
  split; [reflexivity|]. eexists. split; [reflexivity|].
  constructor; [eauto | constructor].
Qed.

Section LiveProperties.
Variable env : Live.LiveEnv.

Lemma fallback_from_only_reads days symbols : forall prices w,
  only_reads w (snd (Live.fallback_from env days symbols prices w)).
Proof.
  induction symbols as [|s rest IH]; intros prices w.
  - apply only_reads_refl.
  - cbn [Live.fallback_from]. destruct (known_symbol s); [|apply IH].
    generalize (symbol_to_id !!! s). intros cid. unfold bind.
    pose proof (load_from_cache_only_reads (Live.base env) cid days 24 w) as H.
    destruct (load_from_cache (Live.base env) cid days 24 w) as [c w1].
    cbn [snd] in H. eapply only_reads_trans; [exact H | apply IH].
Qed.

Lemma is_outlier_only_reads prices s w :
  only_reads w (snd (Live.is_outlier env prices s w)).
Proof.
  unfold Live.is_outlier. destruct (prices !! s) as [current|];
    [|apply only_reads_refl].
  generalize (default "" (symbol_to_id !! s)). intros cid. unfold bind.
  pose proof (load_from_cache_only_reads (Live.base env) cid 7 24 w) as H.
  destruct (load_from_cache (Live.base env) cid 7 24 w) as [[d|] w1];
    cbn [snd] in H; [|exact H].
  destruct (Live.latest_price d); exact H.
Qed.

Lemma find_outliers_only_reads prices symbols : forall w,
  only_reads w (snd (Live.find_outliers env prices symbols w)).
Proof.
  induction symbols as [|s rest IH]; intros w; [apply only_reads_refl|].
  cbn [Live.find_outliers]. unfold bind.
  pose proof (is_outlier_only_reads prices s w) as H1.
  destruct (Live.is_outlier env prices s w) as [flagged w1].
  pose proof (IH w1) as H2.
  destruct (Live.find_outliers env prices rest w1) as [outliers w2].
  cbn [snd] in *. eapply only_reads_trans; eassumption.
Qed.

Lemma validate_live_only_reads prices symbols w :
  only_reads w (snd (Live.validate_price_data env prices symbols w)).
Proof.
  unfold Live.validate_price_data.
  destruct (Live.dict_is_empty prices); [apply only_reads_refl|].
  destruct (List.filter _ symbols); [|apply only_reads_refl].
  destruct (List.filter _ symbols); [|apply only_reads_refl].
  unfold bind.
  pose proof (find_outliers_only_reads prices symbols w) as H.
  destruct (Live.find_outliers env prices symbols w) as [outliers w1].
  exact H.
Qed.

(** The dictionary the [coingecko] loop builds, key by key. *)
Lemma collect_prices_lookup data symbols s :
  Live.collect_prices data symbols !! s
  = if bool_decide (s ∈ symbols) && known_symbol s
    then Live.extract_price data (symbol_to_id !!! s) else None.
Proof.
  unfold Live.collect_prices.
  assert (Hgen : forall acc : gmap string Q,
    fold_left
      (fun prices symbol =>
         if known_symbol symbol then
           match Live.extract_price data (symbol_to_id !!! symbol) with
           | Some price => <[symbol := price]> prices
           | None => prices
           end
         else prices) symbols acc !! s
    = if bool_decide (s ∈ symbols) && known_symbol s
      then match Live.extract_price data (symbol_to_id !!! s) with
           | Some p => Some p
           | None => acc !! s
           end
      else acc !! s).
  { induction symbols as [|x rest IH]; intros acc; [reflexivity|].
    cbn [fold_left]. rewrite IH.
    destruct (decide (s = x)) as [->|Hne].
    - rewrite (bool_decide_eq_true_2 (x ∈ x :: rest)) by left.
      cbn [andb].
      destruct (known_symbol x) eqn:Hk.
      + generalize (symbol_to_id !!! x). intros cid.
        destruct (Live.extract_price data cid) as [p|];
          destruct (bool_decide (x ∈ rest)); cbn [andb];
          rewrite ?lookup_insert_eq; reflexivity.
      + rewrite andb_false_r. reflexivity.
    - assert (Hb : bool_decide (s ∈ x :: rest) = bool_decide (s ∈ rest)).
      { apply bool_decide_ext. rewrite elem_of_cons. tauto. }
      rewrite Hb.
      assert (Hacc : (if known_symbol x then
                        match Live.extract_price data (symbol_to_id !!! x) with
                        | Some price => <[x := price]> acc
                        | None => acc
                        end else acc) !! s = acc !! s).
      { destruct (known_symbol x); [|reflexivity].
        generalize (symbol_to_id !!! x). intros cid.
        destruct (Live.extract_price data cid) as [p|]; [|reflexivity].
        apply lookup_insert_ne. congruence. }
      rewrite Hacc. reflexivity. }
  rewrite Hgen. rewrite lookup_empty.
  destruct (bool_decide (s ∈ symbols) && known_symbol s); [|reflexivity].
  destruct (Live.extract_price _ _); reflexivity.
Qed.

Lemma request_each_spec symbols : forall prices lw,
  let r := Live.request_each env symbols prices lw in
  (forall s, is_Some (fst r !! s) ->
     is_Some (prices !! s) \/ (s ∈ symbols /\ known_symbol s = true)) /\
  files (Live.world (snd r)) = files (Live.world lw) /\
  trace (Live.world (snd r)) = trace (Live.world lw) /\
  Live.requests (snd r)
  = Live.requests lw ++ map Live.RateRequest (coin_ids symbols).
Proof.
  unfold coin_ids.
  induction symbols as [|x rest IH]; intros prices lw; cbv zeta.
  - cbn. rewrite app_nil_r. auto.
  - cbn [Live.request_each List.filter].
    destruct (known_symbol x) eqn:Hk.
    + cbn [map]. generalize (symbol_to_id !!! x). intros cid.
      unfold Live.lbind, Live.request_exchange_rate. cbv beta iota zeta.
      match goal with
      | |- context [Live.request_each env rest ?p ?l] =>
          specialize (IH p l); cbv zeta in IH;
          destruct (Live.request_each env rest p l) as [res lw1]
      end.
      cbn [fst snd Live.world Live.requests files trace] in *.
      destruct IH as (Hkeys & Hf & Ht & Hr).
      split; [|split; [exact Hf|split; [exact Ht|]]].
      * intros s Hs. destruct (Hkeys s Hs) as [H|[H1 H2]].
        -- destruct (Live.exchange_rate env _ cid) as [[p|]|]; auto.
           destruct (decide (s = x)) as [->|Hne].
           ++ right. split; [left | exact Hk].
           ++ left. rewrite lookup_insert_ne in H by congruence. exact H.
        -- right. split; [right; exact H1 | exact H2].
      * rewrite Hr, <- app_assoc. reflexivity.
    + specialize (IH prices lw). cbv zeta in IH.
      destruct IH as (Hkeys & Hf & Ht & Hr).
      split; [|auto].
      intros s Hs. destruct (Hkeys s Hs) as [H|[H1 H2]]; [auto|].
      right. split; [right; exact H1 | exact H2].
Qed.

Lemma fallback_from_keys days symbols : forall prices w s,
  is_Some (fst (Live.fallback_from env days symbols prices w) !! s) ->
  is_Some (prices !! s) \/ (s ∈ symbols /\ known_symbol s = true).
Proof.
  induction symbols as [|x rest IH]; intros prices w s; [cbn; auto|].
  cbn [Live.fallback_from]. destruct (known_symbol x) eqn:Hk.
  - generalize (symbol_to_id !!! x). intros cid. unfold bind.
    destruct (load_from_cache (Live.base env) cid days 24 w) as [c w1].
    intros Hs. apply IH in Hs. destruct Hs as [H|[H1 H2]].
    + destruct c as [d|]; [|auto].
      destruct (Live.latest_price d) as [p|]; [|auto].
      destruct (decide (s = x)) as [->|Hne].
      * right. split; [left | exact Hk].
      * left. rewrite lookup_insert_ne in H by congruence. exact H.
    + right. split; [right; exact H1 | exact H2].
  - intros Hs. apply IH in Hs. destruct Hs as [H|[H1 H2]]; [auto|].
    right. split; [right; exact H1 | exact H2].
Qed.

(** The merge keeps every price the dictionary already has and only adds
    fallback prices for listed symbols. *)
Lemma merge_fallback_lookup valid_symbols fallback_prices : forall prices s,
  Live.merge_fallback valid_symbols prices fallback_prices !! s
  = match prices !! s with
    | Some p => Some p
    | None => if bool_decide (s ∈ valid_symbols)
              then fallback_prices !! s else None
    end.
Proof.
  unfold Live.merge_fallback.
  induction valid_symbols as [|x rest IH]; intros prices s.
  - cbn. destruct (prices !! s); reflexivity.
  - cbn [fold_left]. rewrite IH.
    destruct (decide (s = x)) as [->|Hne].
    + rewrite (bool_decide_eq_true_2 (x ∈ x :: rest)) by left.
      destruct (prices !! x) as [p|] eqn:Hp.
      * rewrite Hp. reflexivity.
      * destruct (fallback_prices !! x) as [q|] eqn:Hq.
        -- rewrite lookup_insert_eq. reflexivity.
        -- rewrite Hp. destruct (bool_decide (x ∈ rest)); reflexivity.
    + assert (Hb : bool_decide (s ∈ x :: rest) = bool_decide (s ∈ rest)).
      { apply bool_decide_ext. rewrite elem_of_cons. tauto. }
      rewrite Hb.
      assert (Hacc : match prices !! x, fallback_prices !! x with
                     | None, Some p => <[x := p]> prices
                     | _, _ => prices
                     end !! s = prices !! s).
      { destruct (prices !! x); [reflexivity|].
        destruct (fallback_prices !! x); [|reflexivity].
        apply lookup_insert_ne. congruence. }
      rewrite Hacc. reflexivity.
Qed.

(** What one request to a source does: the keys it can give and the
    requests it makes. *)
Lemma get_prices_from_source_spec source_key symbols lw :
  let r := Live._get_prices_from_source env source_key symbols lw in
  (forall s, is_Some (fst r !! s) -> s ∈ symbols /\ known_symbol s = true) /\
  files (Live.world (snd r)) = files (Live.world lw) /\
  trace (Live.world (snd r)) = trace (Live.world lw) /\
  Live.requests (snd r)
  = Live.requests lw
    ++ match source_key with
       | coingecko => [Live.BatchRequest (coin_ids symbols)]
       | coinapi => map Live.RateRequest (coin_ids symbols)
       end.
Proof.
  cbv zeta. destruct source_key; cbn [Live._get_prices_from_source].
  - unfold Live.lbind, Live.request_simple_price. cbv beta iota zeta.
    fold (coin_ids symbols).
    assert (Hkeys : forall d s,
              is_Some (Live.collect_prices d symbols !! s) ->
              s ∈ symbols /\ known_symbol s = true).
    { intros d s. rewrite collect_prices_lookup.
      destruct (bool_decide (s ∈ symbols)) eqn:Hb; cbn [andb];
        [|intros [? H]; discriminate H].
      apply bool_decide_eq_true_1 in Hb.
      destruct (known_symbol s); [auto | intros [? H]; discriminate H]. }
    destruct (Live.simple_price env _ _) as [d|];
      [destruct (Live.dict_is_empty d)|]; unfold Live.lret;
      cbn [fst snd Live.world Live.requests files trace];
      (split; [|auto]).
    + intros s [? H]. rewrite lookup_empty in H. discriminate H.
    + apply Hkeys.
    + intros s [? H]. rewrite lookup_empty in H. discriminate H.
  - pose proof (request_each_spec symbols ∅ lw) as H. cbv zeta in H.
    destruct H as (Hkeys & Hf & Ht & Hr).
    split; [|auto].
    intros s Hs. destruct (Hkeys s Hs) as [[? H]|H]; [|exact H].
    rewrite lookup_empty in H. discriminate H.
Qed.

End LiveProperties.

Section LiveRuns.
Import Live.
Variable env : Live.LiveEnv.

Lemma get_fallback_prices_keys symbols days w s :
  is_Some (fst (Live.get_fallback_prices env symbols days w) !! s) ->
  s ∈ symbols /\ known_symbol s = true.
Proof.
  unfold Live.get_fallback_prices. intros H.
  apply fallback_from_keys in H. destruct H as [[? H]|H]; [|exact H].
  rewrite lookup_empty in H. discriminate H.
Qed.

(** [get_live_prices] stage by stage, for a request with a recognized
    symbol: the primary answer [p1], the dictionary [p2] kept after the
    alternate source had its chance, and the result, which is [p2] with
    fallback prices merged in where the symbols have no price. *)
Lemma get_live_prices_stages symbols ums lw v vs :
  List.filter known_symbol symbols = v :: vs ->
  let valid := v :: vs in
  let r := Live.get_live_prices env symbols ums lw in
  let g := Live._get_prices_from_source env coingecko valid lw in
  let p1 := fst g in
  let is_valid :=
    fst (fst (fst (Live.validate_price_data env p1 valid
                     (Live.world (snd g))))) in
  let tried := (negb is_valid || Live.dict_is_empty p1) && ums
               && Live.coinapi_key env in
  exists p2 fb,
    (tried = false -> p2 = p1) /\
    (forall s, is_Some (p2 !! s) -> s ∈ valid) /\
    (forall s, is_Some (fb !! s) -> s ∈ valid) /\
    (fst r = p2 \/ fst r = Live.merge_fallback valid p2 fb) /\
    (Live.dict_is_empty p2 || Nat.ltb (size p2) (length valid) = false ->
     fst r = p2) /\
    only_reads (Live.world lw) (Live.world (snd r)) /\
    Live.requests (snd r)
    = Live.requests lw ++ Live.BatchRequest (coin_ids valid)
        :: (if tried then map Live.RateRequest (coin_ids valid) else []).
Proof.
  intros Hf. cbv zeta. unfold Live.get_live_prices. rewrite Hf.
  set (valid := v :: vs).
  assert (Hknown : forall s, s ∈ valid -> known_symbol s = true).
  { intros s Hs. unfold valid in Hs. rewrite <- Hf in Hs.
    apply filter_known_sound in Hs. apply Hs. }
  unfold Live.lbind, Live.lift, Live.lret.
  pose proof (get_prices_from_source_spec env coingecko valid lw) as Hg.
  cbv zeta in Hg.
  destruct (Live._get_prices_from_source env coingecko valid lw) as [p1 lw1].
  cbn [fst snd] in Hg |- *. destruct Hg as (Hk1 & Hf1 & Ht1 & Hr1).
  pose proof (validate_live_only_reads env p1 valid (Live.world lw1)) as Hv1.
  destruct (Live.validate_price_data env p1 valid (Live.world lw1))
    as [[[is_valid err] outl] w2].
  cbn [fst snd] in Hv1 |- *.
  assert (H02 : only_reads (Live.world lw) w2).
  { eapply only_reads_trans; [|exact Hv1].
    split; [exact Hf1|]. exists []. rewrite app_nil_r.
    split; [exact Ht1 | constructor]. }
  clear Hv1.
  set (tried := (negb is_valid || Live.dict_is_empty p1) && ums
                && Live.coinapi_key env).
  (* the alternate source *)
  lazymatch goal with
  | |- context [(if ?c then ?a else ?b) (Live.mkLive w2 (Live.requests lw1))] =>
      assert (Halt :
        let run := (if c then a else b) (Live.mkLive w2 (Live.requests lw1)) in
        (tried = false -> fst run = p1) /\
        (forall s, is_Some (fst run !! s) -> s ∈ valid) /\
        only_reads (Live.world lw) (Live.world (snd run)) /\
        Live.requests (snd run)
        = Live.requests lw ++ Live.BatchRequest (coin_ids valid)
            :: (if tried then map Live.RateRequest (coin_ids valid) else []));
      [ | destruct ((if c then a else b) (Live.mkLive w2 (Live.requests lw1)))
            as [p2 lw4] ]
  end.
  { cbv zeta. unfold tried.
    destruct ((negb is_valid || Live.dict_is_empty p1) && ums) eqn:E1;
      cbn [andb].
    - destruct (Live.coinapi_key env) eqn:E2.
      + pose proof (get_prices_from_source_spec env coinapi valid
                      (Live.mkLive w2 (Live.requests lw1))) as Ha.
        cbv zeta in Ha.
        destruct (Live._get_prices_from_source env coinapi valid
                    (Live.mkLive w2 (Live.requests lw1))) as [pa lw3].
        cbn [fst snd Live.world Live.requests] in Ha.
        destruct Ha as (Hka & Hfa & Hta & Hra).
        pose proof (validate_live_only_reads env pa valid (Live.world lw3))
          as Hva.
        destruct (Live.validate_price_data env pa valid (Live.world lw3))
          as [[[av erra] outa] w4].
        cbn [fst snd] in Hva |- *.
        assert (H04 : only_reads (Live.world lw) w4).
        { eapply only_reads_trans; [exact H02|].
          eapply only_reads_trans; [|exact Hva].
          split; [exact Hfa|]. exists []. rewrite app_nil_r.
          split; [exact Hta | constructor]. }
        destruct (av && negb (Live.dict_is_empty pa));
          cbn [fst snd Live.world Live.requests].
        * split; [discriminate|].
          split; [intros s Hs; apply Hka, Hs|]. split; [exact H04|].
          rewrite Hra, Hr1, <- app_assoc. reflexivity.
        * split; [reflexivity|].
          split; [intros s Hs; apply Hk1, Hs|]. split; [exact H04|].
          rewrite Hra, Hr1, <- app_assoc. reflexivity.
      + cbn [fst snd Live.world Live.requests].
        split; [reflexivity|]. split; [intros s Hs; apply Hk1, Hs|].
        split; [exact H02|]. rewrite Hr1. reflexivity.
    - cbn [fst snd Live.world Live.requests].
      split; [reflexivity|]. split; [intros s Hs; apply Hk1, Hs|].
      split; [exact H02|]. rewrite Hr1. reflexivity. }
  cbv zeta in Halt. cbn [fst snd] in Halt.
  destruct Halt as (Hp2 & Hk2 & H04 & Hr4).
  destruct lw4 as [w4 reqs4].
  cbn [Live.world Live.requests] in Hr4, H04 |- *. cbv beta iota.
  (* the fallback *)
  pose proof (fun s => get_fallback_prices_keys valid 7 w4 s) as Hkf.
  pose proof (fallback_from_only_reads env 7 valid ∅ w4) as Hfb.
  fold (Live.get_fallback_prices env valid 7 w4) in Hfb.
  exists p2, (fst (Live.get_fallback_prices env valid 7 w4)).
  split; [exact Hp2|]. split; [exact Hk2|].
  split; [intros s Hs; apply (Hkf s Hs)|].
  destruct (Live.dict_is_empty p2 || Nat.ltb (size p2) (length valid)) eqn:E3.
  - cbv beta. cbn [Live.world Live.requests].
    destruct (Live.get_fallback_prices env valid 7 w4) as [fb w5].
    cbv beta iota. cbn [fst snd Live.world Live.requests] in Hfb |- *.
    pose proof (validate_live_only_reads env
                  (Live.merge_fallback valid p2 fb) valid w5) as Hv5.
    destruct (Live.validate_price_data env
                (Live.merge_fallback valid p2 fb) valid w5) as [vv w6].
    cbv beta iota.
    cbn [fst snd Live.world Live.requests] in Hv5 |- *.
    split; [right; reflexivity|]. split; [discriminate|].
    split; [|exact Hr4].
    eapply only_reads_trans; [exact H04|].
    eapply only_reads_trans; [exact Hfb | exact Hv5].
  - cbv beta. cbn [fst snd Live.world Live.requests].
    pose proof (validate_live_only_reads env p2 valid w4) as Hv5.
    destruct (Live.validate_price_data env p2 valid w4) as [vv w6].
    cbv beta iota.
    cbn [fst snd Live.world Live.requests] in Hv5 |- *.
    split; [left; reflexivity|]. split; [reflexivity|].
    split; [|exact Hr4].
    eapply only_reads_trans; [exact H04 | exact Hv5].
Qed.

End LiveRuns.

Lemma filter_nil_iff {A} (f : A -> bool) (l : list A) :
  List.filter f l = [] <-> forall x, x ∈ l -> f x = false.
Proof.
  induction l as [|a l IH]; cbn [List.filter].
  - split; [intros _ x Hx; inversion Hx | reflexivity].
  - destruct (f a) eqn:E.
    + split; [discriminate|]. intros H. specialize (H a ltac:(left)).
      congruence.
    + rewrite IH. split.
      * intros H x Hx. apply elem_of_cons in Hx. destruct Hx as [->|Hx]; auto.
      * intros H x Hx. apply H. right. exact Hx.
Qed.

Lemma filter_filter_same {A} (f : A -> bool) (l : list A) :
  List.filter f (List.filter f l) = List.filter f l.
Proof.
  apply filter_all_true. intros x Hx.
  apply list_elem_of_In, filter_In in Hx. apply Hx.
Qed.

Lemma coin_ids_filter symbols :
  coin_ids (List.filter known_symbol symbols) = coin_ids symbols.
Proof. unfold coin_ids. rewrite filter_filter_same. reflexivity. Qed.

Lemma dict_is_empty_spec {A} (d : gmap string A) :
  Live.dict_is_empty d = true <-> d = ∅.
Proof.
  unfold Live.dict_is_empty. rewrite Nat.eqb_eq. apply map_size_empty_iff.
Qed.

Lemma dict_with_entry_not_empty {A} (d : gmap string A) k x :
  d !! k = Some x -> Live.dict_is_empty d = false.
Proof.
  intros H. destruct (Live.dict_is_empty d) eqn:E; [|reflexivity].
  apply dict_is_empty_spec in E. subst d. rewrite lookup_empty in H.
  discriminate H.
Qed.

(** The verdict of the live-price validation. *)
Lemma validate_live_verdict env prices symbols w :
  fst (fst (fst (Live.validate_price_data env prices symbols w))) = true <->
  (prices <> ∅ /\
   forall s, s ∈ symbols -> exists p, prices !! s = Some p /\ (0 < p)%Q).
Proof.
  unfold Live.validate_price_data.
  destruct (Live.dict_is_empty prices) eqn:Ee.
  { apply dict_is_empty_spec in Ee. cbn. split; [discriminate|].
    intros [H _]. contradiction. }
  assert (Hne : prices <> ∅).
  { intros ->. cbn in Ee. discriminate Ee. }
  destruct (List.filter (fun s => negb (bool_decide (is_Some (prices !! s))))
              symbols) as [|m ms] eqn:Em.
  - destruct (List.filter (fun s => match prices !! s with
                                    | Some p => Qle_bool p 0
                                    | None => false
                                    end) symbols) as [|i is'] eqn:Ei.
    + unfold bind.
      destruct (Live.find_outliers env prices symbols w) as [outliers w1].
      cbn [fst snd ret]. split; [intros _|reflexivity].
      split; [exact Hne|]. intros s Hs.
      pose proof (proj1 (filter_nil_iff _ _) Em s Hs) as H1.
      pose proof (proj1 (filter_nil_iff _ _) Ei s Hs) as H2.
      cbv beta in H1, H2. apply negb_false_iff, bool_decide_eq_true_1 in H1.
      destruct H1 as [p Hp]. rewrite Hp in H2. exists p.
      split; [exact Hp|]. apply Qltb_lt. unfold Qltb. rewrite H2. reflexivity.
    + cbn [fst snd ret]. split; [discriminate|]. intros [_ H].
      assert (Hi : i ∈ List.filter (fun s => match prices !! s with
                                             | Some p => Qle_bool p 0
                                             | None => false
                                             end) symbols)
        by (rewrite Ei; left).
      apply list_elem_of_In, filter_In in Hi. destruct Hi as [Hin Hb].
      destruct (H i (proj2 (list_elem_of_In _ _) Hin)) as (p & Hp & Hpos).
      rewrite Hp in Hb. apply Qle_bool_iff in Hb.
      exfalso. apply (Qlt_not_le _ _ Hpos Hb).
  - cbn [fst snd ret]. split; [discriminate|]. intros [_ H].
    assert (Hi : m ∈ List.filter
                       (fun s => negb (bool_decide (is_Some (prices !! s))))
                       symbols) by (rewrite Em; left).
    apply list_elem_of_In, filter_In in Hi. destruct Hi as [Hin Hb].
    destruct (H m (proj2 (list_elem_of_In _ _) Hin)) as (p & Hp & _).
    apply negb_true_iff, bool_decide_eq_false_1 in Hb.
    exfalso. apply Hb. eauto.
Qed.

(** X22. [get_live_prices] only prices what was asked for and is known:
    every key of the returned dictionary is an input symbol of the provider
    table; with no such symbol among the inputs it returns the empty
    dictionary at once, without a request and without touching the
    cache. *)
Theorem live_prices_only_for_recognized_symbols
    (env : Live.LiveEnv) (symbols : list string) (ums : bool)
    (lw : Live.LiveWorld) :
  let r := Live.get_live_prices env symbols ums lw in
  (forall s, is_Some (fst r !! s) -> s ∈ symbols /\ known_symbol s = true) /\
  (List.filter known_symbol symbols = [] -> r = (∅, lw)).
Proof.
  cbv zeta.
  destruct (List.filter known_symbol symbols) as [|v vs] eqn:Hf.
  - assert (E : Live.get_live_prices env symbols ums lw = (∅, lw)).
    { unfold Live.get_live_prices. rewrite Hf. reflexivity. }
    rewrite E. split; [|reflexivity].
    intros s [p Hp]. cbn [fst] in Hp. rewrite lookup_empty in Hp.
    discriminate Hp.
  - split; [|discriminate]. intros s Hs.
    destruct (get_live_prices_stages env symbols ums lw v vs Hf)
      as (p2 & fb & _ & Hk2 & Hkf & Hres & _).
    apply (filter_known_sound symbols). rewrite Hf.
    destruct Hres as [E|E]; rewrite E in Hs; [exact (Hk2 s Hs)|].
    rewrite merge_fallback_lookup in Hs.
    destruct (p2 !! s) as [p|] eqn:Hp; [apply Hk2; rewrite Hp; eauto|].
    destruct (bool_decide (s ∈ v :: vs)) eqn:Hb.
    + apply bool_decide_eq_true_1 in Hb. exact Hb.
    + destruct Hs as [? Hs]. discriminate Hs.
Qed.

(** X23. [get_live_prices] never writes to the cache and never asks for a
    history: the cache files are left as they were and the only cache
    events are reads. Of the price endpoints it asks the primary provider
    at most once, in one batch for the recognized symbols, and the
    alternate provider - once per recognized symbol - only when
    [use_multiple_sources] is set and [COINAPI_KEY] is present. *)
Theorem live_prices_effects
    (env : Live.LiveEnv) (symbols : list string) (ums : bool)
    (lw : Live.LiveWorld) :
  let r := Live.get_live_prices env symbols ums lw in
  let ids := coin_ids symbols in
  only_reads (Live.world lw) (Live.world (snd r)) /\
  (Live.requests (snd r) = Live.requests lw \/
   Live.requests (snd r) = Live.requests lw ++ [Live.BatchRequest ids] \/
   (ums = true /\ Live.coinapi_key env = true /\
    Live.requests (snd r)
    = Live.requests lw ++ Live.BatchRequest ids :: map Live.RateRequest ids)).
Proof.
  cbv zeta.
  destruct (List.filter known_symbol symbols) as [|v vs] eqn:Hf.
  - assert (E : Live.get_live_prices env symbols ums lw = (∅, lw)).
    { unfold Live.get_live_prices. rewrite Hf. reflexivity. }
    rewrite E. cbn [snd]. split; [apply only_reads_refl | left; reflexivity].
  - destruct (get_live_prices_stages env symbols ums lw v vs Hf)
      as (p2 & fb & _ & _ & _ & _ & _ & Hro & Hreq).
    cbv zeta in Hreq. rewrite <- Hf, coin_ids_filter in Hreq.
    split; [exact Hro|]. rewrite Hreq.
    match goal with
    | |- context [if ?t then _ else _] => destruct t eqn:Et
    end.
    + right. right.
      apply andb_true_iff in Et. destruct Et as [Et Hkey].
      apply andb_true_iff in Et. destruct Et as [_ Hu]. auto.
    + right. left. reflexivity.
Qed.

Section LiveAnswers.
Variable env : Live.LiveEnv.

Lemma extract_price_entry data cid p :
  Live.extract_price data cid = Some p -> data !! cid = Some (Some p).
Proof.
  unfold Live.extract_price. destruct (data !! cid) as [usd|]; [|discriminate].
  intros ->. reflexivity.
Qed.

(** The primary source's dictionary when the provider answers a non-empty
    object. *)
Lemma coingecko_prices_answer symbols lw d :
  Live.simple_price env (tick (Live.world lw)) (coin_ids symbols) = Some d ->
  Live.dict_is_empty d = false ->
  fst (Live._get_prices_from_source env coingecko symbols lw)
  = Live.collect_prices d symbols.
Proof.
  intros Hd He. cbn [Live._get_prices_from_source].
  unfold Live.lbind, Live.request_simple_price. cbv beta iota zeta.
  fold (coin_ids symbols). rewrite Hd, He. reflexivity.
Qed.

(** With the alternate source out of the way, the result holds every
    price of the primary answer. *)
Lemma live_prices_keep_primary symbols ums lw v vs d s p :
  List.filter known_symbol symbols = v :: vs ->
  Live.simple_price env (tick (Live.world lw)) (coin_ids symbols) = Some d ->
  (let g := Live._get_prices_from_source env coingecko (v :: vs) lw in
   (negb (fst (fst (fst (Live.validate_price_data env (fst g) (v :: vs)
                           (Live.world (snd g))))))
    || Live.dict_is_empty (fst g)) && ums && Live.coinapi_key env = false) ->
  s ∈ symbols -> known_symbol s = true ->
  Live.extract_price d (symbol_to_id !!! s) = Some p ->
  fst (Live.get_live_prices env symbols ums lw) !! s = Some p.
Proof.
  intros Hf Hd Htried Hs Hk Hp. cbv zeta in Htried.
  destruct (get_live_prices_stages env symbols ums lw v vs Hf)
    as (p2 & fb & Hp2 & _ & _ & Hres & _).
  cbv zeta in Hp2. specialize (Hp2 Htried).
  assert (Hval : s ∈ v :: vs).
  { rewrite <- Hf. apply list_elem_of_In, filter_In.
    split; [apply list_elem_of_In, Hs | exact Hk]. }
  assert (H1 : p2 !! s = Some p).
  { rewrite Hp2. rewrite <- coin_ids_filter, Hf in Hd.
    rewrite (coingecko_prices_answer (v :: vs) lw d Hd
               (dict_with_entry_not_empty d _ _
                  (extract_price_entry _ _ _ Hp))).
    rewrite collect_prices_lookup.
    rewrite (bool_decide_eq_true_2 _ Hval), Hk. exact Hp. }
  destruct Hres as [E|E]; rewrite E; [exact H1|].
  rewrite merge_fallback_lookup, H1. reflexivity.
Qed.

End LiveAnswers.

(** X24. A usable primary answer is final: when the primary provider
    answers a positive price for every recognized input symbol,
    [get_live_prices] returns exactly those prices for them and makes no
    other request than the one batch request - the alternate provider is
    not asked, key or no key. *)
Theorem live_prices_primary_answer_is_used
    (env : Live.LiveEnv) (symbols : list string) (ums : bool)
    (lw : Live.LiveWorld) (d : gmap string (option Q)) :
  List.filter known_symbol symbols <> [] ->
  Live.simple_price env (tick (Live.world lw)) (coin_ids symbols) = Some d ->
  (forall s, s ∈ symbols -> known_symbol s = true ->
     exists p, Live.extract_price d (symbol_to_id !!! s) = Some p /\ (0 < p)%Q) ->
  let r := Live.get_live_prices env symbols ums lw in
  Live.requests (snd r)
  = Live.requests lw ++ [Live.BatchRequest (coin_ids symbols)] /\
  forall s, s ∈ symbols -> known_symbol s = true ->
    fst r !! s = Live.extract_price d (symbol_to_id !!! s).
Proof.
  intros Hne Hd Hall. cbv zeta.
  destruct (List.filter known_symbol symbols) as [|v vs] eqn:Hf;
    [congruence|]. clear Hne.
  assert (Hvalid : forall s, s ∈ v :: vs ->
            s ∈ symbols /\ known_symbol s = true).
  { intros s Hs. rewrite <- Hf in Hs. apply filter_known_sound, Hs. }
  assert (Hd' : Live.simple_price env (tick (Live.world lw))
                  (coin_ids (v :: vs)) = Some d).
  { rewrite <- Hf, coin_ids_filter. exact Hd. }
  destruct (Hvalid v ltac:(left)) as [Hv Hkv].
  destruct (Hall v Hv Hkv) as (pv & Hpv & _).
  pose proof (coingecko_prices_answer env (v :: vs) lw d Hd'
                (dict_with_entry_not_empty d _ _
                   (extract_price_entry _ _ _ Hpv))) as Hg.
  assert (Hp1 : forall s, s ∈ v :: vs ->
            exists p, Live.collect_prices d (v :: vs) !! s = Some p /\ (0 < p)%Q).
  { intros s Hs. destruct (Hvalid s Hs) as [Hin Hk].
    destruct (Hall s Hin Hk) as (p & Hp & Hpos). exists p.
    rewrite collect_prices_lookup, (bool_decide_eq_true_2 _ Hs), Hk.
    auto. }
  assert (Htried :
    (negb (fst (fst (fst (Live.validate_price_data env
              (fst (Live._get_prices_from_source env coingecko (v :: vs) lw))
              (v :: vs)
              (Live.world
                 (snd (Live._get_prices_from_source env coingecko (v :: vs)
                         lw)))))))
     || Live.dict_is_empty
          (fst (Live._get_prices_from_source env coingecko (v :: vs) lw)))
    && ums && Live.coinapi_key env = false).
  { rewrite Hg.
    destruct (Hp1 v ltac:(left)) as (p & Hp & _).
    rewrite (dict_with_entry_not_empty _ _ _ Hp).
    assert (Hv1 : forall w,
      fst (fst (fst (Live.validate_price_data env
                       (Live.collect_prices d (v :: vs)) (v :: vs) w)))
      = true).
    { intros w. apply validate_live_verdict. split; [|exact Hp1].
      intros E. rewrite E, lookup_empty in Hp. discriminate Hp. }
    rewrite Hv1. reflexivity. }
  split.
  - destruct (get_live_prices_stages env symbols ums lw v vs Hf)
      as (p2 & fb & _ & _ & _ & _ & _ & _ & Hreq).
    cbv zeta in Hreq. rewrite Htried in Hreq.
    rewrite <- Hf, coin_ids_filter in Hreq. exact Hreq.
  - intros s Hs Hk. destruct (Hall s Hs Hk) as (p & Hp & _).
    rewrite Hp.
    apply (live_prices_keep_primary env symbols ums lw v vs d s p Hf Hd
             Htried Hs Hk Hp).
Qed.

Lemma live_prices_primary_answer_witness :
  Live.requests
    (snd (Live.get_live_prices quoting_env ["BTC"; "ETH"; "FOO"] true
            Live.empty_live_world))
  = Live.requests Live.empty_live_world
    ++ [Live.BatchRequest (coin_ids ["BTC"; "ETH"; "FOO"])] /\
  forall s, s ∈ ["BTC"; "ETH"; "FOO"] -> known_symbol s = true ->
    fst (Live.get_live_prices quoting_env ["BTC"; "ETH"; "FOO"] true
           Live.empty_live_world) !! s
    = Live.extract_price quoted_prices (symbol_to_id !!! s).
Proof.
  apply (live_prices_primary_answer_is_used quoting_env
           ["BTC"; "ETH"; "FOO"] true Live.empty_live_world quoted_prices).
  - vm_compute. discriminate.
  - reflexivity.
  - intros s Hs Hk.
    apply elem_of_cons in Hs. destruct Hs as [->|Hs].
    { exists 60000%Q. split; [vm_compute; reflexivity | reflexivity]. }
    apply elem_of_cons in Hs. destruct Hs as [->|Hs].
    { exists 3000%Q. split; [vm_compute; reflexivity | reflexivity]. }
    apply elem_of_cons in Hs. destruct Hs as [->|Hs];
      [vm_compute in Hk; discriminate Hk | inversion Hs].
Defined.

(** X25. Live prices are returned as the provider gave them: when the
    alternate source is out of play ([use_multiple_sources] unset or no
    [COINAPI_KEY]), every price the primary provider answers for a
    recognized input symbol is in the result unchanged - also a zero or
    negative one, which the validation only logs, and never replaced by a
    cached price. *)
Theorem live_prices_are_not_filtered
    (env : Live.LiveEnv) (symbols : list string) (ums : bool)
    (lw : Live.LiveWorld) (d : gmap string (option Q)) (s : string) (p : Q) :
  ums = false \/ Live.coinapi_key env = false ->
  Live.simple_price env (tick (Live.world lw)) (coin_ids symbols) = Some d ->
  s ∈ symbols -> known_symbol s = true ->
  Live.extract_price d (symbol_to_id !!! s) = Some p ->
  fst (Live.get_live_prices env symbols ums lw) !! s = Some p.
Proof.
  intros Hoff Hd Hs Hk Hp.
  destruct (List.filter known_symbol symbols) as [|v vs] eqn:Hf.
  { exfalso.
    assert (Hin : s ∈ List.filter known_symbol symbols).
    { apply list_elem_of_In, filter_In.
      split; [apply list_elem_of_In, Hs | exact Hk]. }
    rewrite Hf in Hin. inversion Hin. }
  apply (live_prices_keep_primary env symbols ums lw v vs d s p Hf Hd);
    try assumption.
  cbv zeta. destruct Hoff as [-> | ->].
  - rewrite andb_false_r. reflexivity.
  - rewrite andb_false_r. reflexivity.
Qed.

Lemma live_prices_are_not_filtered_witness :
  fst (Live.get_live_prices zero_quote_env ["BTC"; "ETH"] true
         Live.empty_live_world) !! "BTC" = Some 0%Q.
Proof.
  apply (live_prices_are_not_filtered zero_quote_env ["BTC"; "ETH"] true
           Live.empty_live_world (<["bitcoin" := Some 0%Q]> ∅) "BTC" 0%Q).
  - right. reflexivity.
  - reflexivity.
  - apply list_elem_of_here.
  - vm_compute. reflexivity.
  - vm_compute. reflexivity.
Defined.

(** X26. The live-price validation accepts a dictionary exactly when it is
    not empty and holds a positive price for every requested symbol; a
    price far from the cached one is only logged and never changes the
    verdict. The validation leaves the cache files as they are. *)
Theorem live_validation_verdict
    (env : Live.LiveEnv) (prices : gmap string Q) (symbols : list string)
    (w : World) :
  let r := Live.validate_price_data env prices symbols w in
  (fst (fst (fst r)) = true <->
   (prices <> ∅ /\
    forall s, s ∈ symbols -> exists p, prices !! s = Some p /\ (0 < p)%Q)) /\
  only_reads w (snd r).
Proof.
  cbv zeta. split.
  - apply validate_live_verdict.
  - apply validate_live_only_reads.
Qed.

Section FallbackProperties.
Variable env : Live.LiveEnv.
Variable days : Z.

Lemma fallback_from_sound symbols : forall prices w s p,
  fst (Live.fallback_from env days symbols prices w) !! s = Some p ->
  prices !! s = Some p \/
  (s ∈ symbols /\ known_symbol s = true /\
   exists t d, files w !! symbol_cache_path s days = Some (CacheRecord t d) /\
               Live.latest_price d = Some p).
Proof.
  induction symbols as [|x rest IH]; intros prices w s p; [cbn; auto|].
  cbn [Live.fallback_from]. destruct (known_symbol x) eqn:Hk.
  - unfold bind.
    pose proof (load_from_cache_only_reads (Live.base env)
                  (symbol_to_id !!! x) days 24 w) as [Hfiles _].
    pose proof (load_from_cache_some (Live.base env) days
                  (symbol_to_id !!! x) 24 w) as Hsome.
    destruct (load_from_cache (Live.base env) (symbol_to_id !!! x) days 24 w)
      as [c w1].
    cbn [fst snd] in Hfiles, Hsome. cbv beta iota.
    intros Hres. apply IH in Hres. rewrite Hfiles in Hres.
    destruct Hres as [H|(H1 & H2 & H3)].
    + destruct c as [d|]; [|auto].
      destruct (Live.latest_price d) as [latest|] eqn:Hl; [|auto].
      destruct (decide (s = x)) as [E|Hne].
      * subst s. rewrite lookup_insert_eq in H. injection H as ->.
        right. split; [left|]. split; [exact Hk|].
        destruct (Hsome d eq_refl) as [t Ht]. exists t, d.
        split; [exact Ht | exact Hl].
      * left. rewrite lookup_insert_ne in H by congruence. exact H.
    + right. split; [right; exact H1|]. auto.
  - intros Hres. apply IH in Hres.
    destruct Hres as [H|(H1 & H2 & H3)]; [auto|].
    right. split; [right; exact H1|]. auto.
Qed.

Lemma load_from_cache_tick cid max_age w :
  tick (snd (load_from_cache (Live.base env) cid days max_age w))
  = (tick w
     + if is_cache_record (files w !! get_cache_path cid days) then 1 else 0)%nat.
Proof.
  unfold load_from_cache, bind, read_file. cbv beta iota.
  destruct (files w !! get_cache_path cid days) as [[|t d]|];
    cbn [is_cache_record].
  - step_ret. cbn [tick]. lia.
  - unfold time_time. cbv beta iota. cbn [files tick trace].
    destruct (Qgtb _ _); step_ret; cbn [tick]; lia.
  - step_ret. cbn [tick]. lia.
Qed.

(** A price, once in the dictionary, stays. *)
Lemma fallback_from_keeps_keys symbols : forall prices w s,
  is_Some (prices !! s) ->
  is_Some (fst (Live.fallback_from env days symbols prices w) !! s).
Proof.
  induction symbols as [|x rest IH]; intros prices w s Hs; [exact Hs|].
  cbn [Live.fallback_from]. destruct (known_symbol x); [|apply IH, Hs].
  unfold bind.
  destruct (load_from_cache (Live.base env) (symbol_to_id !!! x) days 24 w)
    as [c w1].
  cbv beta iota. apply IH.
  destruct c as [d|]; [|exact Hs].
  destruct (Live.latest_price d) as [latest|]; [|exact Hs].
  destruct (decide (s = x)) as [->|Hne].
  - rewrite lookup_insert_eq. eauto.
  - rewrite lookup_insert_ne by congruence. exact Hs.
Qed.

(** The symbol at position [i] gets a price when its record has a point
    and is fresh at the step at which the loop reads it. *)
Lemma fallback_from_hit symbols : forall i prices w s t d p,
  symbols !! i = Some s -> known_symbol s = true ->
  files w !! symbol_cache_path s days = Some (CacheRecord t d) ->
  (time_at (Live.base env)
     (tick w + clock_reads (files w) days (take i symbols)) - t
   <= 24 * 3600)%Q ->
  Live.latest_price d = Some p ->
  is_Some (fst (Live.fallback_from env days symbols prices w) !! s).
Proof.
  induction symbols as [|x rest IH]; intros i prices w s t d p Hi Hk Hf Hage Hp;
    [inversion Hi|].
  cbn [Live.fallback_from]. destruct i as [|i].
  - cbn in Hi. injection Hi as ->. rewrite Hk.
    cbn [take clock_reads List.filter length] in Hage.
    rewrite Nat.add_0_r in Hage.
    destruct (load_from_cache_fresh (Live.base env) days
                (symbol_to_id !!! s) w) as [d' Hd'].
    { exists t, d. split; [exact Hf | exact Hage]. }
    pose proof (load_from_cache_some (Live.base env) days
                  (symbol_to_id !!! s) 24 w d') as Hsome.
    unfold bind. rewrite Hd' in Hsome |- *. cbn [fst] in Hsome.
    destruct (Hsome eq_refl) as [t' Ht'].
    unfold symbol_cache_path in Hf. rewrite Hf in Ht'.
    injection Ht' as _ <-. cbv beta iota. rewrite Hp.
    apply fallback_from_keeps_keys. rewrite lookup_insert_eq. eauto.
  - cbn in Hi.
    assert (Hreads :
      (tick w + clock_reads (files w) days (take (S i) (x :: rest))
       = tick w
         + (if known_symbol x
               && is_cache_record (files w !! symbol_cache_path x days)
            then 1 else 0)
         + clock_reads (files w) days (take i rest))%nat).
    { cbn [take]. unfold clock_reads. cbn [List.filter].
      destruct (known_symbol x
                && is_cache_record (files w !! symbol_cache_path x days));
        cbn [length]; lia. }
    rewrite Hreads in Hage. clear Hreads.
    destruct (known_symbol x) eqn:Hkx; cbn [andb] in Hage.
    + unfold bind.
      pose proof (load_from_cache_only_reads (Live.base env)
                    (symbol_to_id !!! x) days 24 w) as [Hfiles _].
      pose proof (load_from_cache_tick (symbol_to_id !!! x) 24 w) as Htick.
      destruct (load_from_cache (Live.base env) (symbol_to_id !!! x) days 24 w)
        as [c w1].
      cbn [fst snd] in Hfiles, Htick. cbv beta iota.
      apply (IH i _ w1 s t d p Hi Hk).
      * rewrite Hfiles. exact Hf.
      * rewrite Hfiles, Htick. exact Hage.
      * exact Hp.
    + rewrite Nat.add_0_r in Hage.
      apply (IH i prices w s t d p Hi Hk Hf Hage Hp).
Qed.

End FallbackProperties.

(** X27. The fallback prices are the last cached prices: every price
    [get_fallback_prices] returns belongs to a recognized requested symbol
    and is the price of the last point of that symbol's cache record for
    the window; conversely a recognized requested symbol whose record is
    at most 24 hours old at the moment the loop reads it gets the last
    price of the record (and none when the cached series is empty). The
    clock has been read once for each readable record looked up before.
    The cache is only read. *)
Theorem fallback_prices_are_last_cached_prices
    (env : Live.LiveEnv) (symbols : list string) (days : Z) (w : World) :
  let r := Live.get_fallback_prices env symbols days w in
  only_reads w (snd r) /\
  (forall s p, fst r !! s = Some p ->
     s ∈ symbols /\ known_symbol s = true /\
     exists t d,
       files w !! symbol_cache_path s days = Some (CacheRecord t d) /\
       Live.latest_price d = Some p) /\
  (forall i s t d,
     symbols !! i = Some s -> known_symbol s = true ->
     files w !! symbol_cache_path s days = Some (CacheRecord t d) ->
     (time_at (Live.base env)
        (tick w + clock_reads (files w) days (take i symbols)) - t
      <= 24 * 3600)%Q ->
     fst r !! s = Live.latest_price d).
Proof.
  cbv zeta. unfold Live.get_fallback_prices.
  assert (Hsound : forall s p,
    fst (Live.fallback_from env days symbols ∅ w) !! s = Some p ->
    s ∈ symbols /\ known_symbol s = true /\
    exists t d,
      files w !! symbol_cache_path s days = Some (CacheRecord t d) /\
      Live.latest_price d = Some p).
  { intros s p H. apply fallback_from_sound in H.
    destruct H as [H|H]; [|exact H].
    rewrite lookup_empty in H. discriminate H. }
  split; [apply fallback_from_only_reads|]. split; [exact Hsound|].
  intros i s t d Hi Hk Hf Hage.
  destruct (fst (Live.fallback_from env days symbols ∅ w) !! s) as [q|] eqn:Hq.
  - destruct (Hsound s q Hq) as (_ & _ & t' & d' & Hf' & Hl).
    rewrite Hf in Hf'. injection Hf' as _ <-. symmetry. exact Hl.
  - destruct (Live.latest_price d) as [p|] eqn:Hp; [|reflexivity].
    destruct (fallback_from_hit env days symbols i ∅ w s t d p Hi Hk Hf Hage Hp)
      as [q' Hq'].
    rewrite Hq in Hq'. discriminate Hq'.
Qed.

(** X28. No recognized symbol is lost: the columns of the matrix followed
    by the missing symbols are, up to order, exactly the recognized input
    symbols, each as often as it was requested - every one of them ends up
    either as a column or reported missing. *)
Theorem history_accounts_for_every_recognized_symbol
    (env : Env) (symbols : list string) (days : Z) (ums : bool) (w : World) :
  let r := fst (get_historical_prices env symbols days ums w) in
  column_names (fst r) ++ snd r ≡ₚ List.filter known_symbol symbols.
Proof.
  cbv zeta. rewrite get_historical_prices_unfold.
  pose proof (fetch_all_partition env days ums
                (List.filter known_symbol symbols) [] [] w) as Hp.
  cbv zeta in Hp. cbn [map app] in Hp.
  destruct (List.filter known_symbol symbols) as [|v vs]; [reflexivity|].
  destruct (fetch_all env days ums (v :: vs) ([], []) w) as [[ap ms] w1].
  cbn [fst snd] in Hp |- *. destruct ap as [|a ap].
  - cbn [fst snd column_names empty_frame columns map app] in Hp |- *.
    reflexivity.
  - cbn [fst snd]. rewrite column_names_concat_daily. exact Hp.
Qed.

(** ** The optimize endpoint *)

(** X29. Holdings the provider table does not know, at the endpoint, for
    a request with two or more holdings. When the [lookback_days] entry is
    one [int()] rejects, the endpoint answers 500 with the exception's
    message before anything but the clock was read. Otherwise: when none
    of the holdings is a recognized symbol it answers 500 "could not
    retrieve current prices" without any price request or cache access
    (only the clock was read); when fewer than two are recognized but a
    live price was found, it answers 200 with the optimizer's null result
    and its not-enough-history note if the weight preferences are numbers
    or absent, and 500 with the exception's message if the [max_weight] or
    [min_weight] preference is not a number. *)
Theorem optimize_endpoint_with_unrecognized_holdings
    (lib : Library) (env : Live.LiveEnv) (data : App.RequestData)
    (lw : Live.LiveWorld) :
  (2 <= length (default [] (App.rq_holdings data)))%nat ->
  let holdings := default [] (App.rq_holdings data) in
  let lw1 := snd (Live.lift (time_time (Live.base env)) lw) in
  let r := App.optimize lib env (Some data) lw in
  (App.rq_lookback_days data = App.LookbackBad ->
   r = (App.mkResponse 500 (App.ErrorBody App.UncaughtException), lw1)) /\
  (App.rq_lookback_days data <> App.LookbackBad ->
   (List.filter known_symbol (map fst holdings) = [] ->
    fst r = App.mkResponse 500 (App.ErrorBody App.NoCurrentPrices) /\
    snd r = lw1) /\
   ((length (List.filter known_symbol (map fst holdings)) < 2)%nat ->
    Live.dict_is_empty
      (fst (Live.get_live_prices env (map fst holdings) true lw1)) = false ->
    if invalid_weight_preference (default PrefNone (App.rq_preferences data))
    then fst r = App.mkResponse 500 (App.ErrorBody App.UncaughtException)
    else exists missing,
      fst r = App.mkResponse 200
                (App.ResultBody (null_result (NotEnoughHistory missing))))).
Proof.
  intros Hlen. cbv zeta.
  assert (Hne : App.request_is_empty data = false).
  { unfold App.request_is_empty.
    destruct (App.rq_holdings data); [reflexivity|]. cbn in Hlen. lia. }
  unfold App.optimize, Live.lbind, Live.lret.
  destruct (Live.lift (time_time (Live.base env)) lw) as [start lw1].
  cbn [snd]. rewrite Hne.
  set (holdings := default [] (App.rq_holdings data)) in *.
  destruct (Nat.ltb_spec (length holdings) 2) as [Hlt|_]; [lia|].
  assert (Hempty : Live.dict_is_empty (∅ : gmap string Q) = true)
    by (apply dict_is_empty_spec; reflexivity).
  split; [intros Hbad; rewrite Hbad; reflexivity|].
  intros Hlb. split.
  - intros Hnone.
    assert (E : Live.get_live_prices env (map fst holdings) true lw1
                = (∅, lw1)).
    { unfold Live.get_live_prices. rewrite Hnone. reflexivity. }
    destruct (App.rq_lookback_days data); try congruence;
      rewrite E; cbv beta iota; rewrite Hempty; cbn [fst snd]; auto.
  - intros Hfew Hprices.
    destruct (App.rq_lookback_days data) as [|z|] eqn:El; try congruence;
      destruct (Live.get_live_prices env (map fst holdings) true lw1)
        as [prices lw2];
      cbn [fst] in Hprices; rewrite Hprices; unfold Live.lift;
      destruct (App.rq_preferences data) as [[| |d|]|];
      cbn [default invalid_weight_preference];
      match goal with
      | |- context [optimize_portfolio lib ?e ?h ?r ?p ?pr ?l ?rf ?w] =>
          pose proof (optimize_portfolio_stages lib e h r p pr l rf w) as Hs;
          pose proof (history_columns_bounded e (map fst h) l true w) as Hb;
          cbv zeta in Hs;
          destruct (optimize_portfolio lib e h r p pr l rf w) as [out w3]
      end;
      destruct (Nat.ltb_spec (length holdings) 2) as [Hlt|_]; try lia;
      cbn [invalid_weight_preference] in Hs;
      try (injection Hs as -> _; reflexivity);
      match type of Hs with
      | context [Nat.ltb (length (columns ?df)) 2] =>
          destruct (Nat.ltb_spec (length (columns df)) 2) as [_|Hge];
          [|lia]
      end;
      rewrite orb_true_r in Hs; injection Hs as -> _;
      cbv beta iota;
      destruct (time_time (Live.base env) w3) as [now w4];
      eexists; reflexivity.
Qed.

Lemma optimize_endpoint_unrecognized_witness :
  (App.rq_lookback_days one_known_request = App.LookbackBad ->
   App.optimize (sample_library equal_weight_solver every_target)
     quoting_env (Some one_known_request) Live.empty_live_world
   = (App.mkResponse 500 (App.ErrorBody App.UncaughtException),
      snd (Live.lift (time_time (Live.base quoting_env))
             Live.empty_live_world))) /\
  (App.rq_lookback_days one_known_request <> App.LookbackBad ->
   (List.filter known_symbol
      (map fst (default [] (App.rq_holdings one_known_request))) = [] ->
    fst (App.optimize (sample_library equal_weight_solver every_target)
           quoting_env (Some one_known_request) Live.empty_live_world)
    = App.mkResponse 500 (App.ErrorBody App.NoCurrentPrices) /\
    snd (App.optimize (sample_library equal_weight_solver every_target)
           quoting_env (Some one_known_request) Live.empty_live_world)
    = snd (Live.lift (time_time (Live.base quoting_env))
             Live.empty_live_world)) /\
   ((length (List.filter known_symbol
               (map fst (default [] (App.rq_holdings one_known_request))))
     < 2)%nat ->
    Live.dict_is_empty
      (fst (Live.get_live_prices quoting_env
              (map fst (default [] (App.rq_holdings one_known_request))) true
              (snd (Live.lift (time_time (Live.base quoting_env))
                      Live.empty_live_world)))) = false ->
    if invalid_weight_preference
         (default PrefNone (App.rq_preferences one_known_request))
    then fst (App.optimize (sample_library equal_weight_solver every_target)
                quoting_env (Some one_known_request) Live.empty_live_world)
         = App.mkResponse 500 (App.ErrorBody App.UncaughtException)
    else exists missing,
      fst (App.optimize (sample_library equal_weight_solver every_target)
             quoting_env (Some one_known_request) Live.empty_live_world)
      = App.mkResponse 200
          (App.ResultBody (null_result (NotEnoughHistory missing))))).
Proof.
  apply (optimize_endpoint_with_unrecognized_holdings
           (sample_library equal_weight_solver every_target) quoting_env
           one_known_request Live.empty_live_world).
  cbn. lia.
Defined.

(** ** Historical returns *)

Lemma simple_returns_length prev l :
  length (simple_returns prev l) = length l.
Proof.
  revert prev. induction l as [|x r IH]; intros prev; [reflexivity|].
  cbn. rewrite IH. reflexivity.
Qed.

Lemma pct_change_from_prices a l :
  Forall (fun x => ~ (x == 0)%Q) (a :: l) ->
  pct_change_from (Some a) (map Some l) = map Some (simple_returns a l).
Proof.
  revert a. induction l as [|x r IH]; intros a Hnz; [reflexivity|].
  apply Forall_cons in Hnz. destruct Hnz as [Ha Hr].
  cbn [map pct_change_from simple_returns].
  destruct (Qeq_bool a 0) eqn:E; [apply Qeq_bool_iff in E; contradiction|].
  rewrite IH by exact Hr. reflexivity.
Qed.

Lemma pct_change_col_prices ps :
  ps <> [] -> Forall (fun x => ~ (x == 0)%Q) ps ->
  pct_change_col (map Some ps) = None :: map Some (column_returns ps).
Proof.
  intros Hne Hnz. destruct ps as [|p0 rest]; [congruence|].
  cbn [map pct_change_col column_returns].
  rewrite pct_change_from_prices by exact Hnz. reflexivity.
Qed.

Lemma column_returns_length ps :
  length (column_returns ps) = Nat.pred (length ps).
Proof.
  destruct ps as [|p0 rest]; [reflexivity|].
  cbn. apply simple_returns_length.
Qed.

(** Telescoping: the running product of the gross returns is the price
    relative to the first price. *)
Lemma cumprod_from_telescopes l : forall a acc t,
  Forall (fun x => ~ (x == 0)%Q) (a :: l) ->
  (t < length l)%nat ->
  (nth t (Returns.cumprod_from acc
            (map (fun x => (1 + x)%Q) (simple_returns a l))) 0
   == acc * nth t l 0 / a)%Q.
Proof.
  induction l as [|x r IH]; intros a acc t Hnz Ht; [cbn in Ht; lia|].
  apply Forall_cons in Hnz. destruct Hnz as [Ha Hr].
  pose proof Hr as Hr'. apply Forall_cons in Hr'. destruct Hr' as [Hx _].
  cbn [simple_returns map Returns.cumprod_from].
  assert (Hv : (acc * (1 + Qred ((x - a) / a)) == acc * x / a)%Q).
  { rewrite Qred_correct. field. exact Ha. }
  destruct t as [|t]; cbn [nth].
  - exact Hv.
  - rewrite IH by (try exact Hr; cbn in Ht; lia).
    rewrite Hv. field. split; assumption.
Qed.

Lemma mapM_id_Some (l : list Q) :
  mapM (fun x : option Q => x) (map Some l) = Some l.
Proof.
  induction l as [|x r IH]; [reflexivity|].
  cbn [map]. cbn. rewrite IH. reflexivity.
Qed.

Lemma nth_map_Some (l : list Q) t :
  (t < length l)%nat -> nth t (map Some l) None = Some (nth t l 0%Q).
Proof.
  revert t. induction l as [|x r IH]; intros t Ht; [cbn in Ht; lia|].
  destruct t as [|t]; [reflexivity|]. cbn. apply IH. cbn in Ht. lia.
Qed.

Lemma map_nth_seq (l : list Q) :
  map (fun t => nth t l 0%Q) (seq 0 (length l)) = l.
Proof.
  induction l as [|x r IH]; [reflexivity|].
  cbn [length seq map nth]. rewrite <- seq_shift, map_map. cbn [nth].
  rewrite IH. reflexivity.
Qed.

Lemma nth_map_lookup {A B} (f : A -> B) (l : list A) j c d :
  l !! j = Some c -> nth j (map f l) d = f c.
Proof.
  revert j. induction l as [|x r IH]; intros j H; [inversion H|].
  destruct j as [|j]; cbn in H |- *; [congruence | apply IH, H].
Qed.

Lemma cumprod_from_length acc l :
  length (Returns.cumprod_from acc l) = length l.
Proof.
  revert acc. induction l as [|x r IH]; intros acc; [reflexivity|].
  cbn. rewrite IH. reflexivity.
Qed.

Section ReturnsOfPrices.
Variable cols : list (string * list Q).
Variable m : nat.
Hypothesis cols_nonempty : cols <> [].
Hypothesis cols_ok :
  Forall (fun c => length (snd c) = S m /\
                   Forall (fun x => ~ (x == 0)%Q) (snd c)) cols.

(** The returns of row [t], one per column. *)
Let vals (t : nat) : list Q :=
  map (fun c => nth t (column_returns (snd c)) 0%Q) cols.

Lemma pct_change_columns idx :
  map (fun c => pct_change_col (snd c)) (columns (price_frame idx cols))
  = map (fun c => None :: map Some (column_returns (snd c))) cols.
Proof.
  unfold price_frame. cbn [columns]. rewrite map_map. cbn [snd].
  apply map_ext_in. intros c Hc.
  rewrite Forall_forall in cols_ok.
  destruct (cols_ok c (proj2 (list_elem_of_In _ _) Hc)) as [Hlen Hnz].
  apply pct_change_col_prices; [|exact Hnz].
  intros E. rewrite E in Hlen. discriminate Hlen.
Qed.

Lemma return_rows :
  rows_of (S m)
    (map (fun c => None :: map Some (column_returns (snd c))) cols)
  = map (fun _ => None) cols
    :: map (fun t => map Some (vals t)) (seq 0 m).
Proof.
  unfold rows_of. cbn [seq map]. f_equal.
  - unfold row_at. rewrite map_map. reflexivity.
  - rewrite <- seq_shift, map_map. apply map_ext_in. intros t Ht.
    apply in_seq in Ht. unfold row_at, vals. rewrite !map_map.
    apply map_ext_in. intros c Hc. cbn [nth].
    apply nth_map_Some.
    rewrite Forall_forall in cols_ok.
    destruct (cols_ok c (proj2 (list_elem_of_In _ _) Hc)) as [Hlen _].
    rewrite column_returns_length, Hlen. cbn. lia.
Qed.

Lemma dropna_complete_rows (idx' : list Z) (rows : list (list Q)) :
  Returns.dropna_indexed idx' (map (map Some) rows) = zip idx' rows.
Proof.
  unfold Returns.dropna_indexed.
  revert rows. induction idx' as [|i idx' IH]; intros rows; [reflexivity|].
  destruct rows as [|r rows]; [reflexivity|].
  cbn [map zip zip_with omap list_omap fst snd].
  rewrite mapM_id_Some. cbn [option_map]. f_equal. apply IH.
Qed.

Lemma dropna_first_row i0 idx' rows :
  Returns.dropna_indexed (i0 :: idx') (map (fun _ => None) cols :: rows)
  = Returns.dropna_indexed idx' rows.
Proof.
  unfold Returns.dropna_indexed.
  cbn [zip zip_with omap list_omap fst snd].
  destruct cols as [|c rest]; [congruence|]. reflexivity.
Qed.

(** The returns frame of a gap-free frame of non-zero prices. *)
Lemma returns_of_prices i0 idx' :
  length idx' = m ->
  Returns.dropna_indexed (i0 :: idx')
    (rows_of (length (i0 :: idx'))
       (map (fun c => pct_change_col (snd c))
            (columns (price_frame (i0 :: idx') cols))))
  = zip idx' (map vals (seq 0 m)).
Proof.
  intros Hlen. rewrite pct_change_columns. cbn [length]. rewrite Hlen.
  rewrite return_rows, dropna_first_row.
  rewrite <- (map_map vals (map Some)).
  apply dropna_complete_rows.
Qed.

Lemma return_column j name ps :
  cols !! j = Some (name, ps) ->
  map (fun t => (1 + nth j (vals t) 0)%Q) (seq 0 m)
  = map (fun x => (1 + x)%Q) (column_returns ps).
Proof.
  intros Hj. unfold vals.
  assert (Hlen : length (column_returns ps) = m).
  { rewrite Forall_forall in cols_ok.
    destruct (cols_ok (name, ps)) as [Hl _].
    { eapply list_elem_of_lookup_2. exact Hj. }
    rewrite column_returns_length. cbn [snd] in Hl. rewrite Hl. reflexivity. }
  rewrite <- (map_nth_seq (column_returns ps)) at 1.
  rewrite map_map, Hlen. apply map_ext. intros t.
  rewrite (nth_map_lookup _ cols j (name, ps) 0%Q Hj). reflexivity.
Qed.

End ReturnsOfPrices.

(** X30. The chart series are prices relative to the first day: for a
    price matrix without gaps and without zero prices,
    [generate_historical_returns] returns the dates of all rows but the
    first and, for every asset, one value per date that equals the
    asset's price on that date divided by its price on the first day. *)
Theorem historical_returns_are_relative_prices
    (idx : list Z) (cols : list (string * list Q)) :
  idx <> [] -> cols <> [] ->
  Forall (fun c => length (snd c) = length idx /\
                   Forall (fun x => ~ (x == 0)%Q) (snd c)) cols ->
  let out := Returns.generate_historical_returns (price_frame idx cols) in
  Returns.dates out = tl idx /\
  forall j name ps, cols !! j = Some (name, ps) ->
    exists series,
      Returns.asset_returns out !! j = Some (name, series) /\
      length series = length (tl idx) /\
      forall t, (t < length series)%nat ->
        (nth t series 0 == nth (S t) ps 0 / nth 0 ps 0)%Q.
Proof.
  intros Hidx Hcols Hok. cbv zeta.
  destruct idx as [|i0 idx']; [congruence|]. clear Hidx.
  cbn [length tl] in *.
  set (m := length idx') in *.
  unfold Returns.generate_historical_returns.
  change (index (price_frame (i0 :: idx') cols)) with (i0 :: idx').
  rewrite (returns_of_prices cols m Hcols Hok i0 idx' eq_refl).
  cbn [Returns.dates Returns.asset_returns].
  assert (Hlen : length (map (fun t => map (fun c =>
                   nth t (column_returns (snd c)) 0%Q) cols) (seq 0 m)) = m)
    by (rewrite length_map, length_seq; reflexivity).
  split.
  - apply fst_zip. rewrite Hlen. unfold m. lia.
  - intros j name ps Hj.
    eexists. split.
    + rewrite list_lookup_imap. unfold column_names, price_frame.
      cbn [columns]. rewrite map_map. cbn [fst].
      rewrite list_lookup_fmap, Hj. reflexivity.
    + rewrite <- (map_map snd (fun row => (1 + nth j row 0)%Q)).
      rewrite snd_zip by (rewrite Hlen; unfold m; lia).
      rewrite map_map.
      rewrite (return_column cols m Hok j name ps Hj).
      unfold Returns.cumprod.
      rewrite cumprod_from_length, length_map.
      assert (Hps : length ps = S m /\ Forall (fun x => ~ (x == 0)%Q) ps).
      { rewrite Forall_forall in Hok. apply (Hok (name, ps)).
        eapply list_elem_of_lookup_2. exact Hj. }
      destruct Hps as [Hl Hnz].
      rewrite column_returns_length, Hl. split; [reflexivity|].
      intros t Ht. destruct ps as [|p0 rest]; [discriminate Hl|].
      cbn [column_returns nth]. cbn in Hl, Ht.
      rewrite cumprod_from_telescopes by (try exact Hnz; lia).
      field. apply Forall_cons in Hnz. apply Hnz.
Qed.

Lemma historical_returns_witness :
  Returns.dates (Returns.generate_historical_returns three_day_frame)
  = tl [10; 11; 12] /\
  forall j name ps,
    [("BTC", [100%Q; 110%Q; 99%Q]); ("ETH", [50%Q; 40%Q; 60%Q])] !! j
    = Some (name, ps) ->
    exists series,
      Returns.asset_returns (Returns.generate_historical_returns
                               three_day_frame) !! j
      = Some (name, series) /\
      length series = length (tl [10; 11; 12]) /\
      forall t, (t < length series)%nat ->
        (nth t series 0 == nth (S t) ps 0 / nth 0 ps 0)%Q.
Proof.
  apply (historical_returns_are_relative_prices [10; 11; 12]
           [("BTC", [100%Q; 110%Q; 99%Q]); ("ETH", [50%Q; 40%Q; 60%Q])]).
  - discriminate.
  - discriminate.
  - repeat (apply List.Forall_cons || apply List.Forall_nil);
      (split; [reflexivity|]);
      repeat (apply List.Forall_cons || apply List.Forall_nil);
      intros H; vm_compute in H; discriminate H.
Defined.
